(** * quickblog-backend: the authentication and token-lifecycle core

    A shallow embedding of [models/User.js] (schema validators, hook,
    methods), of the authentication middleware ([auth], [adminAuth],
    [optionalAuth], [verifyRefreshToken]), of the admin routes on users,
    and of the methods of [models/Blog.js] with the routes that like,
    delete and show a blog, followed by the properties of the
    specification stated over that embedding.

    The process state (environment, users collection, clock, entropy,
    console) is threaded explicitly; a JavaScript exception is a [Throw]
    result.  The npm packages the code calls (jsonwebtoken, bcryptjs,
    the ObjectId cast of Mongoose) are an interface, [Library]. *)

From Stdlib Require Import String Ascii ZArith List Bool Arith Lia.
Import ListNotations.
Local Open Scope string_scope.

Set Implicit Arguments.

(* ===================================================================== *)
(** ** JavaScript values, errors and results *)

(** An [Error] object, reduced to the two properties the code reads. *)
Record Exn := mkExn { exn_name : string; exn_message : string }.

Inductive Result (A : Type) : Type :=
| Ok (a : A)
| Throw (e : Exn).
Arguments Ok {A} a.
Arguments Throw {A} e.

(** [role: { type: String, enum: ['user', 'admin'] }] *)
Inductive Role := RoleUser | RoleAdmin.

Definition Role_eqb (a b : Role) : bool :=
  match a, b with
  | RoleUser, RoleUser | RoleAdmin, RoleAdmin => true
  | _, _ => false
  end.

(** An element of [refreshTokens]: [{ token, createdAt }]. *)
Record RefreshEntry := mkRefreshEntry { token : string; createdAt : Z }.

(** A document of the users collection, as [userSchema] declares it.
    [_id] is the hexadecimal text of the ObjectId; dates are seconds. *)
Record User := mkUser {
  _id : string;
  name : string;
  email : string;
  password : string;
  role : Role;
  avatar : string;
  bio : string;
  isActive : bool;
  lastLogin : Z;
  refreshTokens : list RefreshEntry
}.

(** The schema paths a document tracks modifications of. *)
Inductive Path :=
| Pname | Pemail | Ppassword | Prole | Pavatar | Pbio
| PisActive | PlastLogin | PrefreshTokens.

Definition Path_eqb (p q : Path) : bool :=
  match p, q with
  | Pname, Pname | Pemail, Pemail | Ppassword, Ppassword | Prole, Prole
  | Pavatar, Pavatar | Pbio, Pbio | PisActive, PisActive
  | PlastLogin, PlastLogin | PrefreshTokens, PrefreshTokens => true
  | _, _ => false
  end.

(** A hydrated Mongoose document: the loaded values, which of the two
    projectable paths were loaded, and the paths assigned since loading.
    A path that was not selected holds no data ([""] or [[]]). *)
Record Doc := mkDoc {
  fields : User;
  hasPassword : bool;
  hasRefreshTokens : bool;
  modifiedPaths : list Path
}.

(** The claim set given to [jwt.sign] and returned by [jwt.verify]:
    [{ id, email, role }] for an access token, [{ id }] for a refresh
    token.  [iat] and [exp] are kept inside the token by the library. *)
Record Claims := mkClaims {
  claim_id : string;
  claim_email : option string;
  claim_role : option Role
}.

(** [process.env] *)
Record Env := mkEnv { JWT_SECRET : string; JWT_EXPIRE : option string }.

Record World := mkWorld {
  process_env : Env;
  users : list User;          (* the collection, in natural order *)
  clock : Z;                  (* Date.now(), in seconds *)
  entropy : nat;              (* state of the random source *)
  console : list (string * Exn)   (* console.error output *)
}.

(* ===================================================================== *)
(** ** The npm packages, as an interface *)

Class Library := {
  (** [jwt.sign(payload, secret, { expiresIn })] at a given instant: the
      token, or the error the package throws (an empty secret, a malformed
      [expiresIn]) *)
  jwt_sign : Claims -> string -> string -> Z -> Result string;
  (** [jwt.verify(token, secret)] at a given instant: the claims, or an
      error named JsonWebTokenError, TokenExpiredError or NotBeforeError *)
  jwt_verify : string -> string -> Z -> Result Claims;
  (** [bcrypt.genSalt(rounds)] from the state of the random source *)
  bcrypt_genSalt : nat -> nat -> string;
  (** [bcrypt.hash(plaintext, salt)] *)
  bcrypt_hash : string -> string -> string;
  (** [bcrypt.compare(candidate, hash)] *)
  bcrypt_compare : string -> string -> bool;
  (** whether Mongoose casts a value to an ObjectId ([CastError] if not) *)
  castObjectId : string -> bool
}.

(* ===================================================================== *)
(** ** State and exceptions *)

Definition M (A : Type) : Type := World -> Result A * World.

Definition ret {A} (a : A) : M A := fun w => (Ok a, w).

Definition throw {A} (e : Exn) : M A := fun w => (Throw e, w).

Definition bind {A B} (m : M A) (k : A -> M B) : M B :=
  fun w =>
    match m w with
    | (Ok a, w') => k a w'
    | (Throw e, w') => (Throw e, w')
    end.

(** [try { body } catch (error) { handler }] *)
Definition try_catch {A} (body : M A) (handler : Exn -> M A) : M A :=
  fun w =>
    match body w with
    | (Ok a, w') => (Ok a, w')
    | (Throw e, w') => handler e w'
    end.

Definition get_world : M World := fun w => (Ok w, w).

(** The world with its collection replaced. *)
Definition with_users (w : World) (rows : list User) : World :=
  mkWorld (process_env w) rows (clock w) (entropy w) (console w).

Definition put_users (rows : list User) : M unit :=
  fun w => (Ok tt, with_users w rows).

Definition console_error (label : string) (e : Exn) : M unit :=
  fun w => (Ok tt, mkWorld (process_env w) (users w) (clock w) (entropy w)
                     (console w ++ [(label, e)])).

Declare Scope js_scope.
Delimit Scope js_scope with js.
Notation "x <- m ;; k" := (bind m (fun x => k))
  (at level 61, m at next level, right associativity) : js_scope.
Notation "m ;;; k" := (bind m (fun _ => k))
  (at level 61, right associativity) : js_scope.
Local Open Scope js_scope.

Definition TypeError (msg : string) : Exn := mkExn "TypeError" msg.

(* ===================================================================== *)
(** ** Strings the way the code uses them *)

(** [s.startsWith(p)] *)
Definition startsWith (s p : string) : bool := String.prefix p s.

(** [s.substring(n)] *)
Definition substring_from (n : nat) (s : string) : string :=
  String.substring n (String.length s - n) s.

(** [!s] for a string *)
Definition falsy (s : string) : bool :=
  match s with EmptyString => true | _ => false end.

(** [a || b] on an environment variable: absent and empty are falsy *)
Definition or_default (a : option string) (b : string) : string :=
  match a with
  | Some s => if falsy s then b else s
  | None => b
  end.

(** Lifts the result of a library call into the process. *)
Definition lift {A} (r : Result A) : M A := fun w => (r, w).

(** A string is the sequence of its UTF-16 code units, those below 256
    (Latin-1), so that [String.length] is [s.length]. *)
Definition between (lo hi n : nat) : bool := (lo <=? n)%nat && (n <=? hi)%nat.

(** [s.toLowerCase()], unit by unit: [A]-[Z], and the capital letters of
    Latin-1 (U+00C0 to U+00DE but the multiplication sign U+00D7), are 32
    below their small letters. *)
Definition lower (c : ascii) : ascii :=
  let n := nat_of_ascii c in
  if between 65 90 n || (between 192 222 n && negb (n =? 215)%nat)
  then ascii_of_nat (n + 32) else c.

Fixpoint toLowerCase (s : string) : string :=
  match s with
  | EmptyString => EmptyString
  | String c rest => String (lower c) (toLowerCase rest)
  end.

(* ===================================================================== *)
(** ** Regular expressions, as far as the schema uses them *)

(** The character classes of the pattern of [email]: [\w], one character,
    and a class of two characters such as [[.-]]. *)
Inductive CharClass :=
| Cword
| Cchar (c : ascii)
| Ceither (c d : ascii).

Definition CharClass_eqb (a b : CharClass) : bool :=
  match a, b with
  | Cword, Cword => true
  | Cchar c, Cchar d => Ascii.eqb c d
  | Ceither c d, Ceither c' d' => Ascii.eqb c c' && Ascii.eqb d d'
  | _, _ => false
  end.

(** [\w] is [[A-Za-z0-9_]]. *)
Definition in_class (k : CharClass) (c : ascii) : bool :=
  match k with
  | Cword =>
      let n := nat_of_ascii c in
      between 48 57 n || between 65 90 n || (n =? 95)%nat || between 97 122 n
  | Cchar d => Ascii.eqb c d
  | Ceither d e => Ascii.eqb c d || Ascii.eqb c e
  end.

Inductive RegExp :=
| Rnothing                       (* matches no string *)
| Rempty                         (* matches the empty string *)
| Rclass (k : CharClass)
| Rseq (r s : RegExp)
| Ralt (r s : RegExp)
| Rstar (r : RegExp).

Fixpoint RegExp_eqb (a b : RegExp) : bool :=
  match a, b with
  | Rnothing, Rnothing | Rempty, Rempty => true
  | Rclass k, Rclass l => CharClass_eqb k l
  | Rseq r s, Rseq r' s' | Ralt r s, Ralt r' s' => RegExp_eqb r r' && RegExp_eqb s s'
  | Rstar r, Rstar r' => RegExp_eqb r r'
  | _, _ => false
  end.

Fixpoint nullable (r : RegExp) : bool :=
  match r with
  | Rnothing | Rclass _ => false
  | Rempty | Rstar _ => true
  | Rseq r s => nullable r && nullable s
  | Ralt r s => nullable r || nullable s
  end.

(** Sequence and choice, with the expressions that match nothing, and a
    choice between twice the same, left out. *)
Definition seq_ (r s : RegExp) : RegExp :=
  match r with
  | Rnothing => Rnothing
  | Rempty => s
  | _ => Rseq r s
  end.

Definition alt_ (r s : RegExp) : RegExp :=
  match r, s with
  | Rnothing, _ => s
  | _, Rnothing => r
  | _, _ => if RegExp_eqb r s then r else Ralt r s
  end.

(** What is left of [r] to match after the character [c]. *)
Fixpoint derivative (c : ascii) (r : RegExp) : RegExp :=
  match r with
  | Rnothing | Rempty => Rnothing
  | Rclass k => if in_class k c then Rempty else Rnothing
  | Rseq r s =>
      if nullable r then alt_ (seq_ (derivative c r) s) (derivative c s)
      else seq_ (derivative c r) s
  | Ralt r s => alt_ (derivative c r) (derivative c s)
  | Rstar r => seq_ (derivative c r) (Rstar r)
  end.

(** [/^r$/.test(s)] *)
Fixpoint regexp_test (r : RegExp) (s : string) : bool :=
  match s with
  | EmptyString => nullable r
  | String c rest => regexp_test (derivative c r) rest
  end.

(** [r+] and [r?] *)
Definition Rplus (r : RegExp) : RegExp := Rseq r (Rstar r).
Definition Roptional (r : RegExp) : RegExp := Ralt r Rempty.

(* ===================================================================== *)
(** ** Documents: assignment, projection, the collection *)

Definition set_password (u : User) (v : string) : User :=
  mkUser (_id u) (name u) (email u) v (role u) (avatar u) (bio u)
         (isActive u) (lastLogin u) (refreshTokens u).

Definition set_role (u : User) (v : Role) : User :=
  mkUser (_id u) (name u) (email u) (password u) v (avatar u) (bio u)
         (isActive u) (lastLogin u) (refreshTokens u).

Definition set_isActive (u : User) (v : bool) : User :=
  mkUser (_id u) (name u) (email u) (password u) (role u) (avatar u) (bio u)
         v (lastLogin u) (refreshTokens u).

Definition set_lastLogin (u : User) (v : Z) : User :=
  mkUser (_id u) (name u) (email u) (password u) (role u) (avatar u) (bio u)
         (isActive u) v (refreshTokens u).

Definition set_refreshTokens (u : User) (v : list RefreshEntry) : User :=
  mkUser (_id u) (name u) (email u) (password u) (role u) (avatar u) (bio u)
         (isActive u) (lastLogin u) v.

(** [doc.password = value].  Mongoose marks the path modified unless it
    is unmodified so far and the value equals the one loaded; the hook of
    [save] reads that mark. *)
Definition assign_password (d : Doc) (v : string) : Doc :=
  if negb (existsb (Path_eqb Ppassword) (modifiedPaths d))
     && hasPassword d && String.eqb v (password (fields d))
  then d
  else mkDoc (set_password (fields d) v) true (hasRefreshTokens d)
             (Ppassword :: modifiedPaths d).

(** [doc.path = value] for the other paths: the value is stored and the
    path marked modified.  (Mongoose leaves the mark off when the value is
    unchanged; what a later [save] writes is the same.) *)

Definition assign_role (d : Doc) (v : Role) : Doc :=
  mkDoc (set_role (fields d) v) (hasPassword d) (hasRefreshTokens d)
        (Prole :: modifiedPaths d).

Definition assign_isActive (d : Doc) (v : bool) : Doc :=
  mkDoc (set_isActive (fields d) v) (hasPassword d) (hasRefreshTokens d)
        (PisActive :: modifiedPaths d).

Definition assign_lastLogin (d : Doc) (v : Z) : Doc :=
  mkDoc (set_lastLogin (fields d) v) (hasPassword d) (hasRefreshTokens d)
        (PlastLogin :: modifiedPaths d).

Definition assign_refreshTokens (d : Doc) (v : list RefreshEntry) : Doc :=
  mkDoc (set_refreshTokens (fields d) v) (hasPassword d) true
        (PrefreshTokens :: modifiedPaths d).

(** [doc.isModified(path)] *)
Definition isModified (d : Doc) (p : Path) : bool :=
  existsb (Path_eqb p) (modifiedPaths d).

(** The projections the queries of the code ask for.  The schema gives
    [password] [select: false], so a query without [select] omits it. *)
Inductive Select :=
| SelectDefault                      (* no .select(...) *)
| SelectPlusPassword                 (* .select('+password') *)
| SelectMinusPasswordRefreshTokens.  (* .select('-password -refreshTokens') *)

Definition hydrate (sel : Select) (u : User) : Doc :=
  match sel with
  | SelectDefault => mkDoc (set_password u "") false true []
  | SelectPlusPassword => mkDoc u true true []
  | SelectMinusPasswordRefreshTokens =>
      mkDoc (set_refreshTokens (set_password u "") []) false false []
  end.

(** [$set] of one path of [src] into the stored document [dst]. *)
Definition copyPath (src : User) (p : Path) (dst : User) : User :=
  match p with
  | Pname => mkUser (_id dst) (name src) (email dst) (password dst) (role dst)
               (avatar dst) (bio dst) (isActive dst) (lastLogin dst) (refreshTokens dst)
  | Pemail => mkUser (_id dst) (name dst) (email src) (password dst) (role dst)
               (avatar dst) (bio dst) (isActive dst) (lastLogin dst) (refreshTokens dst)
  | Ppassword => set_password dst (password src)
  | Prole => set_role dst (role src)
  | Pavatar => mkUser (_id dst) (name dst) (email dst) (password dst) (role dst)
               (avatar src) (bio dst) (isActive dst) (lastLogin dst) (refreshTokens dst)
  | Pbio => mkUser (_id dst) (name dst) (email dst) (password dst) (role dst)
               (avatar dst) (bio src) (isActive dst) (lastLogin dst) (refreshTokens dst)
  | PisActive => set_isActive dst (isActive src)
  | PlastLogin => set_lastLogin dst (lastLogin src)
  | PrefreshTokens => set_refreshTokens dst (refreshTokens src)
  end.

Definition copyPaths (ps : list Path) (src dst : User) : User :=
  fold_right (copyPath src) dst ps.

(** [updateOne({ _id: id }, ...)]: the first document with that [_id]. *)
Fixpoint updateOne (id : string) (f : User -> User) (rows : list User)
  : option (list User) :=
  match rows with
  | [] => None
  | r :: rs =>
      if String.eqb (_id r) id then Some (f r :: rs)
      else match updateOne id f rs with
           | Some rs' => Some (r :: rs')
           | None => None
           end
  end.

Definition lookupById (id : string) (rows : list User) : option User :=
  find (fun r => String.eqb (_id r) id) rows.

(** The filter [{ email, isActive: true }] as the store evaluates it: the
    first document whose [email] is exactly the value looked for.  The
    query casts that value before ([findOne_email_active] below). *)
Definition lookupActiveByEmail (e : string) (rows : list User) : option User :=
  find (fun r => String.eqb (email r) e && isActive r) rows.

(* ===================================================================== *)
(** ** The validators of [userSchema] *)

(** [match] of [email]:
    [/^\w+([.-]?\w+)*@\w+([.-]?\w+)*(\.\w{2,3})+$/] *)
Definition email_pattern : RegExp :=
  let w := Rclass Cword in
  let part :=
    Rseq (Rplus w) (Rstar (Rseq (Roptional (Rclass (Ceither "." "-"))) (Rplus w))) in
  Rseq part
    (Rseq (Rclass (Cchar "@"))
       (Rseq part
          (Rplus (Rseq (Rclass (Cchar ".")) (Rseq w (Rseq w (Roptional w))))))).

(** [name]: [required], [maxlength: 50].  A required string is one that is
    not empty. *)
Definition valid_name (s : string) : bool :=
  negb (falsy s) && (String.length s <=? 50)%nat.

(** [email]: [required], [match] *)
Definition valid_email (s : string) : bool :=
  negb (falsy s) && regexp_test email_pattern s.

(** [password]: [required], [minlength: 6] *)
Definition valid_password (s : string) : bool :=
  negb (falsy s) && (6 <=? String.length s)%nat.

(** [bio]: [maxlength: 500] *)
Definition valid_bio (s : string) : bool := (String.length s <=? 500)%nat.

(** [refreshTokens]: [token] is [required] in every element *)
Definition valid_refreshTokens (l : list RefreshEntry) : bool :=
  forallb (fun tokenObj => negb (falsy (token tokenObj))) l.

(** What [doc.validate()] checks on a loaded document: the validators of
    every path that was loaded or assigned; a path left out by the
    projection and not assigned since is not validated.  ([role] is of the
    enum by its type.) *)
Definition validators (this : Doc) : bool :=
  let user := fields this in
  valid_name (name user)
  && valid_email (email user)
  && (if hasPassword this || isModified this Ppassword
      then valid_password (password user) else true)
  && valid_bio (bio user)
  && (if hasRefreshTokens this || isModified this PrefreshTokens
      then valid_refreshTokens (refreshTokens user) else true).

(** [doc.validate()]; the message of the error, which lists the failing
    paths, is cut short. *)
Definition validate (this : Doc) : M unit :=
  if validators this then ret tt
  else throw (mkExn "ValidationError" "User validation failed").


Section Backend.

Context {L : Library}.

(** [User.findById(id).select(...)] *)
Definition findById (id : string) (sel : Select) : M (option Doc) :=
  if castObjectId id then
    w <- get_world ;;
    ret (option_map (hydrate sel) (lookupById id (users w)))
  else
    throw (mkExn "CastError" "Cast to ObjectId failed").

(** [User.findOne({ email, isActive: true }).select(...)]: Mongoose casts
    the filter by the schema, so the [lowercase: true] of [email] is applied
    to the value looked for. *)
Definition findOne_email_active (e : string) (sel : Select) : M (option Doc) :=
  w <- get_world ;;
  ret (option_map (hydrate sel) (lookupActiveByEmail (toLowerCase e) (users w))).

(** [await bcrypt.genSalt(rounds)] *)
Definition genSalt (rounds : nat) : M string :=
  fun w => (Ok (bcrypt_genSalt rounds (entropy w)),
            mkWorld (process_env w) (users w) (clock w) (S (entropy w)) (console w)).

(* ===================================================================== *)
(** ** models/User.js *)

(** [userSchema.pre('save', ...)] *)
Definition preSave (this : Doc) : M Doc :=
  if negb (isModified this Ppassword) then ret this
  else
    try_catch
      (salt <- genSalt 12 ;;
       ret (assign_password this (bcrypt_hash (password (fields this)) salt)))
      (fun error => throw error).

(** [doc.save()] of a document loaded from the collection, once it has
    passed validation: the hook runs, then the modified paths are written
    to the stored document. *)
Definition save (this : Doc) : M Doc :=
  this1 <- preSave this ;;
  w <- get_world ;;
  match updateOne (_id (fields this1))
                  (copyPaths (modifiedPaths this1) (fields this1)) (users w) with
  | Some rows =>
      put_users rows ;;;
      ret (mkDoc (fields this1) (hasPassword this1) (hasRefreshTokens this1) [])
  | None =>
      throw (mkExn "DocumentNotFoundError" "No document found for query")
  end.

(** [doc.save()] of a loaded document, in full: Mongoose validates the
    document before the hooks of the schema run. *)
Definition Document_save (this : Doc) : M Doc :=
  validate this ;;; save this.


(** [userSchema.methods.comparePassword] *)
Definition comparePassword (this : Doc) (candidatePassword : string) : M bool :=
  if hasPassword this then
    ret (bcrypt_compare candidatePassword (password (fields this)))
  else
    throw (mkExn "Error" "Illegal arguments: string, undefined").

(** [userSchema.methods.generateAuthToken] *)
Definition generateAuthToken (this : Doc) : M string :=
  w <- get_world ;;
  lift (jwt_sign
          (mkClaims (_id (fields this)) (Some (email (fields this)))
                    (Some (role (fields this))))
          (JWT_SECRET (process_env w))
          (or_default (JWT_EXPIRE (process_env w)) "7d")
          (clock w)).

(** [this.refreshTokens.push({ token })]; the schema default fills
    [createdAt] with [Date.now].  (Mongoose records a push as an atomic
    [$push]; for a document saved before the stored array changes, that
    writes the same array as the [$set] of [save] below.) *)
Definition push_refreshToken (this : Doc) (t : string) : M Doc :=
  if hasRefreshTokens this then
    w <- get_world ;;
    ret (assign_refreshTokens this
           (refreshTokens (fields this) ++ [mkRefreshEntry t (clock w)]))
  else
    throw (TypeError "Cannot read properties of undefined (reading 'push')").

(** [userSchema.methods.generateRefreshToken]: the token, and [this] as
    the method leaves it. *)
Definition generateRefreshToken (this : Doc) : M (string * Doc) :=
  w <- get_world ;;
  refreshToken <-
    lift (jwt_sign (mkClaims (_id (fields this)) None None)
                   (JWT_SECRET (process_env w) ++ "refresh") "7d" (clock w)) ;;
  this' <- push_refreshToken this refreshToken ;;
  ret (refreshToken, this').

(** [userSchema.methods.removeRefreshToken] *)
Definition removeRefreshToken (this : Doc) (tokenToRemove : string) : M Doc :=
  if hasRefreshTokens this then
    ret (assign_refreshTokens this
           (filter (fun tokenObj => negb (String.eqb (token tokenObj) tokenToRemove))
                   (refreshTokens (fields this))))
  else
    throw (TypeError "Cannot read properties of undefined (reading 'filter')").

(** [userSchema.statics.findByCredentials] *)
Definition findByCredentials (email_ password_ : string) : M Doc :=
  user <- findOne_email_active email_ SelectPlusPassword ;;
  match user with
  | None => throw (mkExn "Error" "Invalid login credentials")
  | Some user =>
      isMatch <- comparePassword user password_ ;;
      if negb isMatch then throw (mkExn "Error" "Invalid login credentials")
      else
        w <- get_world ;;
        let user := assign_lastLogin user (clock w) in
        user <- Document_save user ;;
        ret user
  end.

End Backend.

(* ===================================================================== *)
(** ** The HTTP layer *)

(** What [user.toJSON()] keeps: [password], [refreshTokens] and [__v]
    are deleted. *)
Record UserJSON := mkUserJSON {
  json_id : string;
  json_name : string;
  json_email : string;
  json_role : Role;
  json_avatar : string;
  json_bio : string;
  json_isActive : bool;
  json_lastLogin : Z
}.

(** [userSchema.methods.toJSON] *)
Definition toJSON (this : Doc) : UserJSON :=
  let user := fields this in
  mkUserJSON (_id user) (name user) (email user) (role user) (avatar user)
             (bio user) (isActive user) (lastLogin user).

(** A value of a JSON request body, as far as [typeof] tells them apart. *)
Inductive JsValue :=
| JsUndefined
| JsBoolean (b : bool)
| JsString (s : string)
| JsNumber (z : Z).

(** The parts of an Express request the code reads and writes. *)
Record Request := mkRequest {
  header_Authorization : option string;   (* req.header('Authorization') *)
  params_id : string;                     (* req.params.id *)
  body_refreshToken : option string;      (* req.body.refreshToken *)
  body_isActive : JsValue;                (* req.body.isActive *)
  user : option Doc;                      (* req.user *)
  refreshToken : option string            (* req.refreshToken *)
}.

Definition set_user (req : Request) (u : Doc) : Request :=
  mkRequest (header_Authorization req) (params_id req) (body_refreshToken req)
            (body_isActive req) (Some u) (refreshToken req).

Definition set_refreshToken (req : Request) (t : string) : Request :=
  mkRequest (header_Authorization req) (params_id req) (body_refreshToken req)
            (body_isActive req) (user req) (Some t).

(** The response envelope [{ success, message, data: { user } }]. *)
Record Json := mkJson {
  success : bool;
  message : string;
  data : option UserJSON
}.

(** How a middleware or handler ends: a response, or [next()]. *)
Inductive Outcome :=
| Respond (status : nat) (body : Json)
| Next (req : Request).

(** [return res.status(code).json({ success: false, message })] *)
Definition fail (code : nat) (msg : string) : M Outcome :=
  ret (Respond code (mkJson false msg None)).

Section Middleware.

Context {L : Library}.

(** [const auth = async (req, res, next) => ...] *)
Definition auth (req : Request) : M Outcome :=
  try_catch
    (match header_Authorization req with
     | None => fail 401 "No token provided, authorization denied"
     | Some authHeader =>
         if falsy authHeader || negb (startsWith authHeader "Bearer ") then
           fail 401 "No token provided, authorization denied"
         else
           let token := substring_from 7 authHeader in
           if falsy token then
             fail 401 "No token provided, authorization denied"
           else
             w <- get_world ;;
             decoded <- lift (jwt_verify token (JWT_SECRET (process_env w)) (clock w)) ;;
             user <- findById (claim_id decoded) SelectMinusPasswordRefreshTokens ;;
             match user with
             | None => fail 401 "Token is not valid - user not found"
             | Some user =>
                 if negb (isActive (fields user)) then
                   fail 401 "User account is deactivated"
                 else
                   ret (Next (set_user req user))
             end
     end)
    (fun error =>
       console_error "Auth middleware error:" error ;;;
       if String.eqb (exn_name error) "JsonWebTokenError" then
         fail 401 "Invalid token"
       else if String.eqb (exn_name error) "TokenExpiredError" then
         fail 401 "Token expired"
       else
         fail 500 "Server error during authentication").

(** [const adminAuth = (req, res, next) => ...] *)
Definition adminAuth (req : Request) : M Outcome :=
  match user req with
  | Some u =>
      if Role_eqb (role (fields u)) RoleAdmin then ret (Next req)
      else fail 403 "Access denied. Admin privileges required."
  | None => fail 403 "Access denied. Admin privileges required."
  end.

(** [const optionalAuth = async (req, res, next) => ...] *)
Definition optionalAuth (req : Request) : M Outcome :=
  try_catch
    (match header_Authorization req with
     | None => ret (Next req)
     | Some authHeader =>
         if negb (falsy authHeader) && startsWith authHeader "Bearer " then
           let token := substring_from 7 authHeader in
           if negb (falsy token) then
             w <- get_world ;;
             decoded <- lift (jwt_verify token (JWT_SECRET (process_env w)) (clock w)) ;;
             user <- findById (claim_id decoded) SelectMinusPasswordRefreshTokens ;;
             match user with
             | Some user =>
                 if isActive (fields user) then ret (Next (set_user req user))
                 else ret (Next req)
             | None => ret (Next req)
             end
           else ret (Next req)
         else ret (Next req)
     end)
    (fun error => ret (Next req)).

(** [const verifyRefreshToken = async (req, res, next) => ...] *)
Definition verifyRefreshToken (req : Request) : M Outcome :=
  try_catch
    (match body_refreshToken req with
     | None => fail 401 "Refresh token is required"
     | Some refreshToken =>
         if falsy refreshToken then fail 401 "Refresh token is required"
         else
           w <- get_world ;;
           decoded <- lift (jwt_verify refreshToken
                              (JWT_SECRET (process_env w) ++ "refresh") (clock w)) ;;
           user <- findById (claim_id decoded) SelectDefault ;;
           match user with
           | None => fail 401 "Invalid refresh token - user not found"
           | Some user =>
               if hasRefreshTokens user then
                 let tokenExists :=
                   existsb (fun tokenObj => String.eqb (token tokenObj) refreshToken)
                           (refreshTokens (fields user)) in
                 if negb tokenExists then fail 401 "Invalid refresh token"
                 else ret (Next (set_refreshToken (set_user req user) refreshToken))
               else
                 throw (TypeError "Cannot read properties of undefined (reading 'some')")
           end
     end)
    (fun error =>
       console_error "Refresh token verification error:" error ;;;
       if String.eqb (exn_name error) "JsonWebTokenError"
          || String.eqb (exn_name error) "TokenExpiredError" then
         fail 401 "Invalid or expired refresh token"
       else
         fail 500 "Server error during refresh token verification").

(* ===================================================================== *)
(** ** routes/users.js: PUT /api/users/:id/status *)

(** The handler, entered after [auth] and [adminAuth] called [next()]. *)
Definition updateUserStatus (req : Request) : M Outcome :=
  try_catch
    (match body_isActive req with
     | JsBoolean isActive_ =>
         user_ <- findById (params_id req) SelectDefault ;;
         match user_ with
         | None => fail 404 "User not found"
         | Some user_ =>
             me <- match user req with
                   | Some me => ret me
                   | None => throw (TypeError "Cannot read properties of undefined (reading '_id')")
                   end ;;
             if String.eqb (_id (fields user_)) (_id (fields me)) then
               fail 400 "You cannot change your own status"
             else
               let user_ := assign_isActive user_ isActive_ in
               let user_ := if negb isActive_ then assign_refreshTokens user_ []
                            else user_ in
               user_ <- save user_ ;;
               ret (Respond 200
                      (mkJson true
                         (if isActive_ then "User activated successfully"
                          else "User deactivated successfully")
                         (Some (toJSON user_))))
         end
     | _ => fail 400 "isActive must be a boolean value"
     end)
    (fun error =>
       console_error "Update user status error:" error ;;;
       if String.eqb (exn_name error) "CastError" then fail 404 "User not found"
       else fail 500 "Server error while updating user status").

(** Express runs the middleware of a route in order; each one either
    responds or hands the request on. *)
Fixpoint chain (mws : list (Request -> M Outcome)) (handler : Request -> M Outcome)
  (req : Request) : M Outcome :=
  match mws with
  | [] => handler req
  | mw :: rest =>
      o <- mw req ;;
      match o with
      | Next req' => chain rest handler req'
      | Respond code body => ret (Respond code body)
      end
  end.

(** [router.put('/:id/status', [auth, adminAuth], async (req, res) => ...)] *)
Definition put_status : Request -> M Outcome :=
  chain [auth; adminAuth] updateUserStatus.

End Middleware.

(** The round trip of the token library between two instants: every
    access token it signs in [w0] (with the secret and lifetime configured
    there) is a non-empty string which it accepts in [w], returning the id
    that was signed.  This is what jsonwebtoken does while the token is
    within its lifetime and the secret is the one it was signed with. *)
Definition accepts_issued_tokens (L : Library) (w0 w : World) : Prop :=
  forall claims tok,
    jwt_sign claims (JWT_SECRET (process_env w0))
             (or_default (JWT_EXPIRE (process_env w0)) "7d") (clock w0) = Ok tok ->
    tok <> "" /\
    exists decoded,
      jwt_verify tok (JWT_SECRET (process_env w)) (clock w) = Ok decoded /\
      claim_id decoded = claim_id claims.

(** What the store enforces on the collection: [_id] is the primary key
    and the schema declares [email] [unique: true]. *)
Definition unique_users (rows : list User) : Prop :=
  NoDup (map _id rows) /\ NoDup (map email rows).

(** What the schema enforces on the collection, whose documents were all
    written through the model: each passes the validators when it is
    loaded whole. *)
Definition valid_users (rows : list User) : Prop :=
  forall u, In u rows -> validators (hydrate SelectPlusPassword u) = true.

(* ===================================================================== *)
(** ** A small instance of the interface, to run the code on inputs *)

Module Sample.

(** Tokens are the key, a dot and the user id; the token ["stale"] is
    one whose lifetime is over. *)
Definition sign (c : Claims) (key expiresIn : string) (t : Z) : Result string :=
  if falsy key then Throw (mkExn "Error" "secretOrPrivateKey must have a value")
  else Ok (key ++ "." ++ claim_id c).

Definition verify (tok key : string) (t : Z) : Result Claims :=
  if String.eqb tok "stale" then
    Throw (mkExn "TokenExpiredError" "jwt expired")
  else if startsWith tok (key ++ ".") then
    Ok (mkClaims (substring_from (String.length key + 1) tok) None None)
  else
    Throw (mkExn "JsonWebTokenError" "invalid signature").

Definition lib : Library := {|
  jwt_sign := sign;
  jwt_verify := verify;
  bcrypt_genSalt := fun rounds seed => "$2a$12$salt";
  bcrypt_hash := fun plain salt => salt ++ plain;
  bcrypt_compare := fun candidate hash => String.eqb hash ("$2a$12$salt" ++ candidate);
  castObjectId := fun id => negb (falsy id)
|}.

Definition env : Env := mkEnv "s3cret" None.

Definition admin : User :=
  mkUser "a1" "Admin User" "admin@blogsite.com" "$2a$12$saltAdmin123!"
         RoleAdmin "" "" true 0 [].

(** An active user with one refresh token outstanding. *)
Definition alex : User :=
  mkUser "u1" "Alex Johnson" "user1@blogsite.com" "$2a$12$saltUser123!"
         RoleUser "" "" true 0 [mkRefreshEntry "s3cretrefresh.u1" 5].

(** The same user, deactivated, the token still stored. *)
Definition alex_inactive : User := set_isActive alex false.

Definition world : World := mkWorld env [admin; alex] 10 0 [].

Definition world_inactive : World := mkWorld env [admin; alex_inactive] 10 0 [].

Definition request : Request := mkRequest None "" None JsUndefined None None.

Definition bearer (h : string) : Request :=
  mkRequest (Some h) "" None JsUndefined None None.

Definition refresh (t : string) : Request :=
  mkRequest None "" (Some t) JsUndefined None None.

End Sample.

(* ===================================================================== *)
(** ** routes/users.js: PUT /api/users/:id/role *)

(** [['user', 'admin'].includes(role)], and the role the value stands for *)
Definition role_of (v : JsValue) : option Role :=
  match v with
  | JsString s =>
      if String.eqb s "user" then Some RoleUser
      else if String.eqb s "admin" then Some RoleAdmin
      else None
  | _ => None
  end.

(** The text of a role, as the template literal prints it. *)
Definition role_text (r : Role) : string :=
  match r with RoleUser => "user" | RoleAdmin => "admin" end.

Section RoleRoute.

Context {L : Library}.

(** The handler of the role route, entered after [auth] and [adminAuth];
    [role_] is [req.body.role]. *)
Definition updateUserRole (role_ : JsValue) (req : Request) : M Outcome :=
  try_catch
    (match role_of role_ with
     | None => fail 400 "Role must be either user or admin"
     | Some r =>
         user_ <- findById (params_id req) SelectDefault ;;
         match user_ with
         | None => fail 404 "User not found"
         | Some user_ =>
             me <- match user req with
                   | Some me => ret me
                   | None => throw (TypeError "Cannot read properties of undefined (reading '_id')")
                   end ;;
             if String.eqb (_id (fields user_)) (_id (fields me)) then
               fail 400 "You cannot change your own role"
             else
               let user_ := assign_role user_ r in
               user_ <- save user_ ;;
               ret (Respond 200
                      (mkJson true
                         ("User role updated to " ++ role_text r ++ " successfully")
                         (Some (toJSON user_))))
         end
     end)
    (fun error =>
       console_error "Update user role error:" error ;;;
       if String.eqb (exn_name error) "CastError" then fail 404 "User not found"
       else fail 500 "Server error while updating user role").

(** [router.put('/:id/role', [auth, adminAuth], async (req, res) => ...)] *)
Definition put_role (role_ : JsValue) : Request -> M Outcome :=
  chain [auth; adminAuth] (updateUserRole role_).

End RoleRoute.

(** The token library keeps access and refresh tokens apart: a refresh
    token it signs in [w0] under the derived secret is a non-empty string
    which it accepts in [w] under the derived secret, returning the signed
    id, and refuses in [w] under the primary secret with a
    JsonWebTokenError (the signature does not match). *)
Definition accepts_issued_refresh_tokens (L : Library) (w0 w : World) : Prop :=
  forall claims tok,
    jwt_sign claims (JWT_SECRET (process_env w0) ++ "refresh") "7d" (clock w0) = Ok tok ->
    tok <> "" /\
    (exists decoded,
       jwt_verify tok (JWT_SECRET (process_env w) ++ "refresh") (clock w) = Ok decoded /\
       claim_id decoded = claim_id claims) /\
    (exists error,
       jwt_verify tok (JWT_SECRET (process_env w)) (clock w) = Throw error /\
       exn_name error = "JsonWebTokenError").

(* ===================================================================== *)
(** ** models/Blog.js *)

(** An element of [likes]: [{ user, createdAt }]. *)
Record Like := mkLike { like_user : string; like_createdAt : Z }.

(** An element of [comments]. *)
Record Comment := mkComment {
  comment_user : string;
  comment_name : string;
  comment_content : string;
  comment_isApproved : bool;
  comment_createdAt : Z
}.

(** A document of the blogs collection, as [blogSchema] declares it.
    [author] is the id of a user; [publishedAt] is [null] for a draft;
    [blog_createdAt] and [blog_updatedAt] are the [timestamps] of the
    schema. *)
Record Blog := mkBlog {
  blog_id : string;
  title : string;
  subTitle : option string;
  description : string;
  category : string;
  tags : list string;
  image : string;
  author : string;
  authorName : string;
  readTime : string;
  views : Z;
  likes : list Like;
  comments : list Comment;
  isPublished : bool;
  isDraft : bool;
  publishedAt : option Z;
  slug : string;
  metaDescription : option string;
  featured : bool;
  blog_createdAt : Z;
  blog_updatedAt : Z
}.

(** The schema paths that the methods and the hook below assign or test. *)
Inductive BlogPath :=
| PBtitle | PBviews | PBlikes | PBcomments | PBslug | PBupdatedAt.

Definition BlogPath_eqb (p q : BlogPath) : bool :=
  match p, q with
  | PBtitle, PBtitle | PBviews, PBviews | PBlikes, PBlikes
  | PBcomments, PBcomments | PBslug, PBslug | PBupdatedAt, PBupdatedAt => true
  | _, _ => false
  end.

(** A blog document loaded from the collection ([isNew] is false). *)
Record BlogDoc := mkBlogDoc {
  blog_fields : Blog;
  blog_modifiedPaths : list BlogPath
}.

Definition set_title (b : Blog) (v : string) : Blog :=
  mkBlog (blog_id b) v (subTitle b) (description b) (category b) (tags b) (image b)
         (author b) (authorName b) (readTime b) (views b) (likes b) (comments b)
         (isPublished b) (isDraft b) (publishedAt b) (slug b) (metaDescription b)
         (featured b) (blog_createdAt b) (blog_updatedAt b).

Definition set_views (b : Blog) (v : Z) : Blog :=
  mkBlog (blog_id b) (title b) (subTitle b) (description b) (category b) (tags b)
         (image b) (author b) (authorName b) (readTime b) v (likes b) (comments b)
         (isPublished b) (isDraft b) (publishedAt b) (slug b) (metaDescription b)
         (featured b) (blog_createdAt b) (blog_updatedAt b).

Definition set_likes (b : Blog) (v : list Like) : Blog :=
  mkBlog (blog_id b) (title b) (subTitle b) (description b) (category b) (tags b)
         (image b) (author b) (authorName b) (readTime b) (views b) v (comments b)
         (isPublished b) (isDraft b) (publishedAt b) (slug b) (metaDescription b)
         (featured b) (blog_createdAt b) (blog_updatedAt b).

Definition set_comments (b : Blog) (v : list Comment) : Blog :=
  mkBlog (blog_id b) (title b) (subTitle b) (description b) (category b) (tags b)
         (image b) (author b) (authorName b) (readTime b) (views b) (likes b) v
         (isPublished b) (isDraft b) (publishedAt b) (slug b) (metaDescription b)
         (featured b) (blog_createdAt b) (blog_updatedAt b).

Definition set_slug (b : Blog) (v : string) : Blog :=
  mkBlog (blog_id b) (title b) (subTitle b) (description b) (category b) (tags b)
         (image b) (author b) (authorName b) (readTime b) (views b) (likes b)
         (comments b) (isPublished b) (isDraft b) (publishedAt b) v
         (metaDescription b) (featured b) (blog_createdAt b)
         (blog_updatedAt b).

Definition set_updatedAt (b : Blog) (v : Z) : Blog :=
  mkBlog (blog_id b) (title b) (subTitle b) (description b) (category b) (tags b)
         (image b) (author b) (authorName b) (readTime b) (views b) (likes b)
         (comments b) (isPublished b) (isDraft b) (publishedAt b) (slug b)
         (metaDescription b) (featured b) (blog_createdAt b) v.

Definition assign_views (d : BlogDoc) (v : Z) : BlogDoc :=
  mkBlogDoc (set_views (blog_fields d) v) (PBviews :: blog_modifiedPaths d).

Definition assign_likes (d : BlogDoc) (v : list Like) : BlogDoc :=
  mkBlogDoc (set_likes (blog_fields d) v) (PBlikes :: blog_modifiedPaths d).

Definition assign_comments (d : BlogDoc) (v : list Comment) : BlogDoc :=
  mkBlogDoc (set_comments (blog_fields d) v) (PBcomments :: blog_modifiedPaths d).

Definition assign_slug (d : BlogDoc) (v : string) : BlogDoc :=
  mkBlogDoc (set_slug (blog_fields d) v) (PBslug :: blog_modifiedPaths d).

Definition assign_updatedAt (d : BlogDoc) (v : Z) : BlogDoc :=
  mkBlogDoc (set_updatedAt (blog_fields d) v) (PBupdatedAt :: blog_modifiedPaths d).

(** [doc.isModified(path)] *)
Definition blog_isModified (d : BlogDoc) (p : BlogPath) : bool :=
  existsb (BlogPath_eqb p) (blog_modifiedPaths d).

(** [$set] of one path of [src] into the stored document [dst]. *)
Definition copyBlogPath (src : Blog) (p : BlogPath) (dst : Blog) : Blog :=
  match p with
  | PBtitle => set_title dst (title src)
  | PBviews => set_views dst (views src)
  | PBlikes => set_likes dst (likes src)
  | PBcomments => set_comments dst (comments src)
  | PBslug => set_slug dst (slug src)
  | PBupdatedAt => set_updatedAt dst (blog_updatedAt src)
  end.

Definition copyBlogPaths (ps : list BlogPath) (src dst : Blog) : Blog :=
  fold_right (copyBlogPath src) dst ps.

Definition lookupBlog (id : string) (rows : list Blog) : option Blog :=
  find (fun b => String.eqb (blog_id b) id) rows.

(** [updateOne({ _id: id }, ...)] on the blogs collection. *)
Fixpoint updateBlog (id : string) (f : Blog -> Blog) (rows : list Blog)
  : option (list Blog) :=
  match rows with
  | [] => None
  | b :: rs =>
      if String.eqb (blog_id b) id then Some (f b :: rs)
      else match updateBlog id f rs with
           | Some rs' => Some (b :: rs')
           | None => None
           end
  end.

(** [deleteOne({ _id: id })]: the first document with that id goes. *)
Fixpoint deleteBlog (id : string) (rows : list Blog) : list Blog :=
  match rows with
  | [] => []
  | b :: rs => if String.eqb (blog_id b) id then rs else b :: deleteBlog id rs
  end.

(** Virtual [likeCount] *)
Definition likeCount (b : Blog) : nat := List.length (likes b).

(** Virtual [commentCount]: the approved comments *)
Definition commentCount (b : Blog) : nat :=
  List.length (filter comment_isApproved (comments b)).

(** [.sort({ publishedAt: -1 })]: later dates first, [null] last; documents
    that compare equal keep their natural order. *)
Definition published_not_before (a b : Blog) : bool :=
  match publishedAt a, publishedAt b with
  | Some x, Some y => (y <=? x)%Z
  | Some _, None => true
  | None, Some _ => false
  | None, None => true
  end.

Fixpoint insert_by_publishedAt (b : Blog) (l : list Blog) : list Blog :=
  match l with
  | [] => [b]
  | x :: rest =>
      if published_not_before x b then x :: insert_by_publishedAt b rest
      else b :: x :: rest
  end.

Definition sort_publishedAt_desc (l : list Blog) : list Blog :=
  fold_right insert_by_publishedAt [] (rev l).

(** The order the sort leaves: later dates first, [null] last. *)
Inductive published_desc : list Blog -> Prop :=
| published_desc_nil : published_desc []
| published_desc_cons (b : Blog) (l : list Blog) :
    (forall x, In x l -> published_not_before b x = true) ->
    published_desc l ->
    published_desc (b :: l).

(** What [populate('author', 'name email avatar')] puts in place of the
    author id: the named fields of the user and its [_id], or [null] when
    no such user is stored. *)
Record AuthorView := mkAuthorView {
  author_id : string;
  author_name : string;
  author_email : string;
  author_avatar : string
}.

Definition populate_author (rows : list User) (b : Blog) : option AuthorView :=
  option_map (fun u => mkAuthorView (_id u) (name u) (email u) (avatar u))
             (lookupById (author b) rows).

(** What [populate('comments.user', 'name avatar')] puts in place of the
    user id of a comment, or [null]. *)
Record CommentUserView := mkCommentUserView {
  commenter_id : string;
  commenter_name : string;
  commenter_avatar : string
}.

Definition populate_comment_users (rows : list User) (b : Blog)
  : list (option CommentUserView) :=
  map (fun c => option_map (fun u => mkCommentUserView (_id u) (name u) (avatar u))
                           (lookupById (comment_user c) rows))
      (comments b).

(** A blog as [res.json] sends it: [toJSON] with the virtuals, the author
    populated, and the users of the comments populated where the query
    asked for it. *)
Record BlogView := mkBlogView {
  view_blog : Blog;
  view_author : option AuthorView;
  view_comment_users : option (list (option CommentUserView));
  view_likeCount : nat;
  view_commentCount : nat
}.

(** A blog loaded with [populate('author', ...)] only. *)
Definition blog_toJSON (rows : list User) (b : Blog) : BlogView :=
  mkBlogView b (populate_author rows b) None (likeCount b) (commentCount b).

(** A blog loaded with the author and the users of its comments populated. *)
Definition blog_toJSON_full (rows : list User) (b : Blog) : BlogView :=
  mkBlogView b (populate_author rows b) (Some (populate_comment_users rows b))
             (likeCount b) (commentCount b).

(** The [data] of the answers of the blog routes. *)
Inductive BlogData :=
| NoBlogData
| LikeData (liked : bool) (count : nat)
| BlogPage (shown : BlogView) (relatedBlogs : list BlogView).

Record Reply := mkReply {
  reply_status : nat;
  reply_success : bool;
  reply_message : option string;
  reply_data : BlogData
}.

Definition refuse (code : nat) (msg : string) : Reply :=
  mkReply code false (Some msg) NoBlogData.

(* ===================================================================== *)
(** ** The validators of [blogSchema] *)

(** [enum] of [category] *)
Definition categories : list string :=
  ["Technology"; "Startup"; "Lifestyle"; "Finance"; "Health"; "Travel"; "Food";
   "Education"].

(** An element of [comments]: [name] and [content] are [required], and
    [content] has [maxlength: 1000]. *)
Definition valid_comment (c : Comment) : bool :=
  negb (falsy (comment_name c))
  && negb (falsy (comment_content c))
  && (String.length (comment_content c) <=? 1000)%nat.

(** What [doc.validate()] checks on a blog loaded whole: [title]
    ([required], [maxlength: 200]), [subTitle] ([maxlength: 300]),
    [description] ([required], [minlength: 50]), [category] ([required],
    [enum]), [authorName] ([required]), the comments, and
    [metaDescription] ([maxlength: 160]).  The ids ([author], the users of
    the comments) are ObjectIds in a stored document. *)
Definition Blog_validators (b : Blog) : bool :=
  negb (falsy (title b)) && (String.length (title b) <=? 200)%nat
  && match subTitle b with
     | Some s => (String.length s <=? 300)%nat
     | None => true
     end
  && negb (falsy (description b)) && (50 <=? String.length (description b))%nat
  && existsb (String.eqb (category b)) categories
  && negb (falsy (authorName b))
  && forallb valid_comment (comments b)
  && match metaDescription b with
     | Some s => (String.length s <=? 160)%nat
     | None => true
     end.

(** [Number.isSafeInteger(z)]: the integers a JavaScript number holds
    exactly; on them [z + 1] is the integer sum. *)
Definition isSafeInteger (z : Z) : bool :=
  (- (2 ^ 53) <? z)%Z && (z <? 2 ^ 53)%Z.

(** [.limit(n)] of a query: a limit of 0 is no limit. *)
Definition query_limit {A : Type} (n : nat) (l : list A) : list A :=
  if (n =? 0)%nat then l else firstn n l.

Section BlogModel.

Context {L : Library}.

(** The regular-expression chain of the slug hook
    ([toLowerCase], three [replace], [trim]), as a function of the title. *)
Variable slugify : string -> string.

(** [Blog.findById(id)] *)
Definition Blog_findById (id : string) (blogs : list Blog) : M (option BlogDoc) :=
  if castObjectId id then
    ret (option_map (fun b => mkBlogDoc b []) (lookupBlog id blogs))
  else
    throw (mkExn "CastError" "Cast to ObjectId failed").

(** [blogSchema.pre('save', ...)] on a loaded document: the slug follows
    a modified title (no timestamp is appended, the document is not new). *)
Definition Blog_preSave (this : BlogDoc) : M BlogDoc :=
  if blog_isModified this PBtitle then
    ret (assign_slug this (slugify (title (blog_fields this))))
  else ret this.

(** The hook of [timestamps: true], which runs first: a loaded document
    that was modified gets the current time as [updatedAt]. *)
Definition Blog_timestamps (this : BlogDoc) : M BlogDoc :=
  match blog_modifiedPaths this with
  | [] => ret this
  | _ :: _ => w <- get_world ;; ret (assign_updatedAt this (clock w))
  end.

(** [blog.save()]: the document as saved, and the collection. *)
Definition Blog_save (this : BlogDoc) (blogs : list Blog) : M (BlogDoc * list Blog) :=
  this0 <- Blog_timestamps this ;;
  this1 <- Blog_preSave this0 ;;
  match updateBlog (blog_id (blog_fields this1))
                   (copyBlogPaths (blog_modifiedPaths this1) (blog_fields this1))
                   blogs with
  | Some rows => ret (mkBlogDoc (blog_fields this1) [], rows)
  | None => throw (mkExn "DocumentNotFoundError" "No document found for query")
  end.

(** [blogSchema.methods.incrementViews] *)
Definition incrementViews (this : BlogDoc) (blogs : list Blog)
  : M (BlogDoc * list Blog) :=
  Blog_save (assign_views this (views (blog_fields this) + 1)%Z) blogs.

(** [blogSchema.methods.addLike] *)
Definition addLike (this : BlogDoc) (userId : string) (blogs : list Blog)
  : M (BlogDoc * list Blog) :=
  let existingLike :=
    find (fun like => String.eqb (like_user like) userId) (likes (blog_fields this)) in
  match existingLike with
  | None =>
      w <- get_world ;;
      Blog_save (assign_likes this
                   (likes (blog_fields this) ++ [mkLike userId (clock w)])) blogs
  | Some _ => ret (this, blogs)
  end.

(** [blogSchema.methods.removeLike] *)
Definition removeLike (this : BlogDoc) (userId : string) (blogs : list Blog)
  : M (BlogDoc * list Blog) :=
  Blog_save (assign_likes this
               (filter (fun like => negb (String.eqb (like_user like) userId))
                       (likes (blog_fields this)))) blogs.

(** [blogSchema.methods.addComment] *)
Definition addComment (this : BlogDoc) (userId name_ content_ : string)
           (blogs : list Blog) : M (BlogDoc * list Blog) :=
  w <- get_world ;;
  Blog_save (assign_comments this
               (comments (blog_fields this) ++
                [mkComment userId name_ content_ false (clock w)])) blogs.

(** [blogSchema.statics.getRelated] *)
Definition getRelated (blogId category_ : string) (limit : nat) (blogs : list Blog)
  : list Blog :=
  query_limit limit
    (sort_publishedAt_desc
       (filter (fun b => negb (String.eqb (blog_id b) blogId)
                         && String.eqb (category b) category_
                         && isPublished b && negb (isDraft b)) blogs)).

(* ===================================================================== *)
(** ** routes/blogs.js *)

(** [req.user], or the TypeError of reading a property of [undefined]. *)
Definition the_user (req : Request) : M Doc :=
  match user req with
  | Some me => ret me
  | None => throw (TypeError "Cannot read properties of undefined (reading '_id')")
  end.

(** The handler of [POST /api/blogs/:id/like], entered after [auth]. *)
Definition likeBlog (req : Request) (blogs : list Blog) : M (Reply * list Blog) :=
  try_catch
    (blog <- Blog_findById (params_id req) blogs ;;
     match blog with
     | None => ret (refuse 404 "Blog not found", blogs)
     | Some blog =>
         if negb (isPublished (blog_fields blog)) || isDraft (blog_fields blog) then
           ret (refuse 404 "Blog not found", blogs)
         else
           me <- the_user req ;;
           let existingLike :=
             find (fun like => String.eqb (like_user like) (_id (fields me)))
                  (likes (blog_fields blog)) in
           match existingLike with
           | Some _ =>
               r <- removeLike blog (_id (fields me)) blogs ;;
               let (blog, blogs) := r in
               ret (mkReply 200 true (Some "Blog unliked")
                            (LikeData false (List.length (likes (blog_fields blog)))),
                    blogs)
           | None =>
               r <- addLike blog (_id (fields me)) blogs ;;
               let (blog, blogs) := r in
               ret (mkReply 200 true (Some "Blog liked")
                            (LikeData true (List.length (likes (blog_fields blog)))),
                    blogs)
           end
     end)
    (fun error =>
       console_error "Like blog error:" error ;;;
       if String.eqb (exn_name error) "CastError" then
         ret (refuse 404 "Blog not found", blogs)
       else ret (refuse 500 "Server error while processing like", blogs)).

(** The handler of [DELETE /api/blogs/:id], entered after [auth]. *)
Definition deleteBlogRoute (req : Request) (blogs : list Blog)
  : M (Reply * list Blog) :=
  try_catch
    (blog <- Blog_findById (params_id req) blogs ;;
     match blog with
     | None => ret (refuse 404 "Blog not found", blogs)
     | Some blog =>
         me <- the_user req ;;
         if negb (String.eqb (author (blog_fields blog)) (_id (fields me)))
            && negb (Role_eqb (role (fields me)) RoleAdmin) then
           ret (refuse 403 "Not authorized to delete this blog", blogs)
         else
           (* Blog.findByIdAndDelete(req.params.id) *)
           ret (mkReply 200 true (Some "Blog deleted successfully") NoBlogData,
                deleteBlog (params_id req) blogs)
     end)
    (fun error =>
       console_error "Delete blog error:" error ;;;
       if String.eqb (exn_name error) "CastError" then
         ret (refuse 404 "Blog not found", blogs)
       else ret (refuse 500 "Server error while deleting blog", blogs)).

(** [blog.author._id] of a populated blog, or the TypeError of reading a
    property of [null] when the author is not stored. *)
Definition populated_author_id (rows : list User) (b : Blog) : M string :=
  match populate_author rows b with
  | Some a => ret (author_id a)
  | None => throw (TypeError "Cannot read properties of null (reading '_id')")
  end.

(** The handler of [GET /api/blogs/:id], entered after [optionalAuth]. *)
Definition getBlog (req : Request) (blogs : list Blog) : M (Reply * list Blog) :=
  try_catch
    (blog <- Blog_findById (params_id req) blogs ;;
     match blog with
     | None => ret (refuse 404 "Blog not found", blogs)
     | Some blog =>
         w <- get_world ;;
         hidden <-
           (if negb (isPublished (blog_fields blog)) || isDraft (blog_fields blog) then
              match user req with
              | None => ret true
              | Some me =>
                  a <- populated_author_id (users w) (blog_fields blog) ;;
                  ret (negb (String.eqb (_id (fields me)) a)
                       && negb (Role_eqb (role (fields me)) RoleAdmin))
              end
            else ret false) ;;
         if hidden : bool then ret (refuse 404 "Blog not found", blogs)
         else
           counted <-
             match user req with
             | None => ret true
             | Some me =>
                 a <- populated_author_id (users w) (blog_fields blog) ;;
                 ret (negb (String.eqb (_id (fields me)) a))
             end ;;
           r <- (if counted : bool then incrementViews blog blogs
                 else ret (blog, blogs)) ;;
           let (blog, blogs) := r in
           let relatedBlogs :=
             getRelated (blog_id (blog_fields blog)) (category (blog_fields blog)) 3
                        blogs in
           ret (mkReply 200 true None
                        (BlogPage (blog_toJSON_full (users w) (blog_fields blog))
                                  (map (blog_toJSON (users w)) relatedBlogs)),
                blogs)
     end)
    (fun error =>
       console_error "Get blog error:" error ;;;
       if String.eqb (exn_name error) "CastError" then
         ret (refuse 404 "Blog not found", blogs)
       else ret (refuse 500 "Server error while fetching blog", blogs)).

(** A blog route behind one middleware: the middleware answers itself, or
    the handler runs on the request it hands on. *)
Definition behind (mw : Request -> M Outcome)
           (handler : Request -> list Blog -> M (Reply * list Blog))
           (req : Request) (blogs : list Blog) : M (Reply * list Blog) :=
  o <- mw req ;;
  match o with
  | Next req' => handler req' blogs
  | Respond code body =>
      ret (mkReply code (success body) (Some (message body)) NoBlogData, blogs)
  end.

(** [router.post('/:id/like', auth, ...)] *)
Definition post_like : Request -> list Blog -> M (Reply * list Blog) :=
  behind auth likeBlog.

(** [router.delete('/:id', auth, ...)] *)
Definition delete_blog : Request -> list Blog -> M (Reply * list Blog) :=
  behind auth deleteBlogRoute.

(** [router.get('/:id', optionalAuth, ...)] *)
Definition get_blog : Request -> list Blog -> M (Reply * list Blog) :=
  behind optionalAuth getBlog.

End BlogModel.

(** The answer of [getBlog] for a blog that is shown: [{ success: true,
    data: { blog, relatedBlogs } }], the related blogs read from the
    collection as it then is. *)
Definition page_of (rows : list User) (b : Blog) (blogs : list Blog) : Reply :=
  mkReply 200 true None
    (BlogPage (blog_toJSON_full rows b)
              (map (blog_toJSON rows) (getRelated (blog_id b) (category b) 3 blogs))).

(* ===================================================================== *)
(** ** The pagination block of the list routes

    [GET /api/users], [GET /api/users/my-blogs] and [GET /api/blogs]
    compute the same numbers from the query and the count. *)

(** [parseInt(x) || d], from what [parseInt] returned ([None] is NaN):
    NaN and 0 are falsy. *)
Definition number_or (parsed : option Z) (d : Z) : Z :=
  match parsed with
  | Some n => if (n =? 0)%Z then d else n
  | None => d
  end.

(** [Math.ceil(a / b)] for a divisor that is not zero *)
Definition ceil_div (a b : Z) : Z := (- ((- a) / b))%Z.

Record Pagination := mkPagination {
  currentPage : Z;
  totalPages : Z;
  totalCount : Z;
  hasNext : bool;
  hasPrev : bool
}.

(** [skip], computed before the query *)
Definition page_skip (page_ limit_ : option Z) : Z :=
  let page := number_or page_ 1 in
  let limit := number_or limit_ 10 in
  ((page - 1) * limit)%Z.

(** [limit], as given to the query *)
Definition page_limit (limit_ : option Z) : Z := number_or limit_ 10.

(** The [pagination] object of the answer, from the count of the query *)
Definition paginate (page_ limit_ : option Z) (total : Z) : Pagination :=
  let page := number_or page_ 1 in
  let limit := number_or limit_ 10 in
  let totalPages_ := ceil_div total limit in
  mkPagination page totalPages_ total (page <? totalPages_)%Z (1 <? page)%Z.

(* ===================================================================== *)
(** ** Sample blogs, to run the blog routes on inputs *)

Module Demo.

(** A published article of Alex, liked by the admin. *)
Definition article : Blog :=
  mkBlog "b1" "Hello World" None
         "A first article, long enough for the validators of the schema."
         "Technology" ["intro"] ""
         "u1" "Alex Johnson" "1 min read" 7 [mkLike "a1" 3] [] true false (Some 2%Z)
         "hello-world-2" None false 2 3.

(** A draft of Alex. *)
Definition draft : Blog :=
  mkBlog "b2" "Notes" None
         "Unfinished notes, kept as a draft until they are complete."
         "Technology" [] ""
         "u1" "Alex Johnson" "1 min read" 0 [] [] false true None
         "notes-4" None false 4 4.

(** A published article of the admin, in the same category. *)
Definition news : Blog :=
  mkBlog "b3" "News" None
         "What is new this week: the features that were released."
         "Technology" [] ""
         "a1" "Admin User" "1 min read" 1 [] [mkComment "u1" "Alex Johnson" "Nice" true 6]
         true false (Some 5%Z) "news-5" None true 5 6.

Definition blogs : list Blog := [article; draft; news].

(** Another active user, who wrote nothing. *)
Definition sarah : User :=
  mkUser "u2" "Sarah Chen" "user2@blogsite.com" "$2a$12$saltUser123!"
         RoleUser "" "" true 0 [].

Definition world : World := mkWorld Sample.env [Sample.admin; Sample.alex; sarah] 10 0 [].

(** A request as [auth] hands it on: the user attached, [:id] given. *)
Definition as_user (u : User) (id : string) : Request :=
  mkRequest None id None JsUndefined
            (Some (hydrate SelectMinusPasswordRefreshTokens u)) None.

(** A request with nobody attached. *)
Definition anonymous (id : string) : Request :=
  mkRequest None id None JsUndefined None None.

(** The slug hook is not reached by the sample runs. *)
Definition slugify (t : string) : string := t.

(** A user logged in on two devices. *)
Definition emma : User :=
  mkUser "u4" "Emma Wilson" "user4@blogsite.com" "$2a$12$saltUser123!"
         RoleUser "" "" true 0
         [mkRefreshEntry "s3cretrefresh.u4#1" 1; mkRefreshEntry "s3cretrefresh.u4#2" 2].

Definition world_emma : World := mkWorld Sample.env [Sample.admin; emma] 10 0 [].

(** A library whose tokens carry a serial number after the id of Emma, so
    that she can hold several. *)
Definition verify_serial (tok key : string) (t : Z) : Result Claims :=
  if startsWith tok (key ++ ".u4#") then Ok (mkClaims "u4" None None)
  else Throw (mkExn "JsonWebTokenError" "invalid signature").

Definition serial_lib : Library := {|
  jwt_sign := Sample.sign;
  jwt_verify := verify_serial;
  bcrypt_genSalt := fun rounds seed => "$2a$12$salt";
  bcrypt_hash := fun plain salt => salt ++ plain;
  bcrypt_compare := fun candidate hash => String.eqb hash ("$2a$12$salt" ++ candidate);
  castObjectId := fun id => negb (falsy id)
|}.



(** A token library that follows jsonwebtoken in the order of its checks.
    The tokens in circulation are a table: what each one holds, the key it
    was signed with and its [exp].  [verify] checks the signature first
    and the expiry after it. *)
Record Issued := mkIssued {
  issued_claims : Claims;
  issued_key : string;
  issued_exp : Z
}.

Definition verify_issued (table : list (string * Issued)) (tok key : string) (t : Z)
  : Result Claims :=
  match find (fun entry => String.eqb (fst entry) tok) table with
  | None => Throw (mkExn "JsonWebTokenError" "jwt malformed")
  | Some (_, i) =>
      if negb (String.eqb (issued_key i) key) then
        Throw (mkExn "JsonWebTokenError" "invalid signature")
      else if (issued_exp i <=? t)%Z then
        Throw (mkExn "TokenExpiredError" "jwt expired")
      else Ok (issued_claims i)
  end.

Definition issued_lib (table : list (string * Issued)) : Library := {|
  jwt_sign := Sample.sign;
  jwt_verify := verify_issued table;
  bcrypt_genSalt := fun rounds seed => "$2a$12$salt";
  bcrypt_hash := fun plain salt => salt ++ plain;
  bcrypt_compare := fun candidate hash => String.eqb hash ("$2a$12$salt" ++ candidate);
  castObjectId := fun id => negb (falsy id)
|}.

(** Two tokens for Alex whose [exp], 5, is before the clock of the sample
    world, 10: one signed with the secret, one with a guessed key. *)
Definition circulation : list (string * Issued) :=
  [("expired", mkIssued (mkClaims "u1" (Some "user1@blogsite.com") (Some RoleUser))
                        "s3cret" 5);
   ("forged", mkIssued (mkClaims "u1" (Some "user1@blogsite.com") (Some RoleUser))
                       "guess" 5)].

(** The admin asks the status route to switch Alex off, and on. *)
Definition switch (flag : bool) : Request :=
  mkRequest (Some "Bearer s3cret.a1") "u1" None (JsBoolean flag)
            (Some (hydrate SelectMinusPasswordRefreshTokens Sample.admin)) None.

End Demo.

(* ===================================================================== *)
(** ** Strings *)

Lemma substring_0_length (s : string) :
  String.substring 0 (String.length s) s = s.
Proof.
  induction s as [|ch s IH]; simpl; [reflexivity | now rewrite IH].
Qed.

Lemma startsWith_Bearer (t : string) : startsWith ("Bearer " ++ t) "Bearer " = true.
Proof.
  unfold startsWith. simpl.
  repeat match goal with
         | |- context [Ascii.ascii_dec ?a ?b] => destruct (Ascii.ascii_dec a b); [|congruence]
         end.
  destruct t; reflexivity.
Qed.

Lemma substring_from_Bearer (t : string) : substring_from 7 ("Bearer " ++ t) = t.
Proof.
  unfold substring_from. simpl. rewrite Nat.sub_0_r. apply substring_0_length.
Qed.

Lemma falsy_false (s : string) : s <> "" -> falsy s = false.
Proof. destruct s; [congruence | reflexivity]. Qed.

Lemma falsy_Bearer (t : string) : falsy ("Bearer " ++ t) = false.
Proof. reflexivity. Qed.

(* ===================================================================== *)
(** ** The collection *)

Lemma lookupById_id (i : string) (rows : list User) (r : User) :
  lookupById i rows = Some r -> _id r = i.
Proof.
  unfold lookupById. intros H. apply find_some in H.
  now apply String.eqb_eq.
Qed.

Lemma lookupById_In (i : string) (rows : list User) (r : User) :
  lookupById i rows = Some r -> In r rows.
Proof.
  unfold lookupById. intros H. now apply find_some in H.
Qed.

Lemma copyPath_id (src : User) (p : Path) (dst : User) :
  _id (copyPath src p dst) = _id dst.
Proof. destruct p; reflexivity. Qed.

Lemma copyPaths_id (ps : list Path) (src dst : User) :
  _id (copyPaths ps src dst) = _id dst.
Proof.
  induction ps as [|p ps IH]; simpl; [reflexivity|].
  now rewrite copyPath_id.
Qed.


Lemma copyPaths_isActive (ps : list Path) (src dst : User) :
  isActive (copyPaths ps src dst) =
  if existsb (Path_eqb PisActive) ps then isActive src else isActive dst.
Proof.
  induction ps as [|p ps IH]; simpl; [reflexivity|].
  destruct p; simpl; auto.
Qed.

Lemma copyPaths_refreshTokens (ps : list Path) (src dst : User) :
  refreshTokens (copyPaths ps src dst) =
  if existsb (Path_eqb PrefreshTokens) ps then refreshTokens src
  else refreshTokens dst.
Proof.
  induction ps as [|p ps IH]; simpl; [reflexivity|].
  destruct p; simpl; auto.
Qed.

(** Updating the document stored under [i] succeeds when there is one,
    replaces it, and leaves every other [_id] as it was. *)
Lemma updateOne_lookup (i : string) (f : User -> User) (rows : list User) (r : User) :
  (forall x, _id (f x) = _id x) ->
  lookupById i rows = Some r ->
  exists rows',
    updateOne i f rows = Some rows' /\
    lookupById i rows' = Some (f r) /\
    (forall j, j <> i -> lookupById j rows' = lookupById j rows).
Proof.
  intros Hf. unfold lookupById.
  induction rows as [|x rows IH]; simpl; [discriminate|].
  destruct (String.eqb (_id x) i) eqn:E.
  - intros [= <-]. exists (f x :: rows). simpl. rewrite Hf, E.
    repeat split. intros j Hj.
    apply String.eqb_eq in E.
    destruct (String.eqb (_id x) j) eqn:E'; [|reflexivity].
    apply String.eqb_eq in E'. congruence.
  - intros H. destruct (IH H) as (rows' & -> & Hl & Ho).
    exists (x :: rows'). simpl. rewrite E. repeat split; [assumption|].
    intros j Hj. rewrite (Ho j Hj). reflexivity.
Qed.

Lemma updateOne_missing (i : string) (f : User -> User) (rows : list User) :
  lookupById i rows = None -> updateOne i f rows = None.
Proof.
  unfold lookupById.
  induction rows as [|x rows IH]; simpl; [reflexivity|].
  destruct (String.eqb (_id x) i); [discriminate|].
  intros H. now rewrite (IH H).
Qed.

(** Membership of a token string in a stored set, as [some] computes it. *)
Lemma some_token_In (t : string) (l : list RefreshEntry) :
  existsb (fun tokenObj => String.eqb (token tokenObj) t) l = true <->
  In t (map token l).
Proof.
  rewrite existsb_exists, in_map_iff. split.
  - intros (x & Hx & E). apply String.eqb_eq in E. eauto.
  - intros (x & E & Hx). exists x. split; [assumption|].
    now apply String.eqb_eq.
Qed.

Lemma some_token_filter (t : string) (l : list RefreshEntry) :
  existsb (fun tokenObj => String.eqb (token tokenObj) t)
          (filter (fun tokenObj => negb (String.eqb (token tokenObj) t)) l) = false.
Proof.
  induction l as [|x l IH]; simpl; [reflexivity|].
  destruct (String.eqb (token x) t) eqn:E; simpl; [assumption|].
  now rewrite E.
Qed.

(* ===================================================================== *)
(** ** What the middleware does, step by step *)

Section Gate.

Context {L : Library}.

(** [findById] on a castable id is a lookup that leaves the world alone. *)
Lemma findById_cast (i : string) (sel : Select) (w : World) :
  castObjectId i = true ->
  findById i sel w = (Ok (option_map (hydrate sel) (lookupById i (users w))), w).
Proof.
  intros H. unfold findById. now rewrite H.
Qed.

(** [auth] with a bearer token: the header checks pass and the outcome is
    decided by the verification of the token. *)
Lemma auth_bearer (req : Request) (w : World) (tok : string) :
  header_Authorization req = Some ("Bearer " ++ tok) ->
  tok <> "" ->
  auth req w =
  try_catch
    (decoded <- lift (jwt_verify tok (JWT_SECRET (process_env w)) (clock w)) ;;
     user <- findById (claim_id decoded) SelectMinusPasswordRefreshTokens ;;
     match user with
     | None => fail 401 "Token is not valid - user not found"
     | Some user =>
         if negb (isActive (fields user)) then fail 401 "User account is deactivated"
         else ret (Next (set_user req user))
     end)
    (fun error =>
       console_error "Auth middleware error:" error ;;;
       if String.eqb (exn_name error) "JsonWebTokenError" then fail 401 "Invalid token"
       else if String.eqb (exn_name error) "TokenExpiredError" then fail 401 "Token expired"
       else fail 500 "Server error during authentication") w.
Proof.
  intros Hh Ht. unfold auth. rewrite Hh.
  rewrite falsy_Bearer, startsWith_Bearer, substring_from_Bearer.
  rewrite (falsy_false Ht). reflexivity.
Qed.

(** An inactive user is turned away by [auth] whatever token names them. *)
Lemma auth_rejects_inactive (req : Request) (w : World) (tok : string)
      (c : Claims) (u : User) :
  header_Authorization req = Some ("Bearer " ++ tok) ->
  tok <> "" ->
  jwt_verify tok (JWT_SECRET (process_env w)) (clock w) = Ok c ->
  castObjectId (claim_id c) = true ->
  lookupById (claim_id c) (users w) = Some u ->
  isActive u = false ->
  auth req w = (Ok (Respond 401 (mkJson false "User account is deactivated" None)), w).
Proof.
  intros Hh Ht Hv Hc Hu Ha.
  rewrite auth_bearer with (tok := tok) by assumption.
  unfold try_catch, bind, lift. rewrite Hv.
  rewrite findById_cast by assumption. rewrite Hu. simpl. now rewrite Ha.
Qed.

End Gate.

Section RefreshFlow.

Context {L : Library}.

(** [verifyRefreshToken] with a token in the body: the outcome is decided
    by the verification of the token under the derived secret. *)
Lemma verifyRefreshToken_present (req : Request) (w : World) (tok : string) :
  body_refreshToken req = Some tok ->
  tok <> "" ->
  verifyRefreshToken req w =
  try_catch
    (decoded <- lift (jwt_verify tok (JWT_SECRET (process_env w) ++ "refresh") (clock w)) ;;
     user <- findById (claim_id decoded) SelectDefault ;;
     match user with
     | None => fail 401 "Invalid refresh token - user not found"
     | Some user =>
         if hasRefreshTokens user then
           if negb (existsb (fun tokenObj => String.eqb (token tokenObj) tok)
                            (refreshTokens (fields user)))
           then fail 401 "Invalid refresh token"
           else ret (Next (set_refreshToken (set_user req user) tok))
         else throw (TypeError "Cannot read properties of undefined (reading 'some')")
     end)
    (fun error =>
       console_error "Refresh token verification error:" error ;;;
       if String.eqb (exn_name error) "JsonWebTokenError"
          || String.eqb (exn_name error) "TokenExpiredError"
       then fail 401 "Invalid or expired refresh token"
       else fail 500 "Server error during refresh token verification") w.
Proof.
  intros Hb Ht. unfold verifyRefreshToken. rewrite Hb.
  rewrite (falsy_false Ht). reflexivity.
Qed.

(** Once the token verifies and names a stored user, only membership in
    that user's stored set is consulted. *)
Lemma verifyRefreshToken_found (req : Request) (w : World) (tok : string)
      (c : Claims) (u : User) :
  body_refreshToken req = Some tok ->
  tok <> "" ->
  jwt_verify tok (JWT_SECRET (process_env w) ++ "refresh") (clock w) = Ok c ->
  castObjectId (claim_id c) = true ->
  lookupById (claim_id c) (users w) = Some u ->
  verifyRefreshToken req w =
  (Ok (if existsb (fun tokenObj => String.eqb (token tokenObj) tok) (refreshTokens u)
       then Next (set_refreshToken (set_user req (hydrate SelectDefault u)) tok)
       else Respond 401 (mkJson false "Invalid refresh token" None)), w).
Proof.
  intros Hb Ht Hv Hc Hu.
  rewrite verifyRefreshToken_present with (tok := tok) by assumption.
  unfold try_catch, bind, lift. rewrite Hv.
  rewrite findById_cast by assumption. rewrite Hu. simpl.
  destruct (existsb _ (refreshTokens u)); reflexivity.
Qed.

End RefreshFlow.

Section Saving.

Context {L : Library}.

(** A save that does not touch the password: no salt is drawn, and the
    modified paths replace those of the stored document. *)
Lemma save_password_unmodified (this : Doc) (w : World) (r : User) :
  isModified this Ppassword = false ->
  lookupById (_id (fields this)) (users w) = Some r ->
  exists rows,
    save this w =
      (Ok (mkDoc (fields this) (hasPassword this) (hasRefreshTokens this) []),
       with_users w rows) /\
    lookupById (_id (fields this)) rows =
      Some (copyPaths (modifiedPaths this) (fields this) r) /\
    (forall j, j <> _id (fields this) -> lookupById j rows = lookupById j (users w)).
Proof.
  intros Hm Hr.
  destruct (@updateOne_lookup (_id (fields this))
              (copyPaths (modifiedPaths this) (fields this)) (users w) r)
    as (rows & Hu & Hl & Ho); [intros x; apply copyPaths_id | assumption |].
  exists rows. split; [|split; assumption].
  unfold save, preSave, bind, get_world, ret, put_users. rewrite Hm. simpl.
  now rewrite Hu.
Qed.

(** Assigning to a password that is already marked modified. *)
Lemma assign_password_modified (d : Doc) (v : string) :
  isModified d Ppassword = true ->
  assign_password d v =
    mkDoc (set_password (fields d) v) true (hasRefreshTokens d)
          (Ppassword :: modifiedPaths d).
Proof.
  unfold isModified, assign_password. intros ->. reflexivity.
Qed.

(** Assigning to a password that was not loaded: any value is a change. *)
Lemma assign_password_deselected (d : Doc) (v : string) :
  hasPassword d = false ->
  assign_password d v =
    mkDoc (set_password (fields d) v) true (hasRefreshTokens d)
          (Ppassword :: modifiedPaths d).
Proof.
  unfold assign_password. intros ->. now rewrite andb_false_r.
Qed.

(** A save after the password was assigned: the hook draws a salt and
    replaces the plaintext by its hash before anything is written. *)
Lemma save_password_modified (this : Doc) (w : World) (r : User) :
  isModified this Ppassword = true ->
  lookupById (_id (fields this)) (users w) = Some r ->
  let hash := bcrypt_hash (password (fields this)) (bcrypt_genSalt 12 (entropy w)) in
  let this1 := mkDoc (set_password (fields this) hash) true (hasRefreshTokens this)
                     (Ppassword :: modifiedPaths this) in
  exists rows,
    save this w =
      (Ok (mkDoc (fields this1) true (hasRefreshTokens this) []),
       mkWorld (process_env w) rows (clock w) (S (entropy w)) (console w)) /\
    lookupById (_id (fields this)) rows =
      Some (copyPaths (modifiedPaths this1) (fields this1) r) /\
    (forall j, j <> _id (fields this) -> lookupById j rows = lookupById j (users w)).
Proof.
  intros Hm Hr hash this1.
  destruct (@updateOne_lookup (_id (fields this))
              (copyPaths (modifiedPaths this1) (fields this1)) (users w) r)
    as (rows & Hu & Hl & Ho); [intros x; apply copyPaths_id | assumption |].
  exists rows. split; [|split; assumption].
  unfold save, preSave, bind, try_catch, genSalt, get_world, ret, put_users.
  rewrite Hm. subst this1 hash. simpl in Hu |- *.
  rewrite assign_password_modified by assumption. simpl.
  now rewrite Hu.
Qed.

(** The full save of a document that passes validation is [save]. *)
Lemma Document_save_valid (this : Doc) (w : World) :
  validators this = true -> Document_save this w = save this w.
Proof.
  intros Hv. unfold Document_save, bind, validate. now rewrite Hv.
Qed.

(** A full save that succeeded passed validation. *)
Lemma Document_save_ok (this saved : Doc) (w w1 : World) :
  Document_save this w = (Ok saved, w1) ->
  validators this = true /\ save this w = (Ok saved, w1).
Proof.
  unfold Document_save, bind, validate.
  destruct (validators this); [|discriminate]. auto.
Qed.

(** [findByCredentials] once the query has found a user. *)
Lemma findByCredentials_found (w : World) (u : User) (email_ password_ : string) :
  lookupActiveByEmail (toLowerCase email_) (users w) = Some u ->
  findByCredentials email_ password_ w =
    if bcrypt_compare password_ (password u)
    then Document_save (assign_lastLogin (hydrate SelectPlusPassword u) (clock w)) w
    else (Throw (mkExn "Error" "Invalid login credentials"), w).
Proof.
  intros Hfind.
  unfold findByCredentials, findOne_email_active, comparePassword,
    bind, get_world, ret, throw.
  rewrite Hfind. simpl.
  destruct (bcrypt_compare password_ (password u)); simpl; [|reflexivity].
  destruct (Document_save _ w) as [[d|e] w']; reflexivity.
Qed.

End Saving.

Section Revocation.

Context {L : Library}.

(** Logout: after [removeRefreshToken] and [save], the stored set of the
    user no longer holds the token, and the Refresh Flow refuses it. *)
Lemma removed_token_rejected (req : Request) (w : World) (tok : string)
      (decoded : Claims) (u : User) :
  body_refreshToken req = Some tok ->
  tok <> "" ->
  jwt_verify tok (JWT_SECRET (process_env w) ++ "refresh") (clock w) = Ok decoded ->
  castObjectId (claim_id decoded) = true ->
  lookupById (claim_id decoded) (users w) = Some u ->
  exists saved rows,
    (this <- removeRefreshToken (hydrate SelectDefault u) tok ;; save this) w =
      (Ok saved, with_users w rows) /\
    verifyRefreshToken req (with_users w rows) =
      (Ok (Respond 401 (mkJson false "Invalid refresh token" None)),
       with_users w rows).
Proof.
  intros Hb Ht Hv Hc Hu.
  pose proof (lookupById_id _ _ Hu) as Hid.
  set (this := assign_refreshTokens (hydrate SelectDefault u)
                 (filter (fun tokenObj => negb (String.eqb (token tokenObj) tok))
                         (refreshTokens u))).
  destruct (@save_password_unmodified L this w u) as (rows & Hs & Hl & _);
    [reflexivity | simpl; now rewrite Hid |].
  exists (mkDoc (fields this) (hasPassword this) (hasRefreshTokens this) []), rows.
  split.
  - unfold bind, removeRefreshToken, ret. simpl. exact Hs.
  - simpl in Hl. rewrite Hid in Hl.
    rewrite (@verifyRefreshToken_found L req (with_users w rows) tok decoded _
               Hb Ht Hv Hc Hl).
    simpl. now rewrite some_token_filter.
Qed.

End Revocation.

(* ===================================================================== *)
(** ** The properties of the specification *)

(** C1. Inactive users are to be turned away both by the Auth Gate and by
    the Refresh Flow, whatever the token.  The Auth Gate does so; the refresh
    middleware never reads [isActive].  On the collection where Alex is
    deactivated and still holds the stored token ["s3cretrefresh.u1"],
    [auth] answers 401 "User account is deactivated" to his access token,
    and [verifyRefreshToken] calls [next()] with him attached. *)
Theorem C1_refresh_flow_admits_inactive_user :
  isActive Sample.alex_inactive = false /\
  auth (L := Sample.lib) (Sample.bearer "Bearer s3cret.u1") Sample.world_inactive =
    (Ok (Respond 401 (mkJson false "User account is deactivated" None)),
     Sample.world_inactive) /\
  verifyRefreshToken (L := Sample.lib) (Sample.refresh "s3cretrefresh.u1")
                     Sample.world_inactive =
    (Ok (Next (set_refreshToken
                 (set_user (Sample.refresh "s3cretrefresh.u1")
                           (hydrate SelectDefault Sample.alex_inactive))
                 "s3cretrefresh.u1")),
     Sample.world_inactive).
Proof. repeat split. Qed.

(** C5, as the code has it.  [jwt.verify] decides what is wrong with a
    token, and [auth] answers by the name of its error: a token that it
    reports as expired (a TokenExpiredError: the signature verified and
    [exp] lies in the past) is answered 401 "Token expired"; a token that it
    reports as invalid (a JsonWebTokenError, which is what a token whose
    signature does not verify gets, whatever its [exp]) is answered 401
    "Invalid token".  The collection is left as it was. *)
Theorem C5_expired_token_rejected_as_expired
        (L : Library) (req : Request) (w : World) (tok : string) (error : Exn) :
  header_Authorization req = Some ("Bearer " ++ tok) ->
  tok <> "" ->
  jwt_verify tok (JWT_SECRET (process_env w)) (clock w) = Throw error ->
  (exn_name error = "TokenExpiredError" ->
   fst (auth req w) = Ok (Respond 401 (mkJson false "Token expired" None))) /\
  (exn_name error = "JsonWebTokenError" ->
   fst (auth req w) = Ok (Respond 401 (mkJson false "Invalid token" None))) /\
  users (snd (auth req w)) = users w.
Proof.
  intros Hh Ht Hv.
  rewrite auth_bearer with (tok := tok) by assumption.
  unfold try_catch, bind, lift. rewrite Hv. simpl.
  split; [|split].
  - intros Hn. rewrite Hn. reflexivity.
  - intros Hn. rewrite Hn. reflexivity.
  - destruct (String.eqb (exn_name error) "JsonWebTokenError"); [reflexivity|].
    destruct (String.eqb (exn_name error) "TokenExpiredError"); reflexivity.
Qed.

Lemma C5_expired_token_witness :
  fst (auth (L := Demo.issued_lib Demo.circulation)
            (Sample.bearer "Bearer expired") Sample.world) =
    Ok (Respond 401 (mkJson false "Token expired" None)) /\
  users (snd (auth (L := Demo.issued_lib Demo.circulation)
                   (Sample.bearer "Bearer expired") Sample.world)) =
    users Sample.world.
Proof.
  destruct (@C5_expired_token_rejected_as_expired (Demo.issued_lib Demo.circulation)
              (Sample.bearer "Bearer expired") Sample.world "expired"
              (mkExn "TokenExpiredError" "jwt expired"))
    as (Hexpired & _ & Husers).
  - reflexivity.
  - discriminate.
  - reflexivity.
  - split; [apply Hexpired; reflexivity | exact Husers].
Defined.

(** C5, as the specification words it, fails: an expiry in the past does
    not decide the answer.  Of two tokens whose [exp] lies before the
    clock, the one signed with the secret is answered "Token expired", the
    one signed with another key "Invalid token": the library checks the
    signature first. *)
Lemma C5_expired_forged_token_is_invalid :
  (forall tok i, In (tok, i) Demo.circulation ->
                 (Demo.issued_exp i < clock Sample.world)%Z) /\
  fst (auth (L := Demo.issued_lib Demo.circulation)
            (Sample.bearer "Bearer expired") Sample.world) =
    Ok (Respond 401 (mkJson false "Token expired" None)) /\
  fst (auth (L := Demo.issued_lib Demo.circulation)
            (Sample.bearer "Bearer forged") Sample.world) =
    Ok (Respond 401 (mkJson false "Invalid token" None)) /\
  fst (auth (L := Demo.issued_lib Demo.circulation)
            (Sample.bearer "Bearer forged") Sample.world) <>
    Ok (Respond 401 (mkJson false "Token expired" None)).
Proof.
  split; [|split; [reflexivity | split; [reflexivity | discriminate]]].
  intros tok i [H | [H | []]]; injection H as _ <-; reflexivity.
Qed.

(** C6, as the code has it.  When the refresh-token field is absent from
    the request body (or is the empty string), [verifyRefreshToken] answers
    401 "Refresh token is required"; and whatever the request, a response
    of this middleware carries status 401 or 500, never 400. *)
Theorem C6_missing_refresh_token_is_401 (L : Library) (req : Request) (w : World) :
  (body_refreshToken req = None \/ body_refreshToken req = Some "" ->
   verifyRefreshToken req w =
     (Ok (Respond 401 (mkJson false "Refresh token is required" None)), w)) /\
  (forall code body w',
     verifyRefreshToken req w = (Ok (Respond code body), w') ->
     code = 401 \/ code = 500).
Proof.
  split.
  - intros [H | H]; unfold verifyRefreshToken; rewrite H; reflexivity.
  - intros code body w'.
    unfold verifyRefreshToken, try_catch, bind, lift, fail, ret, get_world.
    destruct (body_refreshToken req) as [t|]; [|intros [= <- _ _]; now left].
    destruct (falsy t); [intros [= <- _ _]; now left|].
    cbv beta iota.
    destruct (jwt_verify _ _ _) as [c|e].
    + unfold findById, throw, bind, get_world, ret.
      destruct (castObjectId _); simpl.
      * destruct (lookupById _ _) as [u|]; simpl;
          [|intros [= <- _ _]; now left].
        destruct (negb _); intros [= <- _ _]; now left.
      * intros [= <- _ _]; now right.
    + simpl. destruct (_ || _); intros [= <- _ _]; [now left | now right].
Qed.

(** C6, as the specification words it, fails: with no [refreshToken] in
    the body the status is 401, not 400. *)
Lemma C6_missing_refresh_token_not_400 :
  fst (verifyRefreshToken (L := Sample.lib) Sample.request Sample.world) =
    Ok (Respond 401 (mkJson false "Refresh token is required" None)) /\
  ~ (exists body,
       fst (verifyRefreshToken (L := Sample.lib) Sample.request Sample.world) =
       Ok (Respond 400 body)).
Proof.
  split; [reflexivity|]. intros [body H]. discriminate H.
Qed.

Lemma C6_missing_refresh_token_witness :
  verifyRefreshToken (L := Sample.lib) Sample.request Sample.world =
    (Ok (Respond 401 (mkJson false "Refresh token is required" None)), Sample.world).
Proof.
  apply (proj1 (@C6_missing_refresh_token_is_401 Sample.lib Sample.request Sample.world)).
  left. reflexivity.
Defined.

(** C9. [optionalAuth] always calls [next()]: whatever the Authorization
    header, the token and the collection, it never responds and never
    throws, and it leaves the world as it was.  The request goes on
    unchanged, unless the header is a bearer token that verifies and names
    a stored, active user: only then is that user attached. *)
Theorem C9_optionalAuth_never_fails (L : Library) (req : Request) (w : World) :
  exists req',
    optionalAuth req w = (Ok (Next req'), w) /\
    (req' = req \/
     exists authHeader decoded u,
       header_Authorization req = Some authHeader /\
       startsWith authHeader "Bearer " = true /\
       substring_from 7 authHeader <> "" /\
       jwt_verify (substring_from 7 authHeader)
                  (JWT_SECRET (process_env w)) (clock w) = Ok decoded /\
       lookupById (claim_id decoded) (users w) = Some u /\
       isActive u = true /\
       req' = set_user req (hydrate SelectMinusPasswordRefreshTokens u)).
Proof.
  unfold optionalAuth, try_catch, bind, lift, ret, get_world.
  destruct (header_Authorization req) as [h|] eqn:Hh; [|eauto].
  destruct (falsy h); simpl; [eauto|].
  destruct (startsWith h "Bearer ") eqn:Hs; [|eauto].
  destruct (falsy (substring_from 7 h)) eqn:Hf; simpl; [eauto|].
  destruct (jwt_verify _ _ _) as [c|e] eqn:Hv; [|eauto].
  unfold findById, throw, bind, get_world, ret.
  destruct (castObjectId _); [|eauto].
  destruct (lookupById _ _) as [u|] eqn:Hu; simpl; [|eauto].
  destruct (isActive u) eqn:Ha; [|eauto].
  eexists. split; [reflexivity|]. right.
  exists h, c, u. repeat split; try assumption.
  intros E. rewrite E in Hf. discriminate.
Qed.

(** C2. Round trip of the access token.  Let [tok] be the token that
    [generateAuthToken] produced for a document of the stored, active user
    [u], presented as [Bearer tok] while [u] is stored unmodified under its
    id, at an instant when the token library still accepts the tokens it
    issued ([accepts_issued_tokens]: within the lifetime, same secret).
    Then [auth] calls [next()] and leaves the world as it was.  The request
    it hands on is the one that came in but for [req.user], which is the
    stored user without password hash and refresh tokens: its id, email and
    role are those of [u]. *)
Theorem C2_access_token_round_trip
        (L : Library) (w0 w0' w : World) (u : User) (sel : Select)
        (tok : string) (req : Request) :
  accepts_issued_tokens L w0 w ->
  generateAuthToken (hydrate sel u) w0 = (Ok tok, w0') ->
  castObjectId (_id u) = true ->
  lookupById (_id u) (users w) = Some u ->
  isActive u = true ->
  header_Authorization req = Some ("Bearer " ++ tok) ->
  exists req' attached,
    auth req w = (Ok (Next req'), w) /\
    user req' = Some attached /\
    _id (fields attached) = _id u /\
    email (fields attached) = email u /\
    role (fields attached) = role u /\
    name (fields attached) = name u /\
    isActive (fields attached) = true /\
    hasPassword attached = false /\
    hasRefreshTokens attached = false /\
    attached = hydrate SelectMinusPasswordRefreshTokens u /\
    header_Authorization req' = header_Authorization req /\
    params_id req' = params_id req /\
    body_refreshToken req' = body_refreshToken req /\
    body_isActive req' = body_isActive req /\
    refreshToken req' = refreshToken req.
Proof.
  intros Hlib Hsign Hc Hu Ha Hh.
  unfold generateAuthToken, bind, get_world, lift in Hsign.
  injection Hsign as Hsign _.
  destruct (Hlib _ _ Hsign) as (Ht & decoded & Hv & Hid).
  assert (Hid' : claim_id decoded = _id u).
  { rewrite Hid. destruct sel; reflexivity. }
  exists (set_user req (hydrate SelectMinusPasswordRefreshTokens u)),
         (hydrate SelectMinusPasswordRefreshTokens u).
  split; [|repeat split; assumption].
  rewrite auth_bearer with (tok := tok) by assumption.
  unfold try_catch, bind, lift. rewrite Hv, Hid'.
  rewrite findById_cast by assumption. rewrite Hu. simpl. now rewrite Ha.
Qed.

(** The sample library has the round trip at any two instants of the
    sample environment. *)
Lemma sample_accepts_issued_tokens :
  accepts_issued_tokens Sample.lib Sample.world Sample.world.
Proof.
  intros claims tok. simpl. unfold Sample.sign. simpl.
  intros [= <-]. split; [discriminate|].
  exists (mkClaims (claim_id claims) None None). split; [|reflexivity].
  unfold Sample.verify. simpl.
  replace (startsWith _ _) with true.
  - unfold substring_from. simpl. rewrite Nat.sub_0_r.
    now rewrite substring_0_length.
  - unfold startsWith. simpl.
    repeat match goal with
           | |- context [Ascii.ascii_dec ?a ?b] =>
               destruct (Ascii.ascii_dec a b); [|congruence]
           end.
    destruct (claim_id claims); reflexivity.
Qed.

Lemma C2_access_token_round_trip_witness :
  let req := Sample.bearer "Bearer s3cret.u1" in
  exists req' attached,
    auth (L := Sample.lib) req Sample.world = (Ok (Next req'), Sample.world) /\
    user req' = Some attached /\
    _id (fields attached) = _id Sample.alex /\
    email (fields attached) = email Sample.alex /\
    role (fields attached) = role Sample.alex /\
    name (fields attached) = name Sample.alex /\
    isActive (fields attached) = true /\
    hasPassword attached = false /\
    hasRefreshTokens attached = false /\
    attached = hydrate SelectMinusPasswordRefreshTokens Sample.alex /\
    header_Authorization req' = header_Authorization req /\
    params_id req' = params_id req /\
    body_refreshToken req' = body_refreshToken req /\
    body_isActive req' = body_isActive req /\
    refreshToken req' = refreshToken req.
Proof.
  apply (@C2_access_token_round_trip Sample.lib Sample.world Sample.world
           Sample.world Sample.alex SelectPlusPassword "s3cret.u1"
           (Sample.bearer "Bearer s3cret.u1")).
  - exact sample_accepts_issued_tokens.
  - reflexivity.
  - reflexivity.
  - reflexivity.
  - reflexivity.
  - reflexivity.
Defined.

(** C3. For a refresh token that verifies under the derived secret and
    whose claimed user [u] is stored, [verifyRefreshToken] calls [next()]
    (attaching [u] and the token) if and only if the exact token string is
    among [u]'s stored refresh tokens, and answers 401 "Invalid refresh
    token" otherwise.  In particular, once [removeRefreshToken] has removed
    the token and the document was saved, the same token, which still
    verifies, is answered with 401 "Invalid refresh token". *)
Theorem C3_refresh_succeeds_iff_token_stored
        (L : Library) (req : Request) (w : World) (tok : string)
        (decoded : Claims) (u : User) :
  body_refreshToken req = Some tok ->
  tok <> "" ->
  jwt_verify tok (JWT_SECRET (process_env w) ++ "refresh") (clock w) = Ok decoded ->
  castObjectId (claim_id decoded) = true ->
  lookupById (claim_id decoded) (users w) = Some u ->
  ((exists req', verifyRefreshToken req w = (Ok (Next req'), w)) <->
   In tok (map token (refreshTokens u))) /\
  (In tok (map token (refreshTokens u)) ->
   verifyRefreshToken req w =
     (Ok (Next (set_refreshToken (set_user req (hydrate SelectDefault u)) tok)), w)) /\
  (~ In tok (map token (refreshTokens u)) ->
   verifyRefreshToken req w =
     (Ok (Respond 401 (mkJson false "Invalid refresh token" None)), w)) /\
  (exists saved rows,
     (this <- removeRefreshToken (hydrate SelectDefault u) tok ;; save this) w =
       (Ok saved, with_users w rows) /\
     verifyRefreshToken req (with_users w rows) =
       (Ok (Respond 401 (mkJson false "Invalid refresh token" None)),
        with_users w rows)).
Proof.
  intros Hb Ht Hv Hc Hu.
  pose proof (verifyRefreshToken_found req w Hb Ht Hv Hc Hu) as Hrun.
  pose proof (some_token_In tok (refreshTokens u)) as Hin.
  destruct (existsb _ (refreshTokens u)) eqn:E.
  - assert (Hyes : In tok (map token (refreshTokens u))) by now apply Hin.
    split; [|split; [|split]].
    + split; [intros _; assumption | intros _; eauto].
    + intros _. assumption.
    + intros Hno. contradiction.
    + now apply removed_token_rejected with (decoded := decoded).
  - assert (Hno : ~ In tok (map token (refreshTokens u))).
    { intros H. apply Hin in H. discriminate. }
    split; [|split; [|split]].
    + split; [|contradiction].
      intros [req' H]. rewrite Hrun in H. discriminate.
    + contradiction.
    + intros _. assumption.
    + now apply removed_token_rejected with (decoded := decoded).
Qed.

Lemma C3_refresh_succeeds_iff_token_stored_witness :
  let req := Sample.refresh "s3cretrefresh.u1" in
  let tok := "s3cretrefresh.u1" in
  ((exists req', verifyRefreshToken (L := Sample.lib) req Sample.world =
                   (Ok (Next req'), Sample.world)) <->
   In tok (map token (refreshTokens Sample.alex))) /\
  (In tok (map token (refreshTokens Sample.alex)) ->
   verifyRefreshToken (L := Sample.lib) req Sample.world =
     (Ok (Next (set_refreshToken (set_user req (hydrate SelectDefault Sample.alex)) tok)),
      Sample.world)) /\
  (~ In tok (map token (refreshTokens Sample.alex)) ->
   verifyRefreshToken (L := Sample.lib) req Sample.world =
     (Ok (Respond 401 (mkJson false "Invalid refresh token" None)), Sample.world)) /\
  (exists saved rows,
     (this <- removeRefreshToken (hydrate SelectDefault Sample.alex) tok ;;
      save (L := Sample.lib) this) Sample.world =
       (Ok saved, with_users Sample.world rows) /\
     verifyRefreshToken (L := Sample.lib) req (with_users Sample.world rows) =
       (Ok (Respond 401 (mkJson false "Invalid refresh token" None)),
        with_users Sample.world rows)).
Proof.
  apply (@C3_refresh_succeeds_iff_token_stored Sample.lib
           (Sample.refresh "s3cretrefresh.u1") Sample.world "s3cretrefresh.u1"
           (mkClaims "u1" None None) Sample.alex).
  - reflexivity.
  - discriminate.
  - reflexivity.
  - reflexivity.
  - reflexivity.
Defined.

(** C7, as the code has it.  On a document whose [refreshTokens] were
    loaded, [generateRefreshToken] signs the claim set [{ id }] (no email,
    no role) with the secret [JWT_SECRET + 'refresh'] and the fixed
    lifetime ['7d'], appends the token with the current time as
    [createdAt] to the [refreshTokens] of the document in memory (marking
    the path modified), and returns the token.  It does not save: the
    world, and so the stored collection, is as before. *)
Theorem C7_generateRefreshToken_appends_in_memory
        (L : Library) (this : Doc) (w : World) :
  hasRefreshTokens this = true ->
  generateRefreshToken this w =
    (match jwt_sign (mkClaims (_id (fields this)) None None)
                    (JWT_SECRET (process_env w) ++ "refresh") "7d" (clock w) with
     | Ok refreshToken =>
         Ok (refreshToken,
             mkDoc (set_refreshTokens (fields this)
                      (refreshTokens (fields this) ++
                       [mkRefreshEntry refreshToken (clock w)]))
                   (hasPassword this) true
                   (PrefreshTokens :: modifiedPaths this))
     | Throw error => Throw error
     end, w).
Proof.
  intros H.
  unfold generateRefreshToken, bind, get_world, lift, push_refreshToken, ret.
  destruct (jwt_sign _ _ _ _); [|reflexivity].
  rewrite H. reflexivity.
Qed.

Lemma C7_generateRefreshToken_witness :
  generateRefreshToken (L := Sample.lib) (hydrate SelectDefault Sample.admin) Sample.world =
    (Ok ("s3cretrefresh.a1",
         mkDoc (set_refreshTokens (set_password Sample.admin "")
                                  [mkRefreshEntry "s3cretrefresh.a1" 10])
               false true [PrefreshTokens]),
     Sample.world).
Proof.
  apply (@C7_generateRefreshToken_appends_in_memory Sample.lib
           (hydrate SelectDefault Sample.admin) Sample.world).
  reflexivity.
Defined.

(** C7, as the specification words it, fails on its last step: after
    [generateRefreshToken] the user is not persisted.  The token is in the
    document in memory only; the stored admin still has no refresh token,
    and the Refresh Flow refuses the token just issued. *)
Lemma C7_generateRefreshToken_does_not_persist :
  exists this',
    generateRefreshToken (L := Sample.lib) (hydrate SelectDefault Sample.admin)
                         Sample.world =
      (Ok ("s3cretrefresh.a1", this'), Sample.world) /\
    In "s3cretrefresh.a1" (map token (refreshTokens (fields this'))) /\
    lookupById "a1" (users Sample.world) = Some Sample.admin /\
    refreshTokens Sample.admin = [] /\
    verifyRefreshToken (L := Sample.lib) (Sample.refresh "s3cretrefresh.a1") Sample.world =
      (Ok (Respond 401 (mkJson false "Invalid refresh token" None)), Sample.world).
Proof.
  eexists. split; [reflexivity|].
  repeat split. simpl. now left.
Qed.

(* ===================================================================== *)
(** ** Credentials *)

Lemma lookupActiveByEmail_some (e : string) (rows : list User) (u : User) :
  lookupActiveByEmail e rows = Some u ->
  In u rows /\ email u = e /\ isActive u = true.
Proof.
  unfold lookupActiveByEmail. intros H. apply find_some in H.
  destruct H as [Hin H]. apply andb_true_iff in H. destruct H as [He Ha].
  apply String.eqb_eq in He. auto.
Qed.

Lemma lookupActiveByEmail_none (e : string) (rows : list User) :
  lookupActiveByEmail e rows = None ->
  forall u, In u rows -> email u = e -> isActive u = false.
Proof.
  unfold lookupActiveByEmail. intros H u Hin He.
  pose proof (find_none _ _ H u Hin) as Hf. simpl in Hf.
  apply andb_false_iff in Hf. destruct Hf as [Hf | Hf]; [|assumption].
  apply String.eqb_neq in Hf. contradiction.
Qed.

(** With unique emails the filter [{ email, isActive: true }] finds the
    active user of that email, wherever it is in the collection. *)
Lemma lookupActiveByEmail_unique (rows : list User) (u : User) :
  NoDup (map email rows) ->
  In u rows -> isActive u = true ->
  lookupActiveByEmail (email u) rows = Some u.
Proof.
  unfold lookupActiveByEmail.
  induction rows as [|x rows IH]; simpl; [contradiction|].
  intros Hnd [-> | Hin] Ha.
  - now rewrite String.eqb_refl, Ha.
  - inversion Hnd as [|? ? Hx Hnd']; subst.
    destruct (String.eqb (email x) (email u)) eqn:E.
    + apply String.eqb_eq in E. exfalso. apply Hx. rewrite E.
      now apply in_map.
    + simpl. now apply IH.
Qed.

Lemma lookupById_unique (rows : list User) (u : User) :
  NoDup (map _id rows) -> In u rows -> lookupById (_id u) rows = Some u.
Proof.
  unfold lookupById.
  induction rows as [|x rows IH]; simpl; [contradiction|].
  intros Hnd [-> | Hin].
  - now rewrite String.eqb_refl.
  - inversion Hnd as [|? ? Hx Hnd']; subst.
    destruct (String.eqb (_id x) (_id u)) eqn:E.
    + apply String.eqb_eq in E. exfalso. apply Hx. rewrite E.
      now apply in_map.
    + now apply IH.
Qed.

(** C4. On a collection with unique ids and emails whose documents pass
    the validators of the schema, [findByCredentials] returns the user
    exactly when an active user with that email (the email given, in lower
    case, as the query casts it) is stored and the password matches its
    stored hash.  It then returns that user with [lastLogin] set to the
    current time, and the stored document has that [lastLogin] too and is
    otherwise what it was, every other document being untouched.  When no
    stored user is active, has that email and has a matching hash (no such
    user, user inactive, or password mismatch), it throws the one error
    "Invalid login credentials" and changes nothing. *)
Theorem C4_findByCredentials
        (L : Library) (w : World) (email_ password_ : string) :
  unique_users (users w) ->
  valid_users (users w) ->
  (forall u,
     In u (users w) -> email u = toLowerCase email_ -> isActive u = true ->
     bcrypt_compare password_ (password u) = true ->
     exists user rows stored',
       findByCredentials email_ password_ w = (Ok user, with_users w rows) /\
       lookupById (_id u) rows = Some stored' /\
       lastLogin stored' = clock w /\
       lastLogin (fields user) = clock w /\
       fields user = stored' /\
       modifiedPaths user = [] /\
       _id stored' = _id u /\ name stored' = name u /\ email stored' = email u /\
       password stored' = password u /\ role stored' = role u /\
       avatar stored' = avatar u /\ bio stored' = bio u /\
       isActive stored' = true /\ refreshTokens stored' = refreshTokens u /\
       (forall j, j <> _id u -> lookupById j rows = lookupById j (users w))) /\
  ((forall u,
      In u (users w) -> email u = toLowerCase email_ -> isActive u = true ->
      bcrypt_compare password_ (password u) = false) ->
   findByCredentials email_ password_ w =
     (Throw (mkExn "Error" "Invalid login credentials"), w)) /\
  ((exists user w', findByCredentials email_ password_ w = (Ok user, w')) <->
   (exists u, In u (users w) /\ email u = toLowerCase email_ /\ isActive u = true /\
              bcrypt_compare password_ (password u) = true)).
Proof.
  intros [Hids Hemails] Hvalid.
  assert (Hok : forall u,
     In u (users w) -> email u = toLowerCase email_ -> isActive u = true ->
     bcrypt_compare password_ (password u) = true ->
     exists rows,
       findByCredentials email_ password_ w =
         (Ok (mkDoc (set_lastLogin u (clock w)) true true []), with_users w rows) /\
       lookupById (_id u) rows = Some (set_lastLogin u (clock w)) /\
       (forall j, j <> _id u -> lookupById j rows = lookupById j (users w))).
  { intros u Hin He Ha Hp.
    pose proof (@lookupActiveByEmail_unique (users w) u Hemails Hin Ha) as Hfind.
    rewrite He in Hfind.
    pose proof (@lookupById_unique (users w) u Hids Hin) as Hrow.
    destruct (@save_password_unmodified L
                (assign_lastLogin (hydrate SelectPlusPassword u) (clock w)) w u)
      as (rows & Hs & Hl & Ho); [reflexivity | exact Hrow |].
    exists rows. split; [|split; [exact Hl | exact Ho]].
    rewrite (@findByCredentials_found L w u email_ password_ Hfind), Hp.
    rewrite Document_save_valid by exact (Hvalid u Hin).
    exact Hs. }
  assert (Hko : (forall u,
      In u (users w) -> email u = toLowerCase email_ -> isActive u = true ->
      bcrypt_compare password_ (password u) = false) ->
   findByCredentials email_ password_ w =
     (Throw (mkExn "Error" "Invalid login credentials"), w)).
  { intros Hall.
    unfold findByCredentials, findOne_email_active, comparePassword,
      bind, get_world, ret, throw.
    destruct (lookupActiveByEmail (toLowerCase email_) (users w)) as [u|] eqn:Hfind;
      simpl; [|reflexivity].
    apply lookupActiveByEmail_some in Hfind. destruct Hfind as (Hin & He & Ha).
    now rewrite (Hall u Hin He Ha). }
  split; [|split; [exact Hko|]].
  - intros u Hin He Ha Hp.
    destruct (Hok u Hin He Ha Hp) as (rows & Hrun & Hl & Ho).
    exists (mkDoc (set_lastLogin u (clock w)) true true []), rows,
           (set_lastLogin u (clock w)).
    split; [exact Hrun|]. split; [exact Hl|].
    repeat split; try assumption.
  - split.
    + intros (d & w' & Hrun).
      destruct (lookupActiveByEmail (toLowerCase email_) (users w)) as [u|] eqn:Hfind.
      * rewrite (@findByCredentials_found L w u email_ password_ Hfind) in Hrun.
        apply lookupActiveByEmail_some in Hfind. destruct Hfind as (Hin & He & Ha).
        exists u. repeat split; try assumption.
        destruct (bcrypt_compare password_ (password u)); [reflexivity | discriminate].
      * unfold findByCredentials, findOne_email_active, bind, get_world, ret, throw
          in Hrun.
        rewrite Hfind in Hrun. discriminate.
    + intros (u & Hin & He & Ha & Hp).
      destruct (Hok u Hin He Ha Hp) as (rows & Hrun & _). eauto.
Qed.

(** On the sample collection: Alex logs in, whatever the case of the
    letters of the email he types; with a wrong password he gets the
    error, and so does the admin's email with Alex's password. *)
Lemma C4_findByCredentials_witness :
  let w := Sample.world in
  (exists user rows stored',
     findByCredentials (L := Sample.lib) "USER1@BlogSite.com" "User123!" w =
       (Ok user, with_users w rows) /\
     lookupById "u1" rows = Some stored' /\
     lastLogin stored' = 10%Z /\
     lastLogin (fields user) = 10%Z /\
     password stored' = password Sample.alex /\
     refreshTokens stored' = refreshTokens Sample.alex) /\
  findByCredentials (L := Sample.lib) "user1@blogsite.com" "User123?" w =
    (Throw (mkExn "Error" "Invalid login credentials"), w) /\
  findByCredentials (L := Sample.lib) "admin@blogsite.com" "User123!" w =
    (Throw (mkExn "Error" "Invalid login credentials"), w).
Proof.
  intros w.
  assert (Hu : unique_users (users w)).
  { split; simpl; repeat constructor; simpl; intuition discriminate. }
  assert (Hv : valid_users (users w)).
  { intros u [<- | [<- | []]]; reflexivity. }
  split; [|split].
  - destruct (proj1 (@C4_findByCredentials Sample.lib w "USER1@BlogSite.com" "User123!"
                       Hu Hv)
                Sample.alex)
      as (user & rows & stored' & Hrun & Hl & Hs & Hd & _ & _ & _ & _ & _ & Hp & _ & _ & _ & _ & Hr & _).
    + simpl. now right; left.
    + reflexivity.
    + reflexivity.
    + reflexivity.
    + exists user, rows, stored'. repeat split; assumption.
  - apply (proj1 (proj2 (@C4_findByCredentials Sample.lib w "user1@blogsite.com"
                           "User123?" Hu Hv))).
    intros u [<- | [<- | []]]; intros He Ha; try discriminate He; reflexivity.
  - apply (proj1 (proj2 (@C4_findByCredentials Sample.lib w "admin@blogsite.com"
                           "User123!" Hu Hv))).
    intros u [<- | [<- | []]]; intros He Ha; try discriminate He; reflexivity.
Defined.

(* ===================================================================== *)
(** ** Saving and the password hash *)




(* ===================================================================== *)
(** ** Deactivation *)

Section Status.

Context {L : Library}.

(** The route reaches its handler when [auth] attached an admin. *)
Lemma put_status_admin (req req1 : Request) (w w1 : World) (me : Doc) :
  auth req w = (Ok (Next req1), w1) ->
  user req1 = Some me ->
  role (fields me) = RoleAdmin ->
  put_status req w = updateUserStatus req1 w1.
Proof.
  intros Ha Hu Hr. unfold put_status. simpl. unfold bind at 1. rewrite Ha.
  unfold bind, adminAuth, ret. now rewrite Hu, Hr.
Qed.

(** Anyone else is stopped with 403 before the handler. *)
Lemma put_status_not_admin (req req1 : Request) (w w1 : World) (me : Doc) :
  auth req w = (Ok (Next req1), w1) ->
  user req1 = Some me ->
  role (fields me) = RoleUser ->
  put_status req w =
    (Ok (Respond 403 (mkJson false "Access denied. Admin privileges required." None)), w1).
Proof.
  intros Ha Hu Hr. unfold put_status. simpl. unfold bind at 1. rewrite Ha.
  unfold bind, adminAuth, fail, ret. now rewrite Hu, Hr.
Qed.

End Status.



(* ===================================================================== *)
(** ** Further properties of the middleware *)

Lemma substring_split (n : nat) (s : string) :
  s = String.substring 0 n s ++ String.substring n (String.length s - n) s.
Proof.
  revert s. induction n as [|n IH]; intros s.
  - rewrite Nat.sub_0_r, substring_0_length. now destruct s.
  - destruct s as [|ch s]; simpl; [reflexivity|].
    now rewrite <- IH.
Qed.

(** A string that starts with a prefix is the prefix followed by what
    [substring] cuts off after it. *)
Lemma startsWith_split (s p : string) :
  startsWith s p = true -> s = p ++ substring_from (String.length p) s.
Proof.
  unfold startsWith, substring_from. intros H.
  apply String.prefix_correct in H.
  rewrite (substring_split (String.length p) s) at 1. now rewrite H.
Qed.

Section AuthGate.

Context {L : Library}.

(** Whenever [auth] calls [next()], the header was [Bearer tok] with a
    non-empty token that the library verified under the primary secret,
    the id it names is that of a stored, active user, and the request goes
    on with exactly that user attached, loaded without password hash and
    refresh tokens; the world is as it was. *)
Lemma auth_next_sound (req req' : Request) (w w' : World) :
  auth req w = (Ok (Next req'), w') ->
  w' = w /\
  exists tok decoded u,
    header_Authorization req = Some ("Bearer " ++ tok) /\
    tok <> "" /\
    jwt_verify tok (JWT_SECRET (process_env w)) (clock w) = Ok decoded /\
    castObjectId (claim_id decoded) = true /\
    lookupById (claim_id decoded) (users w) = Some u /\
    isActive u = true /\
    req' = set_user req (hydrate SelectMinusPasswordRefreshTokens u).
Proof.
  unfold auth, try_catch, bind, lift, fail, ret, get_world, console_error.
  destruct (header_Authorization req) as [h|] eqn:Hh; [|discriminate].
  destruct (falsy h); simpl; [discriminate|].
  destruct (startsWith h "Bearer ") eqn:Hs; simpl; [|discriminate].
  destruct (falsy (substring_from 7 h)) eqn:Hf; simpl; [discriminate|].
  destruct (jwt_verify _ _ _) as [c|e] eqn:Hv.
  - unfold findById, throw, bind, get_world, ret.
    destruct (castObjectId (claim_id c)) eqn:Hc.
    + destruct (lookupById _ _) as [u|] eqn:Hu; simpl; [|discriminate].
      destruct (isActive u) eqn:Ha; simpl; [|discriminate].
      intros [= <- <-]. split; [reflexivity|].
      exists (substring_from 7 h), c, u.
      repeat split; try assumption.
      * f_equal. exact (startsWith_split _ _ Hs).
      * intros E. rewrite E in Hf. discriminate.
    + simpl.
      repeat match goal with
             | |- context [if ?b then _ else _] => destruct b
             end; discriminate.
  - simpl.
    repeat match goal with
           | |- context [if ?b then _ else _] => destruct b
           end; discriminate.
Qed.

(** [auth] always settles: it never throws, it answers 401 or 500
    with [success: false] and no data, or it calls [next()]; and whatever
    it does, the collection, the environment, the clock and the random
    source are as before (only the console may grow). *)
Lemma auth_settles (req : Request) (w : World) :
  exists o w',
    auth req w = (Ok o, w') /\
    users w' = users w /\ process_env w' = process_env w /\
    clock w' = clock w /\ entropy w' = entropy w /\
    match o with
    | Next _ => w' = w
    | Respond code body =>
        (code = 401 \/ code = 500) /\ success body = false /\ data body = None
    end.
Proof.
  unfold auth, try_catch, bind, lift, fail, ret, get_world, console_error.
  destruct (header_Authorization req) as [h|]; [|do 2 eexists; split; [reflexivity|]; auto 10].
  destruct (falsy h); simpl; [do 2 eexists; split; [reflexivity|]; auto 10|].
  destruct (startsWith h "Bearer "); simpl; [|do 2 eexists; split; [reflexivity|]; auto 10].
  destruct (falsy (substring_from 7 h)); simpl; [do 2 eexists; split; [reflexivity|]; auto 10|].
  destruct (jwt_verify _ _ _) as [c|e].
  - unfold findById, throw, bind, get_world, ret.
    destruct (castObjectId (claim_id c)).
    + destruct (lookupById _ _) as [u|]; simpl;
        [|do 2 eexists; split; [reflexivity|]; auto 10].
      destruct (isActive u); simpl; do 2 eexists; (split; [reflexivity|]); auto 10.
    + simpl.
      repeat match goal with
             | |- context [if ?b then _ else _] => destruct b
             end; do 2 eexists; (split; [reflexivity|]); simpl; auto 10.
  - simpl.
    repeat match goal with
           | |- context [if ?b then _ else _] => destruct b
           end; do 2 eexists; (split; [reflexivity|]); simpl; auto 10.
Qed.

(** X1. Whenever [auth] calls [next()], the header was [Bearer tok] with a
    non-empty token that the library verified under the primary secret,
    the id it names is that of a stored, active user, and the request goes
    on with exactly that user attached, loaded without password hash and
    refresh tokens; the world is as it was. *)
Theorem X1_auth_next_sound (req req' : Request) (w w' : World) :
  auth req w = (Ok (Next req'), w') ->
  w' = w /\
  exists tok decoded u,
    header_Authorization req = Some ("Bearer " ++ tok) /\
    tok <> "" /\
    jwt_verify tok (JWT_SECRET (process_env w)) (clock w) = Ok decoded /\
    castObjectId (claim_id decoded) = true /\
    lookupById (claim_id decoded) (users w) = Some u /\
    isActive u = true /\
    req' = set_user req (hydrate SelectMinusPasswordRefreshTokens u).
Proof. exact (@auth_next_sound req req' w w'). Qed.

(** X2. [auth] always settles: it never throws, it answers 401 or 500
    with [success: false] and no data, or it calls [next()]; and whatever
    it does, the collection, the environment, the clock and the random
    source are as before (only the console may grow). *)
Theorem X2_auth_settles (req : Request) (w : World) :
  exists o w',
    auth req w = (Ok o, w') /\
    users w' = users w /\ process_env w' = process_env w /\
    clock w' = clock w /\ entropy w' = entropy w /\
    match o with
    | Next _ => w' = w
    | Respond code body =>
        (code = 401 \/ code = 500) /\ success body = false /\ data body = None
    end.
Proof. exact (auth_settles req w). Qed.

(** X3. [optionalAuth] is [auth] with the failures swallowed: where [auth]
    calls [next()], [optionalAuth] hands on the same request with the same
    user attached; where [auth] responds (401 or 500), [optionalAuth]
    hands on the request as it came, with no user attached by it. *)
Theorem X3_optionalAuth_agrees_with_auth (req : Request) (w : World) :
  (forall req' w', auth req w = (Ok (Next req'), w') ->
                   optionalAuth req w = (Ok (Next req'), w)) /\
  (forall code body w', auth req w = (Ok (Respond code body), w') ->
                        optionalAuth req w = (Ok (Next req), w)).
Proof.
  unfold auth, optionalAuth, try_catch, bind, lift, fail, ret, get_world, console_error.
  destruct (header_Authorization req) as [h|]; [|split; intros; [discriminate | reflexivity]].
  destruct (falsy h); simpl; [split; intros; [discriminate | reflexivity]|].
  destruct (startsWith h "Bearer "); simpl; [|split; intros; [discriminate | reflexivity]].
  destruct (falsy (substring_from 7 h)); simpl; [split; intros; [discriminate | reflexivity]|].
  destruct (jwt_verify _ _ _) as [c|e].
  - unfold findById, throw, bind, get_world, ret.
    destruct (castObjectId (claim_id c)).
    + destruct (lookupById _ _) as [u|]; simpl;
        [|split; intros; [discriminate | reflexivity]].
      destruct (isActive u); simpl; split; intros * H;
        try discriminate; try reflexivity.
      now injection H as <- _.
    + simpl. split; intros * H; [|reflexivity].
      repeat match type of H with
             | context [if ?b then _ else _] => destruct b
             end; discriminate.
  - simpl. split; intros * H; [|reflexivity].
    repeat match type of H with
           | context [if ?b then _ else _] => destruct b
           end; discriminate.
Qed.

End AuthGate.

Section AdminGate.

Context {L : Library}.

(** X4. A route guarded by [[auth, adminAuth]] runs its handler only for a
    bearer token naming a stored, active admin, and then on the request
    with that admin attached and in the unchanged world.  In every other
    case the route answers 401, 403 or 500 itself and the collection is
    untouched, whatever the handler would have done. *)
Theorem X4_admin_gate (h : Request -> M Outcome) (req : Request) (w : World) :
  (exists req' me,
     auth req w = (Ok (Next req'), w) /\
     user req' = Some me /\
     role (fields me) = RoleAdmin /\ isActive (fields me) = true /\
     lookupById (_id (fields me)) (users w) <> None /\
     chain [auth; adminAuth] h req w = h req' w) \/
  (exists code body w',
     chain [auth; adminAuth] h req w = (Ok (Respond code body), w') /\
     (code = 401 \/ code = 403 \/ code = 500) /\
     users w' = users w).
Proof.
  destruct (auth_settles req w) as (o & w' & Ha & Hu & _ & _ & _ & Ho).
  destruct o as [code body | req1].
  - right. exists code, body, w'. destruct Ho as (Hc & _).
    split; [|split; [tauto | assumption]].
    simpl. unfold bind at 1. rewrite Ha. reflexivity.
  - subst w'.
    destruct (auth_next_sound _ _ Ha)
      as (_ & tok & c & u & _ & _ & _ & _ & Hrow & Hact & ->).
    destruct (role u) eqn:Hr.
    + right. do 3 eexists. split; [|split; [right; left; reflexivity | reflexivity]].
      simpl. unfold bind at 1. rewrite Ha.
      unfold bind, adminAuth, fail, ret. simpl. rewrite Hr. reflexivity.
    + left. exists (set_user req (hydrate SelectMinusPasswordRefreshTokens u)),
        (hydrate SelectMinusPasswordRefreshTokens u).
      repeat split; try assumption.
      * simpl. rewrite (lookupById_id _ _ Hrow), Hrow. discriminate.
      * simpl. unfold bind at 1. rewrite Ha.
        unfold bind, adminAuth, ret. simpl. rewrite Hr. reflexivity.
Qed.

(** X5. How [auth] tells its failures apart, for a bearer token that is
    not empty.  A JsonWebTokenError of the library (bad signature,
    malformed token) is answered 401 "Invalid token"; any error that is
    neither that nor a TokenExpiredError (a NotBeforeError, say) is
    answered 500; a verified token naming no stored user is answered 401
    "Token is not valid - user not found"; and a verified token whose id is
    no ObjectId makes the lookup throw a CastError, answered 500. *)
Theorem X5_auth_failures (req : Request) (w : World) (tok : string) :
  header_Authorization req = Some ("Bearer " ++ tok) ->
  tok <> "" ->
  (forall error,
     jwt_verify tok (JWT_SECRET (process_env w)) (clock w) = Throw error ->
     exn_name error = "JsonWebTokenError" ->
     fst (auth req w) = Ok (Respond 401 (mkJson false "Invalid token" None))) /\
  (forall error,
     jwt_verify tok (JWT_SECRET (process_env w)) (clock w) = Throw error ->
     exn_name error <> "JsonWebTokenError" ->
     exn_name error <> "TokenExpiredError" ->
     fst (auth req w) =
       Ok (Respond 500 (mkJson false "Server error during authentication" None))) /\
  (forall decoded,
     jwt_verify tok (JWT_SECRET (process_env w)) (clock w) = Ok decoded ->
     castObjectId (claim_id decoded) = true ->
     lookupById (claim_id decoded) (users w) = None ->
     auth req w =
       (Ok (Respond 401 (mkJson false "Token is not valid - user not found" None)), w)) /\
  (forall decoded,
     jwt_verify tok (JWT_SECRET (process_env w)) (clock w) = Ok decoded ->
     castObjectId (claim_id decoded) = false ->
     fst (auth req w) =
       Ok (Respond 500 (mkJson false "Server error during authentication" None))).
Proof.
  intros Hh Ht.
  rewrite auth_bearer with (tok := tok) by assumption.
  unfold try_catch, bind, lift.
  repeat split.
  - intros error Hv Hn. rewrite Hv. simpl. now rewrite Hn.
  - intros error Hv Hn1 Hn2. rewrite Hv. simpl.
    apply String.eqb_neq in Hn1, Hn2. now rewrite Hn1, Hn2.
  - intros decoded Hv Hc Hu. rewrite Hv.
    rewrite findById_cast by assumption. now rewrite Hu.
  - intros decoded Hv Hc. rewrite Hv.
    unfold findById. rewrite Hc. reflexivity.
Qed.

End AdminGate.

Section RefreshGate.

Context {L : Library}.

(** X6. Whenever [verifyRefreshToken] calls [next()], the body held a
    non-empty token that the library verified under the derived secret,
    the id it names is that of a stored user, the token string is one of
    that user's stored refresh tokens, and the request goes on with that
    user (loaded with its refresh tokens, without password hash) and the
    token attached; the world is as it was. *)
Theorem X6_verifyRefreshToken_next_sound (req req' : Request) (w w' : World) :
  verifyRefreshToken req w = (Ok (Next req'), w') ->
  w' = w /\
  exists tok decoded u,
    body_refreshToken req = Some tok /\
    tok <> "" /\
    jwt_verify tok (JWT_SECRET (process_env w) ++ "refresh") (clock w) = Ok decoded /\
    lookupById (claim_id decoded) (users w) = Some u /\
    In tok (map token (refreshTokens u)) /\
    req' = set_refreshToken (set_user req (hydrate SelectDefault u)) tok.
Proof.
  unfold verifyRefreshToken, try_catch, bind, lift, fail, ret, get_world, console_error.
  destruct (body_refreshToken req) as [t|] eqn:Hb; [|discriminate].
  destruct (falsy t) eqn:Hf; [discriminate|]. cbv beta iota.
  destruct (jwt_verify _ _ _) as [c|e] eqn:Hv.
  - unfold findById, throw, bind, get_world, ret.
    destruct (castObjectId (claim_id c)).
    + destruct (lookupById _ _) as [u|] eqn:Hu; simpl; [|discriminate].
      destruct (existsb _ (refreshTokens u)) eqn:He; simpl; [|discriminate].
      intros [= <- <-]. split; [reflexivity|].
      exists t, c, u. repeat split; try assumption.
      * intros E. rewrite E in Hf. discriminate.
      * now apply some_token_In.
    + simpl.
      repeat match goal with
             | |- context [if ?b then _ else _] => destruct b
             end; discriminate.
  - simpl.
    repeat match goal with
           | |- context [if ?b then _ else _] => destruct b
           end; discriminate.
Qed.

(** X7. How [verifyRefreshToken] answers its failures, for a non-empty
    token.  An expired token and a token with a bad signature get the same
    401 "Invalid or expired refresh token"; any other library error is
    answered 500; a verified token naming no stored user is answered 401
    "Invalid refresh token - user not found"; a verified token whose id is
    no ObjectId is answered 500. *)
Theorem X7_verifyRefreshToken_failures (req : Request) (w : World) (tok : string) :
  body_refreshToken req = Some tok ->
  tok <> "" ->
  (forall error,
     jwt_verify tok (JWT_SECRET (process_env w) ++ "refresh") (clock w) = Throw error ->
     exn_name error = "JsonWebTokenError" \/ exn_name error = "TokenExpiredError" ->
     fst (verifyRefreshToken req w) =
       Ok (Respond 401 (mkJson false "Invalid or expired refresh token" None))) /\
  (forall error,
     jwt_verify tok (JWT_SECRET (process_env w) ++ "refresh") (clock w) = Throw error ->
     exn_name error <> "JsonWebTokenError" ->
     exn_name error <> "TokenExpiredError" ->
     fst (verifyRefreshToken req w) =
       Ok (Respond 500
             (mkJson false "Server error during refresh token verification" None))) /\
  (forall decoded,
     jwt_verify tok (JWT_SECRET (process_env w) ++ "refresh") (clock w) = Ok decoded ->
     castObjectId (claim_id decoded) = true ->
     lookupById (claim_id decoded) (users w) = None ->
     verifyRefreshToken req w =
       (Ok (Respond 401 (mkJson false "Invalid refresh token - user not found" None)), w)) /\
  (forall decoded,
     jwt_verify tok (JWT_SECRET (process_env w) ++ "refresh") (clock w) = Ok decoded ->
     castObjectId (claim_id decoded) = false ->
     fst (verifyRefreshToken req w) =
       Ok (Respond 500
             (mkJson false "Server error during refresh token verification" None))).
Proof.
  intros Hb Ht.
  rewrite verifyRefreshToken_present with (tok := tok) by assumption.
  unfold try_catch, bind, lift.
  repeat split.
  - intros error Hv [Hn | Hn]; rewrite Hv; simpl; rewrite Hn; reflexivity.
  - intros error Hv Hn1 Hn2. rewrite Hv. simpl.
    apply String.eqb_neq in Hn1, Hn2. now rewrite Hn1, Hn2.
  - intros decoded Hv Hc Hu. rewrite Hv.
    rewrite findById_cast by assumption. now rewrite Hu.
  - intros decoded Hv Hc. rewrite Hv.
    unfold findById. rewrite Hc. reflexivity.
Qed.

End RefreshGate.

(* ===================================================================== *)
(** ** Issuing, saving and presenting tokens *)

Lemma updateOne_same (i : string) (f : User -> User) (rows : list User) (r : User) :
  (forall x, f x = x) ->
  lookupById i rows = Some r ->
  updateOne i f rows = Some rows.
Proof.
  intros Hf. unfold lookupById.
  induction rows as [|x rows IH]; simpl; [discriminate|].
  destruct (String.eqb (_id x) i); [now rewrite Hf|].
  intros H. now rewrite (IH H).
Qed.

Lemma updateOne_map {A : Type} (g : User -> A) (i : string) (f : User -> User)
      (rows rows' : list User) :
  (forall x, g (f x) = g x) ->
  updateOne i f rows = Some rows' ->
  map g rows' = map g rows.
Proof.
  intros Hg. revert rows'.
  induction rows as [|x rows IH]; simpl; intros rows'; [discriminate|].
  destruct (String.eqb (_id x) i).
  - intros [= <-]. simpl. now rewrite Hg.
  - destruct (updateOne i f rows) as [rs|]; [|discriminate].
    intros [= <-]. simpl. now rewrite (IH rs eq_refl).
Qed.

Section Tokens.

Context {L : Library}.

(** What [generateRefreshToken] returned, read back. *)
Lemma generateRefreshToken_ok (this this' : Doc) (w w' : World) (tok : string) :
  generateRefreshToken this w = (Ok (tok, this'), w') ->
  w' = w /\
  jwt_sign (mkClaims (_id (fields this)) None None)
           (JWT_SECRET (process_env w) ++ "refresh") "7d" (clock w) = Ok tok /\
  hasRefreshTokens this = true /\
  this' = assign_refreshTokens this
            (refreshTokens (fields this) ++ [mkRefreshEntry tok (clock w)]).
Proof.
  unfold generateRefreshToken, bind, get_world, lift, push_refreshToken, ret, throw.
  destruct (jwt_sign _ _ _ _) as [t|e]; [|discriminate].
  destruct (hasRefreshTokens this); [|discriminate].
  intros [= <- <- <-]. repeat split.
Qed.

(** X8. A refresh token is no access token.  While the token library
    keeps the two secrets apart ([accepts_issued_refresh_tokens]), the
    token that [generateRefreshToken] returned, presented as a bearer token
    to [auth], is answered 401 "Invalid token", whoever it names. *)
Theorem X8_refresh_token_is_no_access_token
        (w0 w0' w : World) (this this' : Doc) (tok : string) (req : Request) :
  accepts_issued_refresh_tokens L w0 w ->
  generateRefreshToken this w0 = (Ok (tok, this'), w0') ->
  header_Authorization req = Some ("Bearer " ++ tok) ->
  fst (auth req w) = Ok (Respond 401 (mkJson false "Invalid token" None)) /\
  users (snd (auth req w)) = users w.
Proof.
  intros Hlib Hgen Hh.
  apply generateRefreshToken_ok in Hgen. destruct Hgen as (_ & Hsign & _ & _).
  destruct (Hlib _ _ Hsign) as (Ht & _ & error & Hv & Hn).
  rewrite auth_bearer with (tok := tok) by assumption.
  unfold try_catch, bind, lift. rewrite Hv. simpl. rewrite Hn. simpl.
  split; reflexivity.
Qed.

(** X9. Round trip of the refresh token.  Load a stored user, let
    [generateRefreshToken] return [tok] and save the document, which
    passes validation.  Then the stored set is the one that was stored
    followed by [tok] with the current time, the rest of the stored
    document is what it was, and in any later world holding that
    collection in which the library still accepts the token,
    [verifyRefreshToken] calls [next()] with the user and [tok] attached. *)
Theorem X9_refresh_token_round_trip
        (w w1 : World) (stored : User) (this' : Doc) (tok : string) :
  lookupById (_id stored) (users w) = Some stored ->
  castObjectId (_id stored) = true ->
  generateRefreshToken (hydrate SelectDefault stored) w = (Ok (tok, this'), w1) ->
  validators this' = true ->
  exists saved rows stored',
    Document_save this' w1 = (Ok saved, with_users w rows) /\
    lookupById (_id stored) rows = Some stored' /\
    refreshTokens stored' =
      (refreshTokens stored ++ [mkRefreshEntry tok (clock w)])%list /\
    In tok (map token (refreshTokens stored')) /\
    _id stored' = _id stored /\ email stored' = email stored /\
    password stored' = password stored /\ role stored' = role stored /\
    isActive stored' = isActive stored /\
    forall w2 req,
      users w2 = rows ->
      accepts_issued_refresh_tokens L w w2 ->
      body_refreshToken req = Some tok ->
      exists req',
        verifyRefreshToken req w2 = (Ok (Next req'), w2) /\
        user req' = Some (hydrate SelectDefault stored') /\
        refreshToken req' = Some tok /\
        req' = set_refreshToken (set_user req (hydrate SelectDefault stored')) tok.
Proof.
  intros Hrow Hc Hgen Hvalid.
  apply generateRefreshToken_ok in Hgen.
  destruct Hgen as (-> & Hsign & Hhas & ->).
  set (this := hydrate SelectDefault stored) in *.
  set (this' := assign_refreshTokens this _) in *.
  rewrite Document_save_valid by assumption.
  destruct (@save_password_unmodified L this' w stored) as (rows & Hs & Hl & _);
    [ reflexivity | exact Hrow |].
  simpl in Hl.
  exists (mkDoc (fields this') (hasPassword this') (hasRefreshTokens this') []), rows.
  eexists. split; [exact Hs|]. split; [exact Hl|].
  split; [reflexivity|].
  split; [simpl; rewrite map_app; apply in_or_app; right; simpl; now left|].
  do 5 (split; [reflexivity|]).
  intros w2 req Hrows Hlib Hb.
  destruct (Hlib _ _ Hsign) as (Ht & (decoded & Hv & Hid) & _).
  simpl in Hid.
  rewrite <- Hid in Hc, Hl. rewrite <- Hrows in Hl.
  eexists. split.
  - rewrite (@verifyRefreshToken_found L req w2 tok decoded _ Hb Ht Hv Hc Hl).
    simpl.
    replace (existsb _ _) with true; [reflexivity|].
    symmetry. apply some_token_In. rewrite map_app. apply in_or_app.
    right. simpl. now left.
  - repeat split.
Qed.

(** X10. Logging out one session keeps the others.  After
    [removeRefreshToken] of [tok] and the save, a different stored token
    [tok2] of the same user is still accepted by [verifyRefreshToken]. *)
Theorem X10_logout_keeps_other_tokens
        (req2 : Request) (w : World) (tok tok2 : string) (decoded : Claims) (u : User) :
  body_refreshToken req2 = Some tok2 ->
  tok2 <> "" ->
  jwt_verify tok2 (JWT_SECRET (process_env w) ++ "refresh") (clock w) = Ok decoded ->
  castObjectId (claim_id decoded) = true ->
  lookupById (claim_id decoded) (users w) = Some u ->
  In tok2 (map token (refreshTokens u)) ->
  tok2 <> tok ->
  exists saved rows u',
    (this <- removeRefreshToken (hydrate SelectDefault u) tok ;; save this) w =
      (Ok saved, with_users w rows) /\
    lookupById (claim_id decoded) rows = Some u' /\
    ~ In tok (map token (refreshTokens u')) /\
    verifyRefreshToken req2 (with_users w rows) =
      (Ok (Next (set_refreshToken (set_user req2 (hydrate SelectDefault u')) tok2)),
       with_users w rows).
Proof.
  intros Hb Ht Hv Hc Hu Hin Hne.
  pose proof (lookupById_id _ _ Hu) as Hid.
  set (kept := filter (fun tokenObj => negb (String.eqb (token tokenObj) tok))
                      (refreshTokens u)).
  set (this := assign_refreshTokens (hydrate SelectDefault u) kept).
  destruct (@save_password_unmodified L this w u) as (rows & Hs & Hl & _);
    [reflexivity | simpl; now rewrite Hid |].
  simpl in Hl. rewrite Hid in Hl.
  exists (mkDoc (fields this) (hasPassword this) (hasRefreshTokens this) []), rows.
  eexists. split; [|split; [exact Hl | split]].
  - unfold bind, removeRefreshToken, ret. simpl. exact Hs.
  - simpl. intros H. apply some_token_In in H.
    unfold kept in H. rewrite some_token_filter in H. discriminate.
  - rewrite (@verifyRefreshToken_found L req2 (with_users w rows) tok2 decoded _
               Hb Ht Hv Hc Hl).
    simpl. replace (existsb _ kept) with true; [reflexivity|].
    symmetry. apply some_token_In.
    apply in_map_iff in Hin. destruct Hin as (x & Hx & Hxin).
    apply in_map_iff. exists x. split; [assumption|].
    apply filter_In. split; [assumption|].
    apply negb_true_iff, String.eqb_neq. congruence.
Qed.

(** A save that succeeded found the document. *)
Lemma save_ok_found (this saved : Doc) (w w1 : World) :
  save this w = (Ok saved, w1) ->
  exists stored, lookupById (_id (fields this)) (users w) = Some stored.
Proof.
  intros Hs.
  destruct (lookupById (_id (fields this)) (users w)) as [r|] eqn:Hrow; [eauto|].
  exfalso. revert Hs.
  unfold save, preSave, bind, try_catch, genSalt, get_world, ret, put_users, throw.
  destruct (isModified this Ppassword) eqn:Hm; simpl.
  - rewrite assign_password_modified by assumption. simpl.
    rewrite updateOne_missing by assumption. discriminate.
  - rewrite updateOne_missing by assumption. discriminate.
Qed.

(** X11. Saving twice never hashes twice.  When a save of a document has
    succeeded, saving the returned document again draws no salt and writes
    nothing: the hook leaves the document as it is, and the save returns
    it in the unchanged world (provided it passes validation again). *)
Theorem X11_save_again_changes_nothing (this saved : Doc) (w w1 : World) :
  Document_save this w = (Ok saved, w1) ->
  preSave saved w1 = (Ok saved, w1) /\
  save saved w1 = (Ok saved, w1) /\
  (validators saved = true -> Document_save saved w1 = (Ok saved, w1)).
Proof.
  intros Hrun. apply Document_save_ok in Hrun. destruct Hrun as [_ Hrun].
  destruct (save_ok_found _ _ Hrun) as (stored & Hrow).
  assert (Hagain : forall (d : Doc) (w1 : World) (r : User),
            modifiedPaths d = [] ->
            lookupById (_id (fields d)) (users w1) = Some r ->
            preSave d w1 = (Ok d, w1) /\ save d w1 = (Ok d, w1)).
  { intros d w2 r Hm Hr.
    destruct d as [f hp hr m]. simpl in Hm, Hr. subst m.
    split; [reflexivity|].
    unfold save, preSave, bind, get_world, ret, put_users, isModified. simpl.
    rewrite (@updateOne_same _ _ _ r); [| reflexivity | exact Hr].
    destruct w2. reflexivity. }
  assert (H : preSave saved w1 = (Ok saved, w1) /\ save saved w1 = (Ok saved, w1)).
  { destruct (isModified this Ppassword) eqn:Hm.
    - destruct (save_password_modified this w Hm Hrow) as (rows & Hs & Hl & _).
      rewrite Hs in Hrun. injection Hrun as <- <-.
      eapply Hagain; [reflexivity | simpl; exact Hl].
    - destruct (save_password_unmodified this w Hm Hrow) as (rows & Hs & Hl & _).
      rewrite Hs in Hrun. injection Hrun as <- <-.
      eapply Hagain; [reflexivity | simpl; exact Hl]. }
  destruct H as [H1 H2]. split; [exact H1|]. split; [exact H2|].
  intros Hv. now rewrite Document_save_valid.
Qed.

End Tokens.

(* ===================================================================== *)
(** ** Passwords *)

Lemma copyPaths_email (ps : list Path) (src dst : User) :
  email (copyPaths ps src dst) =
  if existsb (Path_eqb Pemail) ps then email src else email dst.
Proof.
  induction ps as [|p ps IH]; simpl; [reflexivity|].
  destruct p; simpl; auto.
Qed.

Lemma copyPaths_role (ps : list Path) (src dst : User) :
  role (copyPaths ps src dst) =
  if existsb (Path_eqb Prole) ps then role src else role dst.
Proof.
  induction ps as [|p ps IH]; simpl; [reflexivity|].
  destruct p; simpl; auto.
Qed.

Section Passwords.

Context {L : Library}.

(** A successful save keeps the ids of the collection, in order, and
    keeps the emails unless the email was assigned. *)
Lemma save_keeps_keys (this saved : Doc) (w w1 : World) :
  save this w = (Ok saved, w1) ->
  map _id (users w1) = map _id (users w) /\
  (isModified this Pemail = false -> map email (users w1) = map email (users w)).
Proof.
  unfold save, preSave, bind, try_catch, genSalt, get_world, ret, put_users, throw.
  destruct (isModified this Ppassword) eqn:Hm; simpl.
  - rewrite assign_password_modified by assumption. simpl.
    destruct (updateOne _ _ (users w)) as [rows|] eqn:Hu; [|discriminate].
    intros [= _ <-]. simpl. split.
    + apply (updateOne_map _id _ _ _ (fun x => copyPaths_id _ _ x) Hu).
    + intros He. refine (updateOne_map email _ _ _ _ Hu).
      intros x. rewrite copyPaths_email. unfold isModified in He. simpl.
      now rewrite He.
  - destruct (updateOne _ _ (users w)) as [rows|] eqn:Hu; [|discriminate].
    intros [= _ <-]. simpl. split.
    + apply (updateOne_map _id _ _ _ (fun x => copyPaths_id _ _ x) Hu).
    + intros He. refine (updateOne_map email _ _ _ _ Hu).
      intros x. rewrite copyPaths_email. unfold isModified in He.
      now rewrite He.
Qed.

(** The credentials of a stored, active user whose document passes the
    validators are accepted, in whatever case the email is typed. *)
Lemma findByCredentials_ok (w : World) (u : User) (email_ password_ : string) :
  unique_users (users w) ->
  In u (users w) -> isActive u = true ->
  toLowerCase email_ = email u ->
  validators (hydrate SelectPlusPassword u) = true ->
  bcrypt_compare password_ (password u) = true ->
  exists rows,
    findByCredentials email_ password_ w =
      (Ok (mkDoc (set_lastLogin u (clock w)) true true []), with_users w rows).
Proof.
  intros [Hids Hemails] Hin Ha He Hv Hp.
  pose proof (@lookupActiveByEmail_unique (users w) u Hemails Hin Ha) as Hfind.
  pose proof (@lookupById_unique (users w) u Hids Hin) as Hrow.
  destruct (@save_password_unmodified L
              (assign_lastLogin (hydrate SelectPlusPassword u) (clock w)) w u)
    as (rows & Hs & _); [reflexivity | exact Hrow |].
  exists rows. rewrite <- He in Hfind.
  rewrite (@findByCredentials_found L w u email_ password_ Hfind), Hp.
  rewrite Document_save_valid by exact Hv.
  exact Hs.
Qed.

(** X12. A new password logs in.  On a collection with unique ids and
    emails, assign a plaintext to the password of a document of a stored,
    active user (a change: the value is not the hash that was loaded) and
    save it.  If the document passes validation (the plaintext has six
    characters or more), the stored password becomes
    [bcrypt.hash(plaintext, salt)] for the salt drawn, nothing else of the
    stored document changing; and if [bcrypt.compare] accepts the
    plaintext against that hash, and the document stored passes the
    validators, then [findByCredentials] with the user's email, in
    whatever case, and that plaintext returns the user. *)
Theorem X12_new_password_logs_in
        (w : World) (u : User) (sel : Select) (plain email_ : string) :
  unique_users (users w) ->
  In u (users w) ->
  isActive u = true ->
  toLowerCase email_ = email u ->
  (sel = SelectPlusPassword -> plain <> password u) ->
  validators (assign_password (hydrate sel u) plain) = true ->
  let hash := bcrypt_hash plain (bcrypt_genSalt 12 (entropy w)) in
  validators (hydrate SelectPlusPassword (set_password u hash)) = true ->
  bcrypt_compare plain hash = true ->
  exists saved w1 stored' user w2,
    Document_save (assign_password (hydrate sel u) plain) w = (Ok saved, w1) /\
    lookupById (_id u) (users w1) = Some stored' /\
    password stored' = hash /\
    stored' = set_password u hash /\
    (6 <= String.length plain)%nat /\
    findByCredentials email_ plain w1 = (Ok user, w2) /\
    _id (fields user) = _id u.
Proof.
  intros Huniq Hin Ha Hlow Hnew Hvalid hash Hvalid' Hcmp.
  pose proof (@lookupById_unique (users w) u (proj1 Huniq) Hin) as Hrow.
  assert (Hassign : assign_password (hydrate sel u) plain =
                    mkDoc (set_password (fields (hydrate sel u)) plain) true
                          (hasRefreshTokens (hydrate sel u)) [Ppassword]).
  { destruct sel; try reflexivity.
    unfold assign_password. simpl.
    destruct (String.eqb plain (password u)) eqn:E; [|reflexivity].
    apply String.eqb_eq in E. now elim (Hnew eq_refl). }
  assert (Hlen : (6 <= String.length plain)%nat).
  { rewrite Hassign in Hvalid. unfold validators in Hvalid.
    cbn [hasPassword orb fields] in Hvalid.
    apply andb_true_iff in Hvalid. destruct Hvalid as [Hvalid _].
    apply andb_true_iff in Hvalid. destruct Hvalid as [Hvalid _].
    apply andb_true_iff in Hvalid. destruct Hvalid as [_ Hvalid].
    unfold valid_password in Hvalid.
    apply andb_true_iff in Hvalid. destruct Hvalid as [_ Hvalid].
    apply Nat.leb_le in Hvalid. destruct sel; exact Hvalid. }
  rewrite Document_save_valid by assumption.
  rewrite Hassign.
  set (this := mkDoc _ _ _ _).
  assert (Hthis : _id (fields this) = _id u) by (destruct sel; reflexivity).
  assert (Hplain : password (fields this) = plain) by (destruct sel; reflexivity).
  assert (Hmod : isModified this Ppassword = true) by reflexivity.
  rewrite <- Hthis in Hrow.
  destruct (save_password_modified this w Hmod Hrow) as (rows & Hs & Hl & _).
  rewrite Hplain in Hs, Hl. rewrite Hthis in Hl. fold hash in Hs, Hl.
  set (w1 := mkWorld (process_env w) rows (clock w) (S (entropy w)) (console w)) in *.
  assert (Hst : copyPaths (Ppassword :: modifiedPaths this)
                          (set_password (fields this) hash) u = set_password u hash)
    by reflexivity.
  cbn [modifiedPaths fields] in Hl. rewrite Hst in Hl.
  destruct (save_keeps_keys _ _ Hs) as (Hids & Hemails).
  assert (Huniq1 : unique_users (users w1)).
  { destruct Huniq as [H1 H2]. split.
    - now rewrite Hids.
    - rewrite Hemails; [assumption|]. destruct sel; reflexivity. }
  assert (Hin1 : In (set_password u hash) (users w1)) by exact (lookupById_In _ _ Hl).
  destruct (@findByCredentials_ok w1 (set_password u hash) email_ plain
              Huniq1 Hin1 Ha Hlow Hvalid' Hcmp)
    as (rows2 & Hlogin).
  do 5 eexists. split; [exact Hs|]. split; [exact Hl|]. split; [reflexivity|].
  split; [reflexivity|]. split; [exact Hlen|].
  split; [exact Hlogin|]. reflexivity.
Qed.

End Passwords.

(* ===================================================================== *)
(** ** The admin routes on users *)

Section AdminRoutes.

Context {L : Library}.

(** The status handler on another, stored user. *)
Lemma updateUserStatus_run (req : Request) (w : World) (me : Doc) (target : User)
      (b : bool) :
  user req = Some me ->
  body_isActive req = JsBoolean b ->
  castObjectId (params_id req) = true ->
  lookupById (params_id req) (users w) = Some target ->
  _id (fields me) <> params_id req ->
  exists body rows,
    updateUserStatus req w = (Ok (Respond 200 body), with_users w rows) /\
    lookupById (params_id req) rows =
      Some (set_refreshTokens (set_isActive target b)
              (if b then refreshTokens target else [])) /\
    (forall j, j <> params_id req -> lookupById j rows = lookupById j (users w)).
Proof.
  intros Hme Hb Hc Hrow Hne.
  pose proof (lookupById_id _ _ Hrow) as Hid.
  set (loaded := hydrate SelectDefault target).
  set (this := if negb b
               then assign_refreshTokens (assign_isActive loaded b) []
               else assign_isActive loaded b).
  assert (Hthis : _id (fields this) = params_id req).
  { subst this loaded. destruct b; simpl; exact Hid. }
  assert (Hm : isModified this Ppassword = false).
  { subst this loaded. destruct b; reflexivity. }
  destruct (@save_password_unmodified L this w target Hm) as (rows & Hs & Hl & Ho);
    [now rewrite Hthis|].
  rewrite Hthis in Hl, Ho.
  assert (Hstored : copyPaths (modifiedPaths this) (fields this) target =
                    set_refreshTokens (set_isActive target b)
                      (if b then refreshTokens target else [])).
  { subst this loaded. destruct b; reflexivity. }
  rewrite Hstored in Hl.
  eexists. exists rows. split; [|split; [exact Hl | exact Ho]].
  unfold updateUserStatus, try_catch, bind. rewrite Hb.
  rewrite findById_cast by assumption. rewrite Hrow. simpl.
  rewrite Hme. unfold ret at 1.
  assert (Hneq : String.eqb (_id target) (_id (fields me)) = false).
  { apply String.eqb_neq. congruence. }
  rewrite Hneq. unfold this, loaded in Hs. simpl in Hs. rewrite Hs. reflexivity.
Qed.

(** X13. What the status handler refuses.  A body whose [isActive] is not
    a boolean is answered 400 before anything is looked up; an id that is
    no ObjectId and an id that is not stored are both answered 404 "User
    not found"; an admin naming their own id is answered 400 "You cannot
    change your own status".  In all four cases the collection is as it
    was. *)
Theorem X13_status_refusals (req : Request) (w : World) :
  ((forall b, body_isActive req <> JsBoolean b) ->
   updateUserStatus req w =
     (Ok (Respond 400 (mkJson false "isActive must be a boolean value" None)), w)) /\
  (forall b, body_isActive req = JsBoolean b ->
             castObjectId (params_id req) = false ->
             fst (updateUserStatus req w) =
               Ok (Respond 404 (mkJson false "User not found" None)) /\
             users (snd (updateUserStatus req w)) = users w) /\
  (forall b, body_isActive req = JsBoolean b ->
             castObjectId (params_id req) = true ->
             lookupById (params_id req) (users w) = None ->
             updateUserStatus req w =
               (Ok (Respond 404 (mkJson false "User not found" None)), w)) /\
  (forall b me target,
     body_isActive req = JsBoolean b ->
     castObjectId (params_id req) = true ->
     lookupById (params_id req) (users w) = Some target ->
     user req = Some me ->
     _id (fields me) = params_id req ->
     updateUserStatus req w =
       (Ok (Respond 400 (mkJson false "You cannot change your own status" None)), w)).
Proof.
  repeat split.
  - intros Hb. unfold updateUserStatus, try_catch, fail, ret.
    destruct (body_isActive req) as [|b| |]; try reflexivity.
    now destruct (Hb b).
  - unfold updateUserStatus, try_catch, bind, findById. rewrite H, H0. reflexivity.
  - unfold updateUserStatus, try_catch, bind, findById. rewrite H, H0. reflexivity.
  - intros b Hb Hc Hu. unfold updateUserStatus, try_catch, bind. rewrite Hb.
    rewrite findById_cast by assumption. now rewrite Hu.
  - intros b me target Hb Hc Hu Hme Hid.
    unfold updateUserStatus, try_catch, bind. rewrite Hb.
    rewrite findById_cast by assumption. rewrite Hu. simpl. rewrite Hme.
    unfold ret at 1.
    rewrite (lookupById_id _ _ Hu), Hid, String.eqb_refl. reflexivity.
Qed.

(** X14. The status handler writes nothing but the flag.  Whatever the
    request, either the collection is as it was, or the request was a
    boolean [isActive] from an attached user for another, stored user, and
    then that user's stored document differs from before in [isActive] and
    [refreshTokens] only, every other document being untouched. *)
Theorem X14_status_writes_only_the_flag (req : Request) (w : World) :
  users (snd (updateUserStatus req w)) = users w \/
  exists b me target,
    body_isActive req = JsBoolean b /\
    user req = Some me /\
    _id (fields me) <> params_id req /\
    lookupById (params_id req) (users w) = Some target /\
    lookupById (params_id req) (users (snd (updateUserStatus req w))) =
      Some (set_refreshTokens (set_isActive target b)
              (if b then refreshTokens target else [])) /\
    (forall j, j <> params_id req ->
               lookupById j (users (snd (updateUserStatus req w))) =
               lookupById j (users w)).
Proof.
  destruct (body_isActive req) as [|b| |] eqn:Hb;
    try (left; unfold updateUserStatus; rewrite Hb; reflexivity).
  destruct (castObjectId (params_id req)) eqn:Hc.
  2:{ left. unfold updateUserStatus, try_catch, bind, findById.
      rewrite Hb, Hc. reflexivity. }
  destruct (lookupById (params_id req) (users w)) as [target|] eqn:Hu.
  2:{ left. unfold updateUserStatus, try_catch, bind. rewrite Hb.
      rewrite findById_cast by assumption. now rewrite Hu. }
  destruct (user req) as [me|] eqn:Hme.
  2:{ left. unfold updateUserStatus, try_catch, bind. rewrite Hb.
      rewrite findById_cast by assumption. rewrite Hu. simpl. rewrite Hme.
      reflexivity. }
  destruct (String.eqb (_id (fields me)) (params_id req)) eqn:He.
  - left. apply String.eqb_eq in He.
    unfold updateUserStatus, try_catch, bind. rewrite Hb.
    rewrite findById_cast by assumption. rewrite Hu. simpl. rewrite Hme.
    unfold ret at 1.
    rewrite (lookupById_id _ _ Hu), He, String.eqb_refl. reflexivity.
  - right. apply String.eqb_neq in He.
    destruct (updateUserStatus_run req w Hme Hb Hc Hu He) as (body & rows & Hrun & Hl & Ho).
    exists b, me, target. rewrite Hrun. simpl. auto 10.
Qed.


End AdminRoutes.

Section Immediate.

Context {L : Library}.






(** X19. What the role handler refuses.  A body whose [role] is anything
    but the strings ['user'] and ['admin'] is answered 400 before anything
    is looked up; an admin naming their own id is answered 400 "You cannot
    change your own role"; an id that is not stored is answered 404.  The
    world is as it was. *)
Theorem X19_role_refusals (role_ : JsValue) (req : Request) (w : World) :
  (role_of role_ = None ->
   updateUserRole role_ req w =
     (Ok (Respond 400 (mkJson false "Role must be either user or admin" None)), w)) /\
  (forall r, role_of role_ = Some r ->
             castObjectId (params_id req) = true ->
             lookupById (params_id req) (users w) = None ->
             updateUserRole role_ req w =
               (Ok (Respond 404 (mkJson false "User not found" None)), w)) /\
  (forall r me target,
     role_of role_ = Some r ->
     castObjectId (params_id req) = true ->
     lookupById (params_id req) (users w) = Some target ->
     user req = Some me ->
     _id (fields me) = params_id req ->
     updateUserRole role_ req w =
       (Ok (Respond 400 (mkJson false "You cannot change your own role" None)), w)).
Proof.
  split; [|split].
  - intros Hr. unfold updateUserRole, try_catch. now rewrite Hr.
  - intros r Hr Hc Hu. unfold updateUserRole, try_catch, bind. rewrite Hr.
    rewrite findById_cast by assumption. now rewrite Hu.
  - intros r me target Hr Hc Hu Hme Hid.
    unfold updateUserRole, try_catch, bind. rewrite Hr.
    rewrite findById_cast by assumption. rewrite Hu. simpl. rewrite Hme.
    unfold ret at 1.
    rewrite (lookupById_id _ _ Hu), Hid, String.eqb_refl. reflexivity.
Qed.

End Immediate.

(* ===================================================================== *)
(** ** The blogs collection *)

Lemma lookupBlog_id (i : string) (rows : list Blog) (b : Blog) :
  lookupBlog i rows = Some b -> blog_id b = i.
Proof.
  unfold lookupBlog. intros H. apply find_some in H.
  now apply String.eqb_eq.
Qed.

Lemma copyBlogPaths_id (ps : list BlogPath) (src dst : Blog) :
  blog_id (copyBlogPaths ps src dst) = blog_id dst.
Proof.
  induction ps as [|p ps IH]; simpl; [reflexivity|].
  destruct p; simpl; exact IH.
Qed.

Lemma updateBlog_lookup (i : string) (f : Blog -> Blog) (rows : list Blog) (b : Blog) :
  (forall x, blog_id (f x) = blog_id x) ->
  lookupBlog i rows = Some b ->
  exists rows',
    updateBlog i f rows = Some rows' /\
    lookupBlog i rows' = Some (f b) /\
    (forall j, j <> i -> lookupBlog j rows' = lookupBlog j rows).
Proof.
  intros Hf. unfold lookupBlog.
  induction rows as [|x rows IH]; simpl; [discriminate|].
  destruct (String.eqb (blog_id x) i) eqn:E.
  - intros [= <-]. exists (f x :: rows). simpl. rewrite Hf, E.
    repeat split. intros j Hj.
    apply String.eqb_eq in E.
    destruct (String.eqb (blog_id x) j) eqn:E'; [|reflexivity].
    apply String.eqb_eq in E'. congruence.
  - intros H. destruct (IH H) as (rows' & -> & Hl & Ho).
    exists (x :: rows'). simpl. rewrite E. repeat split; [assumption|].
    intros j Hj. rewrite (Ho j Hj). reflexivity.
Qed.

Lemma deleteBlog_other (i j : string) (rows : list Blog) :
  j <> i -> lookupBlog j (deleteBlog i rows) = lookupBlog j rows.
Proof.
  intros Hj. unfold lookupBlog.
  induction rows as [|x rows IH]; simpl; [reflexivity|].
  destruct (String.eqb (blog_id x) i) eqn:E; simpl.
  - apply String.eqb_eq in E.
    destruct (String.eqb (blog_id x) j) eqn:E'; [|reflexivity].
    apply String.eqb_eq in E'. congruence.
  - now rewrite IH.
Qed.

Lemma deleteBlog_gone (i : string) (rows : list Blog) :
  NoDup (map blog_id rows) -> lookupBlog i (deleteBlog i rows) = None.
Proof.
  unfold lookupBlog.
  induction rows as [|x rows IH]; simpl; [reflexivity|].
  intros Hnd. inversion Hnd as [|? ? Hx Hnd']; subst.
  destruct (String.eqb (blog_id x) i) eqn:E; simpl.
  - apply String.eqb_eq in E. subst i.
    destruct (find _ rows) as [y|] eqn:Hy; [|reflexivity].
    apply find_some in Hy. destruct Hy as [Hin Hy].
    apply String.eqb_eq in Hy. exfalso. apply Hx. rewrite <- Hy.
    now apply in_map.
  - rewrite E. now apply IH.
Qed.

(** [find] and [some] agree on whether a user has liked. *)
Lemma find_like_existsb (uid : string) (l : list Like) :
  (find (fun like => String.eqb (like_user like) uid) l = None <->
   existsb (fun like => String.eqb (like_user like) uid) l = false) /\
  (existsb (fun like => String.eqb (like_user like) uid) l = false <->
   ~ In uid (map like_user l)).
Proof.
  induction l as [|x l [IH1 IH2]]; simpl.
  - tauto.
  - destruct (String.eqb (like_user x) uid) eqn:E; simpl.
    + apply String.eqb_eq in E.
      split; split; try discriminate.
      intros H. exfalso. apply H. now left.
    + apply String.eqb_neq in E. split; [exact IH1|].
      rewrite IH2. tauto.
Qed.

Lemma filter_likes_none (uid : string) (l : list Like) :
  ~ In uid (map like_user l) ->
  filter (fun like => negb (String.eqb (like_user like) uid)) l = l.
Proof.
  induction l as [|x l IH]; simpl; [reflexivity|].
  intros H. destruct (String.eqb (like_user x) uid) eqn:E; simpl.
  - apply String.eqb_eq in E. exfalso. apply H. now left.
  - rewrite IH; [reflexivity|]. intros Hin. apply H. now right.
Qed.

Lemma filter_likes_not_in (uid : string) (l : list Like) :
  ~ In uid (map like_user
              (filter (fun like => negb (String.eqb (like_user like) uid)) l)).
Proof.
  intros H. apply in_map_iff in H. destruct H as (x & Hx & Hin).
  apply filter_In in Hin. destruct Hin as [_ Hin].
  apply negb_true_iff, String.eqb_neq in Hin. contradiction.
Qed.

Lemma filter_likes_NoDup (uid : string) (l : list Like) :
  NoDup (map like_user l) ->
  NoDup (map like_user
           (filter (fun like => negb (String.eqb (like_user like) uid)) l)).
Proof.
  induction l as [|x l IH]; simpl; [auto|].
  intros Hnd. inversion Hnd as [|? ? Hx Hnd']; subst.
  destruct (negb _); simpl; [|now apply IH].
  constructor; [|now apply IH].
  intros Hin. apply Hx. apply in_map_iff in Hin.
  destruct Hin as (y & Hy & Hyin). apply filter_In in Hyin.
  apply in_map_iff. exists y. tauto.
Qed.

Lemma NoDup_snoc {A : Type} (a : A) (l : list A) :
  NoDup l -> ~ In a l -> NoDup (l ++ [a]).
Proof.
  induction l as [|x l IH]; simpl; intros Hnd Hin.
  - constructor; [intros [] | constructor].
  - inversion Hnd as [|? ? Hx Hnd']; subst. constructor.
    + intros H. apply in_app_or in H. destruct H as [H | [H | []]]; [auto|].
      subst. apply Hin. now left.
    + apply IH; [assumption|]. intros H. apply Hin. now right.
Qed.

Lemma set_likes_same (b : Blog) : set_likes b (likes b) = b.
Proof. now destruct b. Qed.

Section BlogStore.

Context {L : Library}.
Variable slugify : string -> string.

(** A save of a loaded, modified blog whose title was not assigned: the
    time is stamped, the hook leaves the slug alone and the modified paths
    are written. *)
Lemma Blog_save_run (this : BlogDoc) (blogs : list Blog) (w : World) (b : Blog) :
  blog_isModified this PBtitle = false ->
  blog_modifiedPaths this <> [] ->
  lookupBlog (blog_id (blog_fields this)) blogs = Some b ->
  let this1 := assign_updatedAt this (clock w) in
  exists rows,
    Blog_save slugify this blogs w = (Ok (mkBlogDoc (blog_fields this1) [], rows), w) /\
    lookupBlog (blog_id (blog_fields this)) rows =
      Some (copyBlogPaths (blog_modifiedPaths this1) (blog_fields this1) b) /\
    (forall j, j <> blog_id (blog_fields this) ->
               lookupBlog j rows = lookupBlog j blogs).
Proof.
  intros Hm Hne Hb this1.
  destruct (@updateBlog_lookup (blog_id (blog_fields this))
              (copyBlogPaths (blog_modifiedPaths this1) (blog_fields this1)) blogs b)
    as (rows & Hu & Hl & Ho); [intros x; apply copyBlogPaths_id | assumption |].
  exists rows. split; [|split; assumption].
  subst this1. destruct this as [f [|p ps]]; [exfalso; now apply Hne|].
  unfold Blog_save, Blog_timestamps, Blog_preSave, bind, get_world, ret,
    blog_isModified in *.
  simpl in *. rewrite Hm. simpl. now rewrite Hu.
Qed.

(** [Blog.findById] on a castable id. *)
Lemma Blog_findById_cast (i : string) (blogs : list Blog) (w : World) :
  castObjectId i = true ->
  Blog_findById i blogs w =
    (Ok (option_map (fun b => mkBlogDoc b []) (lookupBlog i blogs)), w).
Proof.
  intros H. unfold Blog_findById. now rewrite H.
Qed.

(** The like handler on a visible blog: it toggles. *)
Lemma likeBlog_run (req : Request) (blogs : list Blog) (w : World)
      (me : Doc) (b : Blog) :
  user req = Some me ->
  castObjectId (params_id req) = true ->
  lookupBlog (params_id req) blogs = Some b ->
  isPublished b = true ->
  isDraft b = false ->
  let uid := _id (fields me) in
  let liked := existsb (fun like => String.eqb (like_user like) uid) (likes b) in
  let likes' :=
    if liked then filter (fun like => negb (String.eqb (like_user like) uid)) (likes b)
    else (likes b ++ [mkLike uid (clock w)])%list in
  exists blogs',
    likeBlog slugify req blogs w =
      (Ok (mkReply 200 true (Some (if liked then "Blog unliked" else "Blog liked"))
                   (LikeData (negb liked) (List.length likes')),
           blogs'), w) /\
    lookupBlog (params_id req) blogs' =
      Some (set_updatedAt (set_likes b likes') (clock w)) /\
    (forall j, j <> params_id req -> lookupBlog j blogs' = lookupBlog j blogs).
Proof.
  intros Hme Hc Hb Hp Hd uid liked likes'.
  pose proof (lookupBlog_id _ _ Hb) as Hid.
  assert (Hsave : forall l,
            exists rows,
              Blog_save slugify (assign_likes (mkBlogDoc b []) l) blogs w =
                (Ok (mkBlogDoc (set_updatedAt (set_likes b l) (clock w)) [], rows), w) /\
              lookupBlog (params_id req) rows =
                Some (set_updatedAt (set_likes b l) (clock w)) /\
              (forall j, j <> params_id req -> lookupBlog j rows = lookupBlog j blogs)).
  { intros l.
    destruct (@Blog_save_run (assign_likes (mkBlogDoc b []) l) blogs w b)
      as (rows & Hs & Hl & Ho);
      [reflexivity | discriminate | simpl; now rewrite Hid |].
    simpl in Hs, Hl, Ho. rewrite Hid in Hl, Ho. exists rows. auto. }
  destruct (Hsave likes') as (rows & Hs & Hl & Ho).
  exists rows. split; [|split; [exact Hl | exact Ho]].
  unfold likeBlog, try_catch, bind.
  rewrite Blog_findById_cast by assumption. rewrite Hb. simpl.
  rewrite Hp, Hd. simpl. unfold the_user. rewrite Hme. unfold ret at 1.
  fold uid.
  subst likes' liked.
  destruct (find _ (likes b)) as [x|] eqn:Hf.
  - destruct (existsb _ (likes b)) eqn:E.
    + unfold removeLike. simpl. rewrite Hs. reflexivity.
    + apply (proj1 (find_like_existsb uid (likes b))) in E. congruence.
  - rewrite (proj1 (proj1 (find_like_existsb uid (likes b))) Hf) in *.
    unfold addLike. simpl. rewrite Hf. unfold bind, get_world.
    rewrite Hs. reflexivity.
Qed.

End BlogStore.

(* ===================================================================== *)
(** ** Likes and deletion *)

Section Likes.

Context {L : Library}.
Variable slugify : string -> string.

(** The validators of the schema read neither the likes, nor the views,
    nor the timestamps. *)
Lemma Blog_validators_likes (b : Blog) (l : list Like) (t : Z) :
  Blog_validators (set_updatedAt (set_likes b l) t) = Blog_validators b.
Proof. reflexivity. Qed.

Lemma Blog_validators_updatedAt (b : Blog) (t : Z) :
  Blog_validators (set_updatedAt b t) = Blog_validators b.
Proof. reflexivity. Qed.

(** X20. The like handler toggles.  On a stored, published blog that is
    no draft and passes the validators of the schema, for an attached
    user: if the user has no like on it, one like of theirs with the
    current time is appended, the answer is "Blog liked" with the new
    count; if they have, all their likes are removed, the answer is "Blog
    unliked" with the remaining count.  The other likes of the blog stay,
    its [updatedAt] becomes the current time, the rest of the blog and the
    other blogs are as they were, and the stored blog still passes the
    validators. *)
Theorem X20_like_toggles (req : Request) (blogs : list Blog) (w : World)
        (me : Doc) (b : Blog) :
  user req = Some me ->
  castObjectId (params_id req) = true ->
  lookupBlog (params_id req) blogs = Some b ->
  isPublished b = true ->
  isDraft b = false ->
  Blog_validators b = true ->
  let uid := _id (fields me) in
  let liked := existsb (fun like => String.eqb (like_user like) uid) (likes b) in
  let likes' :=
    if liked then filter (fun like => negb (String.eqb (like_user like) uid)) (likes b)
    else (likes b ++ [mkLike uid (clock w)])%list in
  exists blogs' stored',
    likeBlog slugify req blogs w =
      (Ok (mkReply 200 true (Some (if liked then "Blog unliked" else "Blog liked"))
                   (LikeData (negb liked) (List.length likes')),
           blogs'), w) /\
    lookupBlog (params_id req) blogs' = Some stored' /\
    likes stored' = likes' /\
    blog_updatedAt stored' = clock w /\
    stored' = set_updatedAt (set_likes b likes') (clock w) /\
    Blog_validators stored' = true /\
    (forall j, j <> params_id req -> lookupBlog j blogs' = lookupBlog j blogs).
Proof.
  intros Hme Hc Hb Hp Hd Hv uid liked likes'.
  destruct (@likeBlog_run L slugify req blogs w me b Hme Hc Hb Hp Hd)
    as (blogs' & Hrun & Hl & Ho).
  exists blogs', (set_updatedAt (set_likes b likes') (clock w)).
  split; [exact Hrun|]. split; [exact Hl|].
  split; [reflexivity|]. split; [reflexivity|]. split; [reflexivity|].
  split; [now rewrite Blog_validators_likes | exact Ho].
Qed.

(** X21. Liking twice is undone.  When a user without a like on a visible
    blog that passes the validators sends the like request twice, the
    first answer is "Blog liked", the second "Blog unliked" with the count
    the blog had, and the stored blog has again the likes it had: it is
    what it was but for its [updatedAt]; every other blog is untouched. *)
Theorem X21_like_twice_restores (req : Request) (blogs : list Blog) (w : World)
        (me : Doc) (b : Blog) :
  user req = Some me ->
  castObjectId (params_id req) = true ->
  lookupBlog (params_id req) blogs = Some b ->
  isPublished b = true ->
  isDraft b = false ->
  Blog_validators b = true ->
  ~ In (_id (fields me)) (map like_user (likes b)) ->
  exists blogs1 blogs2 stored1 stored2,
    likeBlog slugify req blogs w =
      (Ok (mkReply 200 true (Some "Blog liked")
                   (LikeData true (S (List.length (likes b)))), blogs1), w) /\
    lookupBlog (params_id req) blogs1 = Some stored1 /\
    In (_id (fields me)) (map like_user (likes stored1)) /\
    Blog_validators stored1 = true /\
    likeBlog slugify req blogs1 w =
      (Ok (mkReply 200 true (Some "Blog unliked")
                   (LikeData false (List.length (likes b))), blogs2), w) /\
    lookupBlog (params_id req) blogs2 = Some stored2 /\
    likes stored2 = likes b /\
    stored2 = set_updatedAt b (clock w) /\
    (forall j, j <> params_id req -> lookupBlog j blogs2 = lookupBlog j blogs).
Proof.
  intros Hme Hc Hb Hp Hd Hv Hno.
  set (uid := _id (fields me)) in *.
  pose proof (proj2 (proj2 (find_like_existsb uid (likes b))) Hno) as E.
  destruct (likeBlog_run slugify req blogs w Hme Hc Hb Hp Hd)
    as (blogs1 & Hrun1 & Hl1 & Ho1).
  fold uid in Hrun1, Hl1. rewrite E in Hrun1, Hl1.
  assert (Hlen : List.length (likes b ++ [mkLike uid (clock w)]) =
                 S (List.length (likes b))).
  { rewrite length_app. simpl. lia. }
  rewrite Hlen in Hrun1.
  destruct (@likeBlog_run L slugify req blogs1 w me _ Hme Hc Hl1 Hp Hd)
    as (blogs2 & Hrun2 & Hl2 & Ho2).
  fold uid in Hrun2, Hl2. simpl in Hrun2, Hl2.
  assert (E2 : existsb (fun like => String.eqb (like_user like) uid)
                       (likes b ++ [mkLike uid (clock w)]) = true).
  { rewrite existsb_app. simpl. rewrite String.eqb_refl.
    now rewrite orb_true_r. }
  rewrite E2 in Hrun2, Hl2.
  assert (Hf : filter (fun like => negb (String.eqb (like_user like) uid))
                      (likes b ++ [mkLike uid (clock w)]) = likes b).
  { rewrite filter_app. simpl. rewrite String.eqb_refl. simpl.
    rewrite app_nil_r. now apply filter_likes_none. }
  rewrite Hf in Hrun2, Hl2.
  exists blogs1, blogs2. do 2 eexists.
  split; [exact Hrun1|]. split; [exact Hl1|].
  split; [simpl; rewrite map_app; apply in_or_app; right; simpl; now left|].
  split; [now rewrite Blog_validators_likes|].
  split; [exact Hrun2|]. split; [exact Hl2|].
  split; [reflexivity|].
  split.
  - now destruct b.
  - intros j Ej. now rewrite (Ho2 j Ej), (Ho1 j Ej).
Qed.

(** X22. At most one like per user, kept.  Whatever the request and
    whatever the like handler answers, if every stored blog had at most one
    like per user before, every stored blog has at most one like per user
    after. *)
Theorem X22_like_keeps_one_like_per_user
        (req : Request) (blogs blogs' : list Blog) (w w' : World) (r : Reply) :
  likeBlog slugify req blogs w = (Ok (r, blogs'), w') ->
  (forall j b, lookupBlog j blogs = Some b -> NoDup (map like_user (likes b))) ->
  forall j b', lookupBlog j blogs' = Some b' -> NoDup (map like_user (likes b')).
Proof.
  intros Hrun Hinv.
  assert (Hsame : blogs' = blogs ->
                  forall j b', lookupBlog j blogs' = Some b' ->
                               NoDup (map like_user (likes b'))).
  { intros ->. exact Hinv. }
  destruct (castObjectId (params_id req)) eqn:Hc.
  2:{ apply Hsame. unfold likeBlog, try_catch, bind, Blog_findById in Hrun.
      rewrite Hc in Hrun. simpl in Hrun. now injection Hrun as _ <- _. }
  destruct (lookupBlog (params_id req) blogs) as [b|] eqn:Hb.
  2:{ apply Hsame. unfold likeBlog, try_catch, bind in Hrun.
      rewrite Blog_findById_cast in Hrun by assumption. rewrite Hb in Hrun.
      simpl in Hrun. now injection Hrun as _ <- _. }
  destruct (isPublished b) eqn:Hp.
  2:{ apply Hsame. unfold likeBlog, try_catch, bind in Hrun.
      rewrite Blog_findById_cast in Hrun by assumption. rewrite Hb in Hrun.
      simpl in Hrun. rewrite Hp in Hrun. simpl in Hrun.
      now injection Hrun as _ <- _. }
  destruct (isDraft b) eqn:Hd.
  1:{ apply Hsame. unfold likeBlog, try_catch, bind in Hrun.
      rewrite Blog_findById_cast in Hrun by assumption. rewrite Hb in Hrun.
      simpl in Hrun. rewrite Hp, Hd in Hrun. simpl in Hrun.
      now injection Hrun as _ <- _. }
  destruct (user req) as [me|] eqn:Hme.
  2:{ apply Hsame. unfold likeBlog, try_catch, bind in Hrun.
      rewrite Blog_findById_cast in Hrun by assumption. rewrite Hb in Hrun.
      simpl in Hrun. rewrite Hp, Hd in Hrun. simpl in Hrun.
      unfold the_user in Hrun. rewrite Hme in Hrun. simpl in Hrun.
      now injection Hrun as _ <- _. }
  destruct (likeBlog_run slugify req blogs w Hme Hc Hb Hp Hd)
    as (rows & Hrun' & Hl & Ho).
  rewrite Hrun' in Hrun. injection Hrun as _ <- _.
  intros j b' Hj.
  destruct (String.eqb j (params_id req)) eqn:Ej.
  - apply String.eqb_eq in Ej. subst j. rewrite Hl in Hj.
    injection Hj as <-. simpl.
    pose proof (Hinv _ _ Hb) as Hnd.
    destruct (existsb _ (likes b)) eqn:E.
    + now apply filter_likes_NoDup.
    + apply (proj2 (find_like_existsb _ (likes b))) in E.
      rewrite map_app. simpl. now apply NoDup_snoc.
  - apply String.eqb_neq in Ej. rewrite (Ho j Ej) in Hj. eapply Hinv; eassumption.
Qed.

(** X23. What the like handler refuses.  A blog that is not stored, a blog
    that is unpublished or a draft, and an id that is no ObjectId all get
    the same 404 "Blog not found", and the blogs are as they were: the
    answer does not tell a hidden blog from a missing one. *)
Theorem X23_like_refusals (req : Request) (blogs : list Blog) (w : World) :
  (castObjectId (params_id req) = false ->
   fst (likeBlog slugify req blogs w) = Ok (refuse 404 "Blog not found", blogs)) /\
  (castObjectId (params_id req) = true ->
   lookupBlog (params_id req) blogs = None ->
   likeBlog slugify req blogs w = (Ok (refuse 404 "Blog not found", blogs), w)) /\
  (forall b,
     castObjectId (params_id req) = true ->
     lookupBlog (params_id req) blogs = Some b ->
     isPublished b = false \/ isDraft b = true ->
     likeBlog slugify req blogs w = (Ok (refuse 404 "Blog not found", blogs), w)).
Proof.
  split; [|split].
  - intros Hc. unfold likeBlog, try_catch, bind, Blog_findById.
    rewrite Hc. reflexivity.
  - intros Hc Hb. unfold likeBlog, try_catch, bind.
    rewrite Blog_findById_cast by assumption. now rewrite Hb.
  - intros b Hc Hb Hh. unfold likeBlog, try_catch, bind.
    rewrite Blog_findById_cast by assumption. rewrite Hb. simpl.
    destruct Hh as [-> | ->]; [reflexivity|].
    now rewrite orb_true_r.
Qed.

(** X24. Who may delete.  For an attached user and a stored blog: a user
    who is neither the author nor an admin gets 403 and the blogs are as
    they were; the author, and any admin, gets 200, the blog is removed
    and every other blog stays (and with unique ids, the id is no longer
    found). *)
Theorem X24_delete_authorization (req : Request) (blogs : list Blog) (w : World)
        (me : Doc) (b : Blog) :
  user req = Some me ->
  castObjectId (params_id req) = true ->
  lookupBlog (params_id req) blogs = Some b ->
  (author b <> _id (fields me) -> role (fields me) = RoleUser ->
   deleteBlogRoute req blogs w =
     (Ok (refuse 403 "Not authorized to delete this blog", blogs), w)) /\
  (author b = _id (fields me) \/ role (fields me) = RoleAdmin ->
   exists blogs',
     deleteBlogRoute req blogs w =
       (Ok (mkReply 200 true (Some "Blog deleted successfully") NoBlogData, blogs'), w) /\
     (forall j, j <> params_id req -> lookupBlog j blogs' = lookupBlog j blogs) /\
     (NoDup (map blog_id blogs) -> lookupBlog (params_id req) blogs' = None)).
Proof.
  intros Hme Hc Hb. split.
  - intros Hne Hr. unfold deleteBlogRoute, try_catch, bind.
    rewrite Blog_findById_cast by assumption. rewrite Hb. simpl.
    unfold the_user. rewrite Hme. unfold ret at 1.
    apply String.eqb_neq in Hne. rewrite Hne, Hr. reflexivity.
  - intros Hok. exists (deleteBlog (params_id req) blogs).
    split; [|split].
    + unfold deleteBlogRoute, try_catch, bind.
      rewrite Blog_findById_cast by assumption. rewrite Hb. simpl.
      unfold the_user. rewrite Hme. unfold ret at 1.
      destruct Hok as [He | Hr].
      * apply String.eqb_eq in He. rewrite He. reflexivity.
      * rewrite Hr. simpl. rewrite andb_false_r. reflexivity.
    + intros j Hj. now apply deleteBlog_other.
    + apply deleteBlog_gone.
Qed.

End Likes.

(* ===================================================================== *)
(** ** Reading a blog *)

Section Reading.

Context {L : Library}.
Variable slugify : string -> string.

(** The view counter of a loaded blog, saved. *)
Lemma incrementViews_run (blogs : list Blog) (w : World) (b : Blog) :
  lookupBlog (blog_id b) blogs = Some b ->
  exists rows,
    incrementViews slugify (mkBlogDoc b []) blogs w =
      (Ok (mkBlogDoc (set_updatedAt (set_views b (views b + 1)) (clock w)) [], rows),
       w) /\
    lookupBlog (blog_id b) rows =
      Some (set_updatedAt (set_views b (views b + 1)) (clock w)) /\
    (forall j, j <> blog_id b -> lookupBlog j rows = lookupBlog j blogs).
Proof.
  intros Hb.
  destruct (@Blog_save_run slugify
              (assign_views (mkBlogDoc b []) (views b + 1)) blogs w b)
    as (rows & Hs & Hl & Ho); [reflexivity | discriminate | exact Hb |].
  exists rows. unfold incrementViews. simpl in *. auto.
Qed.

(** The handler for a viewer who is not counted: the author. *)
Lemma getBlog_author (req : Request) (blogs : list Blog) (w : World)
      (me : Doc) (a : User) (b : Blog) :
  castObjectId (params_id req) = true ->
  lookupBlog (params_id req) blogs = Some b ->
  user req = Some me ->
  lookupById (author b) (users w) = Some a ->
  _id (fields me) = author b ->
  getBlog slugify req blogs w = (Ok (page_of (users w) b blogs, blogs), w).
Proof.
  intros Hc Hb Hme Ha He.
  pose proof (lookupById_id _ _ Ha) as Hid.
  unfold getBlog, try_catch, bind. rewrite Blog_findById_cast by exact Hc.
  rewrite Hb. unfold get_world. simpl. rewrite Hme.
  unfold populated_author_id, populate_author. rewrite Ha. simpl.
  rewrite Hid, He, String.eqb_refl. simpl.
  destruct (negb (isPublished b) || isDraft b); reflexivity.
Qed.

(** The handler for a viewer who is counted and may see the blog. *)
Lemma getBlog_counted (req : Request) (blogs : list Blog) (w : World) (b : Blog) :
  castObjectId (params_id req) = true ->
  lookupBlog (params_id req) blogs = Some b ->
  (user req = None /\ isPublished b = true /\ isDraft b = false) \/
  (exists me a,
     user req = Some me /\ lookupById (author b) (users w) = Some a /\
     _id (fields me) <> author b /\
     ((isPublished b = true /\ isDraft b = false) \/ role (fields me) = RoleAdmin)) ->
  exists blogs',
    getBlog slugify req blogs w =
      (Ok (page_of (users w) (set_updatedAt (set_views b (views b + 1)) (clock w))
                   blogs', blogs'), w) /\
    lookupBlog (params_id req) blogs' =
      Some (set_updatedAt (set_views b (views b + 1)) (clock w)) /\
    (forall j, j <> params_id req -> lookupBlog j blogs' = lookupBlog j blogs).
Proof.
  intros Hc Hb Hcase.
  pose proof (lookupBlog_id _ _ Hb) as Hbid.
  assert (Hb' : lookupBlog (blog_id b) blogs = Some b) by now rewrite Hbid.
  destruct (incrementViews_run blogs w Hb') as (rows & Hs & Hl & Ho).
  rewrite Hbid in Hl, Ho.
  exists rows. split; [|split; assumption].
  unfold getBlog, try_catch, bind. rewrite Blog_findById_cast by exact Hc.
  rewrite Hb. unfold get_world. simpl.
  destruct Hcase as [(Hme & Hp & Hd) | (me & a & Hme & Ha & Hne & Hvis)].
  - rewrite Hme, Hp, Hd. simpl. rewrite Hs. reflexivity.
  - pose proof (lookupById_id _ _ Ha) as Hid.
    apply String.eqb_neq in Hne.
    rewrite Hme. unfold populated_author_id, populate_author. rewrite Ha. simpl.
    rewrite Hid, Hne. simpl.
    destruct Hvis as [(Hp & Hd) | Hr].
    + rewrite Hp, Hd. simpl. rewrite Hs. reflexivity.
    + rewrite Hr. simpl.
      destruct (negb (isPublished b) || isDraft b); simpl; rewrite Hs; reflexivity.
Qed.

End Reading.

Lemma In_insert_by_publishedAt (x b : Blog) (l : list Blog) :
  In x (insert_by_publishedAt b l) <-> x = b \/ In x l.
Proof.
  induction l as [|y l IH]; simpl.
  - intuition congruence.
  - destruct (published_not_before y b); simpl; rewrite ?IH; intuition congruence.
Qed.

Lemma length_insert_by_publishedAt (b : Blog) (l : list Blog) :
  List.length (insert_by_publishedAt b l) = S (List.length l).
Proof.
  induction l as [|y l IH]; simpl; [reflexivity|].
  destruct (published_not_before y b); simpl; now rewrite ?IH.
Qed.

(** Sorting keeps the documents: the same ones, as many. *)
Lemma In_sort_publishedAt_desc (x : Blog) (l : list Blog) :
  In x (sort_publishedAt_desc l) <-> In x l.
Proof.
  unfold sort_publishedAt_desc. rewrite (in_rev l).
  induction (rev l) as [|y r IH]; simpl; [tauto|].
  rewrite In_insert_by_publishedAt, IH. intuition congruence.
Qed.

Lemma published_not_before_total (a b : Blog) :
  published_not_before a b = false -> published_not_before b a = true.
Proof.
  unfold published_not_before.
  destruct (publishedAt a), (publishedAt b); try discriminate; try reflexivity.
  intros H. apply Z.leb_gt in H. apply Z.leb_le. lia.
Qed.

Lemma published_not_before_trans (a b c : Blog) :
  published_not_before a b = true -> published_not_before b c = true ->
  published_not_before a c = true.
Proof.
  unfold published_not_before.
  destruct (publishedAt a), (publishedAt b), (publishedAt c);
    try discriminate; try reflexivity.
  intros H1 H2. apply Z.leb_le in H1, H2. apply Z.leb_le. lia.
Qed.

Lemma insert_keeps_published_desc (b : Blog) (l : list Blog) :
  published_desc l -> published_desc (insert_by_publishedAt b l).
Proof.
  induction 1 as [|y l Hy Hl IH]; simpl.
  - constructor; [intros x [] | constructor].
  - destruct (published_not_before y b) eqn:E.
    + constructor; [|exact IH].
      intros x Hx. apply In_insert_by_publishedAt in Hx.
      destruct Hx as [-> | Hx]; [exact E | now apply Hy].
    + apply published_not_before_total in E.
      constructor; [|now constructor].
      intros x [<- | Hx]; [exact E|].
      eapply published_not_before_trans; [exact E | now apply Hy].
Qed.

Lemma sort_published_desc (l : list Blog) : published_desc (sort_publishedAt_desc l).
Proof.
  unfold sort_publishedAt_desc.
  induction (rev l) as [|y r IH]; simpl; [constructor|].
  now apply insert_keeps_published_desc.
Qed.

Lemma In_firstn {A : Type} (n : nat) (x : A) (l : list A) :
  In x (firstn n l) -> In x l.
Proof.
  revert l. induction n as [|n IH]; intros [|y l]; simpl; try tauto.
  intros [H | H]; [now left | right; now apply IH].
Qed.

Lemma firstn_published_desc (n : nat) (l : list Blog) :
  published_desc l -> published_desc (firstn n l).
Proof.
  intros H. revert n. induction H as [|b l Hb Hl IH]; intros [|n]; simpl;
    try constructor.
  - intros x Hx. apply Hb. eapply In_firstn. exact Hx.
  - apply IH.
Qed.

Section ReadingRoutes.

Context {L : Library}.
Variable slugify : string -> string.


(** X26. Which views are counted.  Take a stored, published blog that is
    no draft, passes the validators of the schema, has a view counter that
    a JavaScript number holds exactly, and whose author and commenters are
    stored.  A request with no user attached, and one of an attached user
    who is not the author, are shown the blog with its view counter raised
    by exactly one and its [updatedAt] set to the current time, stored and
    in the answer, nothing else changing; the author is shown the blog and
    the collection is as it was. *)
Theorem X26_views_are_counted_for_others (req : Request) (blogs : list Blog)
        (w : World) (b : Blog) (a : User) :
  castObjectId (params_id req) = true ->
  lookupBlog (params_id req) blogs = Some b ->
  isPublished b = true ->
  isDraft b = false ->
  Blog_validators b = true ->
  isSafeInteger (views b) = true ->
  lookupById (author b) (users w) = Some a ->
  (forall c, In c (comments b) -> lookupById (comment_user c) (users w) <> None) ->
  (user req = None \/
   (exists me, user req = Some me /\ _id (fields me) <> author b) ->
   exists blogs' stored' shown related,
     getBlog slugify req blogs w =
       (Ok (mkReply 200 true None (BlogPage shown related), blogs'), w) /\
     view_blog shown = stored' /\
     lookupBlog (params_id req) blogs' = Some stored' /\
     views stored' = (views b + 1)%Z /\
     blog_updatedAt stored' = clock w /\
     stored' = set_updatedAt (set_views b (views b + 1)) (clock w) /\
     Blog_validators stored' = true /\
     likes stored' = likes b /\ comments stored' = comments b /\
     (forall j, j <> params_id req -> lookupBlog j blogs' = lookupBlog j blogs)) /\
  (forall me,
     user req = Some me ->
     _id (fields me) = author b ->
     exists shown related,
       getBlog slugify req blogs w =
         (Ok (mkReply 200 true None (BlogPage shown related), blogs), w) /\
       view_blog shown = b).
Proof.
  intros Hc Hb Hp Hd Hv Hsafe Ha Hcs. split.
  - intros Hwho.
    destruct (@getBlog_counted L slugify req blogs w b Hc Hb) as (rows & Hrun & Hl & Ho).
    { destruct Hwho as [Hme | (me & Hme & Hne)].
      - left. auto.
      - right. exists me, a. auto 10. }
    exists rows, (set_updatedAt (set_views b (views b + 1)) (clock w)).
    do 2 eexists. split; [exact Hrun|].
    repeat split; assumption.
  - intros me Hme He.
    exists (blog_toJSON_full (users w) b),
           (map (blog_toJSON (users w)) (getRelated (blog_id b) (category b) 3 blogs)).
    split; [|reflexivity].
    now apply getBlog_author with (me := me) (a := a).
Qed.


End ReadingRoutes.

(** X28. What the related blogs can be.  [getRelated] returns blogs that
    are stored, published, no draft, of the given category and different
    from the given blog, the later published ones first: a draft or an
    unpublished blog never shows up as related.  With a limit that is not
    0 it returns at most that many; with the limit 0, which the store
    takes as no limit, it returns every such blog. *)
Theorem X28_getRelated_shows_only_published
        (blogId category_ : string) (limit : nat) (blogs : list Blog) :
  (limit <> 0 -> List.length (getRelated blogId category_ limit blogs) <= limit) /\
  (limit = 0 ->
   forall x, In x blogs -> isPublished x = true -> isDraft x = false ->
             category x = category_ -> blog_id x <> blogId ->
             In x (getRelated blogId category_ limit blogs)) /\
  published_desc (getRelated blogId category_ limit blogs) /\
  forall x, In x (getRelated blogId category_ limit blogs) ->
            In x blogs /\ isPublished x = true /\ isDraft x = false /\
            category x = category_ /\ blog_id x <> blogId.
Proof.
  unfold getRelated, query_limit. split; [|split; [|split]].
  - intros Hl. apply Nat.eqb_neq in Hl. rewrite Hl.
    rewrite length_firstn. lia.
  - intros -> x Hin Hp Hd Hc Hi. simpl.
    apply In_sort_publishedAt_desc. apply filter_In. split; [assumption|].
    rewrite Hp, Hd. apply String.eqb_eq in Hc. rewrite Hc.
    apply String.eqb_neq in Hi. now rewrite Hi.
  - destruct (limit =? 0)%nat.
    + apply sort_published_desc.
    + apply firstn_published_desc, sort_published_desc.
  - intros x Hx.
    assert (Hx' : In x (sort_publishedAt_desc
                          (filter (fun b => negb (String.eqb (blog_id b) blogId)
                                            && String.eqb (category b) category_
                                            && isPublished b && negb (isDraft b))
                                  blogs))).
    { destruct (limit =? 0)%nat; [exact Hx | now apply In_firstn in Hx]. }
    apply (proj1 (In_sort_publishedAt_desc _ _)) in Hx'.
    apply filter_In in Hx'. destruct Hx' as [Hin Hx'].
    repeat (apply andb_true_iff in Hx'; destruct Hx' as [Hx' ?]).
    repeat split; try assumption.
    + now apply negb_true_iff.
    + now apply String.eqb_eq.
    + apply negb_true_iff, String.eqb_neq in Hx'. exact Hx'.
Qed.

Section Comments.

Context {L : Library}.
Variable slugify : string -> string.

(** A valid comment more keeps a blog valid. *)
Lemma Blog_validators_comment (b : Blog) (c : Comment) (t : Z) :
  Blog_validators b = true ->
  valid_comment c = true ->
  Blog_validators (set_updatedAt (set_comments b (comments b ++ [c])) t) = true.
Proof.
  unfold Blog_validators. simpl. intros Hb Hc.
  repeat (apply andb_true_iff in Hb; destruct Hb as [Hb ?]).
  rewrite forallb_app. simpl. rewrite Hc.
  repeat (apply andb_true_iff; split); assumption || reflexivity.
Qed.

(** X29. A new comment waits for approval.  Take a stored blog that
    passes the validators of the schema, just loaded, and a comment the
    schema accepts: the user id is an ObjectId, the name is not empty, the
    content is not empty and has at most 1000 characters.  [addComment]
    appends that comment with [isApproved: false] and the current time, in
    memory and in the store; the number of comments grows by one while the
    virtual [commentCount], which counts approved comments, stays what it
    was; the stored blog still passes the validators and no other blog is
    written. *)
Theorem X29_new_comment_awaits_approval
        (userId name_ content_ : string)
        (blogs : list Blog) (w : World) (b : Blog) :
  lookupBlog (blog_id b) blogs = Some b ->
  Blog_validators b = true ->
  castObjectId userId = true ->
  name_ <> "" ->
  content_ <> "" ->
  String.length content_ <= 1000 ->
  exists saved rows stored',
    addComment slugify (mkBlogDoc b []) userId name_ content_ blogs w =
      (Ok (saved, rows), w) /\
    comments (blog_fields saved) =
      (comments b ++ [mkComment userId name_ content_ false (clock w)])%list /\
    lookupBlog (blog_id b) rows = Some stored' /\
    comments stored' =
      (comments b ++ [mkComment userId name_ content_ false (clock w)])%list /\
    List.length (comments stored') = S (List.length (comments b)) /\
    commentCount stored' = commentCount b /\
    blog_updatedAt stored' = clock w /\
    likes stored' = likes b /\ views stored' = views b /\
    Blog_validators stored' = true /\
    (forall j, j <> blog_id b -> lookupBlog j rows = lookupBlog j blogs).
Proof.
  intros Hb Hv _ Hn Hc Hlen.
  set (c := mkComment userId name_ content_ false (clock w)).
  set (this' := assign_comments (mkBlogDoc b []) (comments b ++ [c])).
  destruct (@Blog_save_run slugify this' blogs w b) as (rows & Hs & Hl & Ho);
    [reflexivity | discriminate | exact Hb |].
  assert (Hvc : valid_comment c = true).
  { unfold valid_comment, c. cbn [comment_name comment_content].
    rewrite (proj2 (Nat.leb_le _ _) Hlen).
    destruct name_; [now elim Hn|]. destruct content_; [now elim Hc|].
    reflexivity. }
  do 3 eexists.
  split; [unfold addComment, bind, get_world; fold c; fold this'; exact Hs|].
  split; [reflexivity|]. split; [exact Hl|].
  split; [reflexivity|].
  split; [simpl; rewrite length_app; simpl; lia|].
  split; [unfold commentCount; simpl; rewrite filter_app; simpl;
          now rewrite app_nil_r|].
  split; [reflexivity|]. split; [reflexivity|]. split; [reflexivity|].
  split; [|exact Ho].
  exact (Blog_validators_comment b c (clock w) Hv Hvc).
Qed.

End Comments.

(* ===================================================================== *)
(** ** Pagination *)

Lemma ceil_div_bounds (a b : Z) :
  (0 < b)%Z ->
  ((ceil_div a b - 1) * b < a <= ceil_div a b * b)%Z.
Proof.
  intros Hb. unfold ceil_div.
  pose proof (Z.mul_div_le (- a) b Hb).
  pose proof (Z.mul_succ_div_gt (- a) b Hb).
  nia.
Qed.

(** X30. The pagination numbers.  A missing, unreadable or zero [page]
    counts as 1 and such a [limit] as 10, so the divisor is never zero.
    For a positive limit and a count that is not negative, [totalPages] is
    the least number of pages of that size holding the count, [hasNext]
    says exactly that documents remain after the [skip + limit] first, and
    [hasPrev] that the page is beyond the first. *)
Theorem X30_pagination_numbers (page_ limit_ : option Z) (total : Z) :
  let page := number_or page_ 1 in
  let limit := number_or limit_ 10 in
  let p := paginate page_ limit_ total in
  (limit <> 0)%Z /\ (page <> 0)%Z /\
  ((0 < limit)%Z -> (0 <= total)%Z ->
   currentPage p = page /\ totalCount p = total /\
   (0 <= totalPages p)%Z /\
   (total <= totalPages p * limit)%Z /\
   (forall n, (total <= n * limit)%Z -> (totalPages p <= n)%Z) /\
   (hasNext p = true <-> (page_skip page_ limit_ + limit < total)%Z) /\
   (hasPrev p = true <-> (1 < page)%Z)).
Proof.
  intros page limit p.
  assert (Hnz : forall v d, (d <> 0)%Z -> (number_or v d <> 0)%Z).
  { intros [n|] d Hd; simpl; [|assumption].
    destruct (n =? 0)%Z eqn:E; [assumption|]. now apply Z.eqb_neq. }
  split; [apply Hnz; lia|]. split; [apply Hnz; lia|].
  intros Hl Ht.
  pose proof (ceil_div_bounds total Hl) as [Hlo Hhi].
  subst p. unfold paginate, page_skip. simpl. fold page limit.
  repeat split; try assumption.
  - nia.
  - intros n Hn. nia.
  - intros H. apply Z.ltb_lt in H. nia.
  - intros H. apply Z.ltb_lt. nia.
  - intros H. now apply Z.ltb_lt in H.
  - intros H. now apply Z.ltb_lt.
Qed.

(* ===================================================================== *)
(** ** The properties above, on the sample data *)

(** The sample library keeps access and refresh tokens apart. *)
Lemma sample_keeps_tokens_apart :
  accepts_issued_refresh_tokens Sample.lib Sample.world Sample.world.
Proof.
  intros claims tok. simpl. unfold Sample.sign. simpl.
  intros [= <-]. split; [discriminate|]. split.
  - exists (mkClaims (claim_id claims) None None). split; [|reflexivity].
    unfold Sample.verify. simpl.
    replace (startsWith _ _) with true.
    + unfold substring_from. simpl. rewrite Nat.sub_0_r.
      now rewrite substring_0_length.
    + unfold startsWith. simpl.
      repeat match goal with
             | |- context [Ascii.ascii_dec ?a ?b] =>
                 destruct (Ascii.ascii_dec a b); [|congruence]
             end.
      destruct (claim_id claims); reflexivity.
  - unfold Sample.verify, startsWith. simpl.
    repeat match goal with
           | |- context [Ascii.ascii_dec ?a ?b] =>
               destruct (Ascii.ascii_dec a b); try congruence
           end.
    eexists. split; reflexivity.
Qed.

#[local] Existing Instance Sample.lib.

Lemma X1_auth_next_sound_witness :
  let req := Sample.bearer "Bearer s3cret.u1" in
  let w := Sample.world in
  let w' := Sample.world in
  let req' := set_user req (hydrate SelectMinusPasswordRefreshTokens Sample.alex) in
  w' = w /\
  exists tok decoded u,
    header_Authorization req = Some ("Bearer " ++ tok) /\
    tok <> "" /\
    jwt_verify tok (JWT_SECRET (process_env w)) (clock w) = Ok decoded /\
    castObjectId (claim_id decoded) = true /\
    lookupById (claim_id decoded) (users w) = Some u /\
    isActive u = true /\
    req' = set_user req (hydrate SelectMinusPasswordRefreshTokens u).
Proof.
  intros.
  apply (@X1_auth_next_sound Sample.lib req req' w w').
  - reflexivity.
Defined.

Lemma X3_optionalAuth_agrees_with_auth_witness :
  let req := Sample.bearer "Bearer stale" in
  let w := Sample.world in
  (forall req' w', auth req w = (Ok (Next req'), w') ->
                   optionalAuth req w = (Ok (Next req'), w)) /\
  (forall code body w', auth req w = (Ok (Respond code body), w') ->
                        optionalAuth req w = (Ok (Next req), w)).
Proof.
  intros.
  apply (@X3_optionalAuth_agrees_with_auth Sample.lib req w).
Defined.

Lemma X5_auth_failures_witness :
  let req := Sample.bearer "Bearer forged" in
  let w := Sample.world in
  let tok := "forged" in
  (forall error,
     jwt_verify tok (JWT_SECRET (process_env w)) (clock w) = Throw error ->
     exn_name error = "JsonWebTokenError" ->
     fst (auth req w) = Ok (Respond 401 (mkJson false "Invalid token" None))) /\
  (forall error,
     jwt_verify tok (JWT_SECRET (process_env w)) (clock w) = Throw error ->
     exn_name error <> "JsonWebTokenError" ->
     exn_name error <> "TokenExpiredError" ->
     fst (auth req w) =
       Ok (Respond 500 (mkJson false "Server error during authentication" None))) /\
  (forall decoded,
     jwt_verify tok (JWT_SECRET (process_env w)) (clock w) = Ok decoded ->
     castObjectId (claim_id decoded) = true ->
     lookupById (claim_id decoded) (users w) = None ->
     auth req w =
       (Ok (Respond 401 (mkJson false "Token is not valid - user not found" None)), w)) /\
  (forall decoded,
     jwt_verify tok (JWT_SECRET (process_env w)) (clock w) = Ok decoded ->
     castObjectId (claim_id decoded) = false ->
     fst (auth req w) =
       Ok (Respond 500 (mkJson false "Server error during authentication" None))).
Proof.
  intros.
  apply (@X5_auth_failures Sample.lib req w tok).
  - reflexivity.
  - discriminate.
Defined.

Lemma X6_verifyRefreshToken_next_sound_witness :
  let req := Sample.refresh "s3cretrefresh.u1" in
  let w := Sample.world in
  let w' := Sample.world in
  let req' := set_refreshToken (set_user req (hydrate SelectDefault Sample.alex)) "s3cretrefresh.u1" in
  w' = w /\
  exists tok decoded u,
    body_refreshToken req = Some tok /\
    tok <> "" /\
    jwt_verify tok (JWT_SECRET (process_env w) ++ "refresh") (clock w) = Ok decoded /\
    lookupById (claim_id decoded) (users w) = Some u /\
    In tok (map token (refreshTokens u)) /\
    req' = set_refreshToken (set_user req (hydrate SelectDefault u)) tok.
Proof.
  intros.
  apply (@X6_verifyRefreshToken_next_sound Sample.lib req req' w w').
  - reflexivity.
Defined.

Lemma X7_verifyRefreshToken_failures_witness :
  let req := Sample.refresh "forged" in
  let w := Sample.world in
  let tok := "forged" in
  (forall error,
     jwt_verify tok (JWT_SECRET (process_env w) ++ "refresh") (clock w) = Throw error ->
     exn_name error = "JsonWebTokenError" \/ exn_name error = "TokenExpiredError" ->
     fst (verifyRefreshToken req w) =
       Ok (Respond 401 (mkJson false "Invalid or expired refresh token" None))) /\
  (forall error,
     jwt_verify tok (JWT_SECRET (process_env w) ++ "refresh") (clock w) = Throw error ->
     exn_name error <> "JsonWebTokenError" ->
     exn_name error <> "TokenExpiredError" ->
     fst (verifyRefreshToken req w) =
       Ok (Respond 500
             (mkJson false "Server error during refresh token verification" None))) /\
  (forall decoded,
     jwt_verify tok (JWT_SECRET (process_env w) ++ "refresh") (clock w) = Ok decoded ->
     castObjectId (claim_id decoded) = true ->
     lookupById (claim_id decoded) (users w) = None ->
     verifyRefreshToken req w =
       (Ok (Respond 401 (mkJson false "Invalid refresh token - user not found" None)), w)) /\
  (forall decoded,
     jwt_verify tok (JWT_SECRET (process_env w) ++ "refresh") (clock w) = Ok decoded ->
     castObjectId (claim_id decoded) = false ->
     fst (verifyRefreshToken req w) =
       Ok (Respond 500
             (mkJson false "Server error during refresh token verification" None))).
Proof.
  intros.
  apply (@X7_verifyRefreshToken_failures Sample.lib req w tok).
  - reflexivity.
  - discriminate.
Defined.

Lemma X8_refresh_token_is_no_access_token_witness :
  let w0 := Sample.world in
  let w0' := Sample.world in
  let w := Sample.world in
  let this := hydrate SelectDefault Sample.alex in
  let tok := "s3cretrefresh.u1" in
  let this' := assign_refreshTokens this (refreshTokens (fields this) ++ [mkRefreshEntry tok 10])%list in
  let req := Sample.bearer "Bearer s3cretrefresh.u1" in
  fst (auth req w) = Ok (Respond 401 (mkJson false "Invalid token" None)) /\
  users (snd (auth req w)) = users w.
Proof.
  intros.
  apply (@X8_refresh_token_is_no_access_token Sample.lib w0 w0' w this this' tok req).
  - exact sample_keeps_tokens_apart.
  - reflexivity.
  - reflexivity.
Defined.

Lemma X9_refresh_token_round_trip_witness :
  let w := Sample.world in
  let tok := "s3cretrefresh.a1" in
  let this' := assign_refreshTokens (hydrate SelectDefault Sample.admin)
                                    [mkRefreshEntry tok 10] in
  exists saved rows stored' req',
    Document_save this' w = (Ok saved, with_users w rows) /\
    lookupById "a1" rows = Some stored' /\
    refreshTokens stored' = [mkRefreshEntry tok 10] /\
    verifyRefreshToken (Sample.refresh tok) (with_users w rows) =
      (Ok (Next req'), with_users w rows) /\
    user req' = Some (hydrate SelectDefault stored') /\
    refreshToken req' = Some tok.
Proof.
  intros w tok this'.
  destruct (@X9_refresh_token_round_trip Sample.lib w w Sample.admin this' tok)
    as (saved & rows & stored' & Hs & Hl & Hr & _ & _ & _ & _ & _ & _ & Hv).
  - reflexivity.
  - reflexivity.
  - reflexivity.
  - reflexivity.
  - destruct (Hv (with_users w rows) (Sample.refresh tok)) as (req' & Hrun & Hu & Ht & _).
    + reflexivity.
    + intros claims t H. exact (sample_keeps_tokens_apart H).
    + reflexivity.
    + exists saved, rows, stored', req'. repeat split; assumption.
Defined.

Lemma X11_save_again_changes_nothing_witness :
  let this := assign_password (hydrate SelectDefault Sample.alex) "NewPass1" in
  let w := Sample.world in
  exists saved w1,
    Document_save this w = (Ok saved, w1) /\
    entropy w1 = 1 /\
    preSave saved w1 = (Ok saved, w1) /\
    save saved w1 = (Ok saved, w1) /\
    Document_save saved w1 = (Ok saved, w1).
Proof.
  intros this w.
  do 2 eexists. split; [reflexivity|]. split; [reflexivity|].
  destruct (@X11_save_again_changes_nothing Sample.lib this _ w _ eq_refl)
    as (H1 & H2 & H3).
  split; [exact H1|]. split; [exact H2|]. apply H3. reflexivity.
Defined.

Lemma X12_new_password_logs_in_witness :
  let w := Sample.world in
  let u := Sample.alex in
  let sel := SelectPlusPassword in
  let plain := "NewPass1!" in
  let email_ := "User1@BlogSite.com" in
  let hash := "$2a$12$saltNewPass1!" in
  exists saved w1 stored' user w2,
    Document_save (assign_password (hydrate sel u) plain) w = (Ok saved, w1) /\
    lookupById (_id u) (users w1) = Some stored' /\
    password stored' = hash /\
    stored' = set_password u hash /\
    (6 <= String.length plain)%nat /\
    findByCredentials email_ plain w1 = (Ok user, w2) /\
    _id (fields user) = _id u.
Proof.
  intros.
  apply (@X12_new_password_logs_in Sample.lib w u sel plain email_).
  - split; simpl; repeat constructor; simpl; intuition discriminate.
  - simpl; auto.
  - reflexivity.
  - reflexivity.
  - discriminate.
  - reflexivity.
  - reflexivity.
  - reflexivity.
Defined.

Lemma X13_status_refusals_witness :
  let w := Sample.world in
  let ask id v :=
    mkRequest (Some "Bearer s3cret.a1") id None v
              (Some (hydrate SelectMinusPasswordRefreshTokens Sample.admin)) None in
  updateUserStatus (ask "u1" (JsString "false")) w =
    (Ok (Respond 400 (mkJson false "isActive must be a boolean value" None)), w) /\
  fst (updateUserStatus (ask "" (JsBoolean false)) w) =
    Ok (Respond 404 (mkJson false "User not found" None)) /\
  updateUserStatus (ask "u9" (JsBoolean false)) w =
    (Ok (Respond 404 (mkJson false "User not found" None)), w) /\
  updateUserStatus (ask "a1" (JsBoolean false)) w =
    (Ok (Respond 400 (mkJson false "You cannot change your own status" None)), w).
Proof.
  intros w ask. split; [|split; [|split]].
  - apply (proj1 (@X13_status_refusals Sample.lib (ask "u1" (JsString "false")) w)).
    intros b. discriminate.
  - apply (proj1 (proj2 (@X13_status_refusals Sample.lib (ask "" (JsBoolean false)) w))
             false); reflexivity.
  - apply (proj1 (proj2 (proj2 (@X13_status_refusals Sample.lib
                                  (ask "u9" (JsBoolean false)) w))) false);
      reflexivity.
  - apply (proj2 (proj2 (proj2 (@X13_status_refusals Sample.lib
                                  (ask "a1" (JsBoolean false)) w)))
             false (hydrate SelectMinusPasswordRefreshTokens Sample.admin) Sample.admin);
      reflexivity.
Defined.





Lemma X19_role_refusals_witness :
  let role_ := JsString "root" in
  let req := Demo.switch false in
  let w := Sample.world in
  (role_of role_ = None ->
   updateUserRole role_ req w =
     (Ok (Respond 400 (mkJson false "Role must be either user or admin" None)), w)) /\
  (forall r, role_of role_ = Some r ->
             castObjectId (params_id req) = true ->
             lookupById (params_id req) (users w) = None ->
             updateUserRole role_ req w =
               (Ok (Respond 404 (mkJson false "User not found" None)), w)) /\
  (forall r me target,
     role_of role_ = Some r ->
     castObjectId (params_id req) = true ->
     lookupById (params_id req) (users w) = Some target ->
     user req = Some me ->
     _id (fields me) = params_id req ->
     updateUserRole role_ req w =
       (Ok (Respond 400 (mkJson false "You cannot change your own role" None)), w)).
Proof.
  intros.
  apply (@X19_role_refusals Sample.lib role_ req w).
Defined.

Lemma X20_like_toggles_witness :
  let slugify := Demo.slugify in
  let blogs := Demo.blogs in
  let w := Demo.world in
  let b := Demo.article in
  (exists blogs' stored',
     likeBlog slugify (Demo.as_user Demo.sarah "b1") blogs w =
       (Ok (mkReply 200 true (Some "Blog liked") (LikeData true 2), blogs'), w) /\
     lookupBlog "b1" blogs' = Some stored' /\
     likes stored' = [mkLike "a1" 3; mkLike "u2" 10] /\
     Blog_validators stored' = true) /\
  (exists blogs' stored',
     likeBlog slugify (Demo.as_user Sample.admin "b1") blogs w =
       (Ok (mkReply 200 true (Some "Blog unliked") (LikeData false 0), blogs'), w) /\
     lookupBlog "b1" blogs' = Some stored' /\
     likes stored' = [] /\
     Blog_validators stored' = true).
Proof.
  intros slugify blogs w b. split.
  - destruct (@X20_like_toggles Sample.lib slugify (Demo.as_user Demo.sarah "b1") blogs w
                (hydrate SelectMinusPasswordRefreshTokens Demo.sarah) b)
      as (blogs' & stored' & Hrun & Hl & Hlikes & _ & _ & Hv & _);
      try reflexivity.
    exists blogs', stored'. repeat split; assumption.
  - destruct (@X20_like_toggles Sample.lib slugify (Demo.as_user Sample.admin "b1") blogs w
                (hydrate SelectMinusPasswordRefreshTokens Sample.admin) b)
      as (blogs' & stored' & Hrun & Hl & Hlikes & _ & _ & Hv & _);
      try reflexivity.
    exists blogs', stored'. repeat split; assumption.
Defined.

Lemma X21_like_twice_restores_witness :
  let slugify := Demo.slugify in
  let req := Demo.as_user Demo.sarah "b1" in
  let blogs := Demo.blogs in
  let w := Demo.world in
  let me := hydrate SelectMinusPasswordRefreshTokens Demo.sarah in
  let b := Demo.article in
  exists blogs1 blogs2 stored1 stored2,
    likeBlog slugify req blogs w =
      (Ok (mkReply 200 true (Some "Blog liked")
                   (LikeData true (S (List.length (likes b)))), blogs1), w) /\
    lookupBlog (params_id req) blogs1 = Some stored1 /\
    In (_id (fields me)) (map like_user (likes stored1)) /\
    Blog_validators stored1 = true /\
    likeBlog slugify req blogs1 w =
      (Ok (mkReply 200 true (Some "Blog unliked")
                   (LikeData false (List.length (likes b))), blogs2), w) /\
    lookupBlog (params_id req) blogs2 = Some stored2 /\
    likes stored2 = likes b /\
    stored2 = set_updatedAt b (clock w) /\
    (forall j, j <> params_id req -> lookupBlog j blogs2 = lookupBlog j blogs).
Proof.
  intros.
  apply (@X21_like_twice_restores Sample.lib slugify req blogs w me b).
  - reflexivity.
  - reflexivity.
  - reflexivity.
  - reflexivity.
  - reflexivity.
  - reflexivity.
  - simpl; intuition discriminate.
Defined.

Lemma X23_like_refusals_witness :
  let slugify := Demo.slugify in
  let req := Demo.as_user Demo.sarah "b2" in
  let blogs := Demo.blogs in
  let w := Demo.world in
  (castObjectId (params_id req) = false ->
   fst (likeBlog slugify req blogs w) = Ok (refuse 404 "Blog not found", blogs)) /\
  (castObjectId (params_id req) = true ->
   lookupBlog (params_id req) blogs = None ->
   likeBlog slugify req blogs w = (Ok (refuse 404 "Blog not found", blogs), w)) /\
  (forall b,
     castObjectId (params_id req) = true ->
     lookupBlog (params_id req) blogs = Some b ->
     isPublished b = false \/ isDraft b = true ->
     likeBlog slugify req blogs w = (Ok (refuse 404 "Blog not found", blogs), w)).
Proof.
  intros.
  apply (@X23_like_refusals Sample.lib slugify req blogs w).
Defined.

Lemma X24_delete_authorization_witness :
  let req := Demo.as_user Demo.sarah "b1" in
  let blogs := Demo.blogs in
  let w := Demo.world in
  let me := hydrate SelectMinusPasswordRefreshTokens Demo.sarah in
  let b := Demo.article in
  (author b <> _id (fields me) -> role (fields me) = RoleUser ->
   deleteBlogRoute req blogs w =
     (Ok (refuse 403 "Not authorized to delete this blog", blogs), w)) /\
  (author b = _id (fields me) \/ role (fields me) = RoleAdmin ->
   exists blogs',
     deleteBlogRoute req blogs w =
       (Ok (mkReply 200 true (Some "Blog deleted successfully") NoBlogData, blogs'), w) /\
     (forall j, j <> params_id req -> lookupBlog j blogs' = lookupBlog j blogs) /\
     (NoDup (map blog_id blogs) -> lookupBlog (params_id req) blogs' = None)).
Proof.
  intros.
  apply (@X24_delete_authorization Sample.lib req blogs w me b).
  - reflexivity.
  - reflexivity.
  - reflexivity.
Defined.


Lemma X26_views_are_counted_for_others_witness :
  let slugify := Demo.slugify in
  let blogs := Demo.blogs in
  let w := Demo.world in
  let b := Demo.article in
  (exists blogs' stored' shown related,
     getBlog slugify (Demo.anonymous "b1") blogs w =
       (Ok (mkReply 200 true None (BlogPage shown related), blogs'), w) /\
     view_blog shown = stored' /\
     lookupBlog "b1" blogs' = Some stored' /\
     views stored' = 8%Z) /\
  (exists shown related,
     getBlog slugify (Demo.as_user Sample.alex "b1") blogs w =
       (Ok (mkReply 200 true None (BlogPage shown related), blogs), w) /\
     views (view_blog shown) = 7%Z).
Proof.
  intros slugify blogs w b.
  assert (Hcs : forall c, In c (comments b) ->
                          lookupById (comment_user c) (users w) <> None)
    by (intros c []).
  split.
  - destruct (proj1 (@X26_views_are_counted_for_others Sample.lib slugify
                       (Demo.anonymous "b1") blogs w b Sample.alex
                       eq_refl eq_refl eq_refl eq_refl eq_refl eq_refl eq_refl Hcs))
      as (blogs' & stored' & shown & related & Hrun & Hs & Hl & Hviews & _).
    + left. reflexivity.
    + exists blogs', stored', shown, related. repeat split; assumption.
  - destruct (proj2 (@X26_views_are_counted_for_others Sample.lib slugify
                       (Demo.as_user Sample.alex "b1") blogs w b Sample.alex
                       eq_refl eq_refl eq_refl eq_refl eq_refl eq_refl eq_refl Hcs)
                (hydrate SelectMinusPasswordRefreshTokens Sample.alex))
      as (shown & related & Hrun & Hs).
    + reflexivity.
    + reflexivity.
    + exists shown, related. split; [exact Hrun|]. now rewrite Hs.
Defined.


Lemma X28_getRelated_shows_only_published_witness :
  let blogs := Demo.blogs in
  List.length (getRelated "b2" "Technology" 1 blogs) <= 1 /\
  In Demo.article (getRelated "b2" "Technology" 0 blogs) /\
  In Demo.news (getRelated "b2" "Technology" 0 blogs) /\
  (forall x, In x (getRelated "b1" "Technology" 3 blogs) ->
             isPublished x = true /\ isDraft x = false /\ blog_id x <> "b1").
Proof.
  intros blogs. split; [|split; [|split]].
  - apply (proj1 (@X28_getRelated_shows_only_published "b2" "Technology" 1 blogs)).
    discriminate.
  - apply (proj1 (proj2 (@X28_getRelated_shows_only_published "b2" "Technology" 0 blogs)));
      try reflexivity; [simpl; auto | discriminate].
  - apply (proj1 (proj2 (@X28_getRelated_shows_only_published "b2" "Technology" 0 blogs)));
      try reflexivity; [simpl; auto | discriminate].
  - intros x Hx.
    destruct (proj2 (proj2 (proj2 (@X28_getRelated_shows_only_published
                                     "b1" "Technology" 3 blogs))) x Hx)
      as (_ & Hp & Hd & _ & Hi).
    auto.
Defined.

Lemma X29_new_comment_awaits_approval_witness :
  let slugify := Demo.slugify in
  let userId := "u2" in
  let name_ := "Sarah Chen" in
  let content_ := "Well written" in
  let blogs := Demo.blogs in
  let w := Demo.world in
  let b := Demo.news in
  exists saved rows stored',
    addComment slugify (mkBlogDoc b []) userId name_ content_ blogs w =
      (Ok (saved, rows), w) /\
    comments (blog_fields saved) =
      (comments b ++ [mkComment userId name_ content_ false (clock w)])%list /\
    lookupBlog (blog_id b) rows = Some stored' /\
    comments stored' =
      (comments b ++ [mkComment userId name_ content_ false (clock w)])%list /\
    List.length (comments stored') = S (List.length (comments b)) /\
    commentCount stored' = commentCount b /\
    blog_updatedAt stored' = clock w /\
    likes stored' = likes b /\ views stored' = views b /\
    Blog_validators stored' = true /\
    (forall j, j <> blog_id b -> lookupBlog j rows = lookupBlog j blogs).
Proof.
  intros.
  apply (@X29_new_comment_awaits_approval Sample.lib slugify userId name_ content_
           blogs w b).
  - reflexivity.
  - reflexivity.
  - reflexivity.
  - discriminate.
  - discriminate.
  - simpl. lia.
Defined.

Lemma X30_pagination_numbers_witness :
  let page_ := Some 2%Z in
  let limit_ := @None Z in
  let total := 25%Z in
  let page := number_or page_ 1 in
  let limit := number_or limit_ 10 in
  let p := paginate page_ limit_ total in
  (limit <> 0)%Z /\ (page <> 0)%Z /\
  ((0 < limit)%Z -> (0 <= total)%Z ->
   currentPage p = page /\ totalCount p = total /\
   (0 <= totalPages p)%Z /\
   (total <= totalPages p * limit)%Z /\
   (forall n, (total <= n * limit)%Z -> (totalPages p <= n)%Z) /\
   (hasNext p = true <-> (page_skip page_ limit_ + limit < total)%Z) /\
   (hasPrev p = true <-> (1 < page)%Z)).
Proof.
  intros.
  apply (@X30_pagination_numbers page_ limit_ total).
Defined.

Lemma X10_logout_keeps_other_tokens_witness :
  let L := Demo.serial_lib in
  let req2 := Sample.refresh "s3cretrefresh.u4#2" in
  let w := Demo.world_emma in
  let tok := "s3cretrefresh.u4#1" in
  let tok2 := "s3cretrefresh.u4#2" in
  let decoded := mkClaims "u4" None None in
  let u := Demo.emma in
  exists saved rows u',
    (this <- removeRefreshToken (hydrate SelectDefault u) tok ;; save (L := L) this) w =
      (Ok saved, with_users w rows) /\
    lookupById (claim_id decoded) rows = Some u' /\
    ~ In tok (map token (refreshTokens u')) /\
    verifyRefreshToken (L := L) req2 (with_users w rows) =
      (Ok (Next (set_refreshToken (set_user req2 (hydrate SelectDefault u')) tok2)),
       with_users w rows).
Proof.
  intros.
  apply (@X10_logout_keeps_other_tokens Demo.serial_lib req2 w tok tok2 decoded u).
  - reflexivity.
  - discriminate.
  - reflexivity.
  - reflexivity.
  - reflexivity.
  - simpl. now right; left.
  - discriminate.
Defined.

Lemma X22_like_keeps_one_like_per_user_witness :
  let slugify := Demo.slugify in
  let req := Demo.as_user Demo.sarah "b1" in
  let blogs := Demo.blogs in
  let w := Demo.world in
  let r := mkReply 200 true (Some "Blog liked") (LikeData true 2) in
  let blogs' := [set_updatedAt (set_likes Demo.article
                                          [mkLike "a1" 3; mkLike "u2" 10]) 10;
                 Demo.draft; Demo.news] in
  likeBlog slugify req blogs w = (Ok (r, blogs'), w) /\
  (forall j b', lookupBlog j blogs' = Some b' -> NoDup (map like_user (likes b'))).
Proof.
  intros slugify req blogs w r blogs'.
  split; [reflexivity|].
  apply (@X22_like_keeps_one_like_per_user Sample.lib slugify req blogs blogs' w w r).
  - reflexivity.
  - intros j b H. apply find_some in H. destruct H as [Hin _].
    destruct Hin as [<- | [<- | [<- | []]]]; simpl;
      repeat constructor; simpl; tauto.
Defined.
